(** * ADB file explorer: the device command/session layer (handler.py)
      and the slots of the explorer window that drive it (main.py)

    A shallow embedding of [ADBHandler], of the state of the window and
    of the Python built-ins they rely on, followed by the properties of
    the listing parser, of device discovery, of the file-operation
    facade, and of the view and the navigation of the window.

    Conventions of the embedding.
    - A Python [str] is a [string]; each [ascii] stands for the code
      point of the same number (0..255).  The character classes below
      are Python's, restricted to that range.
    - The process boundary ([subprocess.run]) is a parameter: a function
      from the number of calls made so far and the argument vector to an
      outcome (a completed process or a raised exception).
    - Methods run in a state-and-exception monad over a [world] that
      records the argument vectors spawned, the records that reach the
      logger's handlers, and what was written with [print].
    - [int] of a string has the interpreter's default limit of 4300
      digits ([sys.get_int_max_str_digits()]).  [str] of a number has
      the same limit; the window applies it only to sizes that [int]
      returned, which are within it. *)

From Stdlib Require Import Ascii ZArith Lia Sorted.
From stdpp Require Import gmap strings list fin_maps pretty.

Local Open Scope Z_scope.

(* ================================================================== *)
(** * Python string built-ins *)
(* ================================================================== *)

Module Py.

(** [str.isspace] on one character, which is also the regex class [\s]
    and the separator set of [str.split()] and [str.strip()]. *)
Definition isspace (c : ascii) : bool :=
  match c with
  | "009" | "010" | "011" | "012" | "013"
  | "028" | "029" | "030" | "031" | " " | "133" | "160" => true
  | _ => false
  end%char.

(** Decimal digits: the regex class [\d] on code points below 256. *)
Definition isdigit (c : ascii) : bool :=
  match c with
  | "0" | "1" | "2" | "3" | "4" | "5" | "6" | "7" | "8" | "9" => true
  | _ => false
  end%char.

(** The line boundaries of [str.splitlines] other than the pair CR LF. *)
Definition islinebreak (c : ascii) : bool :=
  match c with
  | "010" | "011" | "012" | "013" | "028" | "029" | "030" | "133" => true
  | _ => false
  end%char.

Definition is_empty (s : string) : bool :=
  match s with "" => true | String _ _ => false end.

Fixpoint lstrip_with (p : ascii → bool) (s : string) : string :=
  match s with
  | "" => ""
  | String c s' => if p c then lstrip_with p s' else s
  end.

Fixpoint rstrip_with (p : ascii → bool) (s : string) : string :=
  match s with
  | "" => ""
  | String c s' =>
      let r := rstrip_with p s' in
      if is_empty r && p c then "" else String c r
  end.

(** [s.strip()] *)
Definition strip (s : string) : string :=
  lstrip_with isspace (rstrip_with isspace s).

(** [s.rstrip(c)] for a one-character argument *)
Definition rstrip_char (c : ascii) (s : string) : string :=
  rstrip_with (Ascii.eqb c) s.

(** [s.startswith(p)] *)
Definition startswith (p s : string) : bool := String.prefix p s.

(** [sub in s] *)
Fixpoint contains (sub s : string) : bool :=
  String.prefix sub s ||
  match s with
  | "" => false
  | String _ s' => contains sub s'
  end.

(** [s.split(sep)] for a one-character separator: never the empty list. *)
Fixpoint split (sep : ascii) (s : string) : list string :=
  match s with
  | "" => [""]
  | String c s' =>
      if Ascii.eqb c sep then "" :: split sep s'
      else match split sep s' with
           | h :: t => String c h :: t
           | [] => [String c ""]
           end
  end.

Definition starts_word (s : string) : bool :=
  match s with
  | "" => false
  | String c _ => negb (isspace c)
  end.

(** [s.split()]: the maximal runs of non-whitespace characters. *)
Fixpoint split_ws (s : string) : list string :=
  match s with
  | "" => []
  | String c s' =>
      if isspace c then split_ws s'
      else if starts_word s' then
        match split_ws s' with
        | h :: t => String c h :: t
        | [] => [String c ""]
        end
      else String c "" :: split_ws s'
  end.

(** [s.splitlines()]; [cur] is the line read so far. *)
Fixpoint splitlines_from (cur s : string) : list string :=
  match s with
  | "" => if is_empty cur then [] else [cur]
  | String c s' =>
      if Ascii.eqb c "013" then
        match s' with
        | String "010" s'' => cur :: splitlines_from "" s''
        | _ => cur :: splitlines_from "" s'
        end
      else if islinebreak c then cur :: splitlines_from "" s'
      else splitlines_from (cur +:+ String c "") s'
  end.

Definition splitlines (s : string) : list string := splitlines_from "" s.

(** [sep.join(l)] *)
Definition join (sep : string) (l : list string) : string :=
  String.concat sep l.

(** [s.replace(c, r)] for a one-character [c] *)
Fixpoint replace (c : ascii) (r : string) (s : string) : string :=
  match s with
  | "" => ""
  | String d s' => (if Ascii.eqb d c then r else String d "") +:+ replace c r s'
  end.

(** [l[:-1]] *)
Definition init {A} (l : list A) : list A := removelast l.

Definition digit_value (c : ascii) : Z := Z.of_nat (nat_of_ascii c) - 48.

Fixpoint int_from (acc : Z) (s : string) : option Z :=
  match s with
  | "" => Some acc
  | String c s' =>
      if isdigit c then int_from (10 * acc + digit_value c) s' else None
  end.

(** [sys.get_int_max_str_digits()]: the longest run of digits that the
    interpreter converts, at its default. *)
Definition int_max_str_digits : nat := 4300.

(** The number of digits at the head of [s]. *)
Fixpoint leading_digits (s : string) : nat :=
  match s with
  | "" => 0
  | String c s' => if isdigit c then S (leading_digits s') else 0
  end.

(** [int(s)] on the strings this program converts, runs of decimal
    digits; [None] is [ValueError], which a run of more than
    [int_max_str_digits] digits raises as any other text than a number
    does.  (Signs, underscores and surrounding blanks, which [int] also
    accepts, never reach it here.) *)
Definition int (s : string) : option Z :=
  match s with
  | "" => None
  | _ =>
      if (int_max_str_digits <? leading_digits s)%nat then None
      else int_from 0 s
  end.

(** The text of the [ValueError] of [int(s)].  (After the second text
    the interpreter goes on with a colon and the literal in quotes.) *)
Definition int_error (s : string) : string :=
  if (int_max_str_digits <? leading_digits s)%nat then
    "Exceeds the limit (" +:+ pretty int_max_str_digits +:+
    " digits) for integer string conversion: value has " +:+
    pretty (leading_digits s) +:+
    " digits; use sys.set_int_max_str_digits() to increase the limit"
  else "invalid literal for int() with base 10".

End Py.

#[global] Arguments Py.int_max_str_digits : simpl never.

(* ================================================================== *)
(** * The fragment of Python's [re] used by the listing pattern *)
(* ================================================================== *)

Module Re.

(** Every quantifier of the pattern applies to a one-character class, so
    repetition is indexed by a class rather than by a sub-pattern. *)
Inductive regex : Type :=
| Bol                               (* ^ *)
| Eol                               (* $ *)
| Chr (c : ascii)                   (* a literal character *)
| Plus (p : ascii → bool)           (* [p]+, greedy *)
| Rep (n : nat) (p : ascii → bool)  (* [p]{n} *)
| Grp (i : nat) (r : regex)         (* capturing group number i *)
| Cat (r1 r2 : regex).

(** Captured groups, most recent first. *)
Definition captures : Type := list (nat * string).

(** Greedy [p*] followed by the continuation [k]: the longest run is
    tried first and given back one character at a time. *)
Fixpoint star {R} (p : ascii → bool) (pos : nat) (s : string)
    (k : nat → string → option R) : option R :=
  match s with
  | String c s' =>
      if p c then
        match star p (S pos) s' k with
        | Some r => Some r
        | None => k pos s
        end
      else k pos s
  | "" => k pos s
  end.

Fixpoint rep {R} (n : nat) (p : ascii → bool) (pos : nat) (s : string)
    (k : nat → string → option R) : option R :=
  match n with
  | O => k pos s
  | S n' =>
      match s with
      | String c s' => if p c then rep n' p (S pos) s' k else None
      | "" => None
      end
  end.

(** [$] without MULTILINE: at the end, or before a final line feed. *)
Definition at_end (s : string) : bool :=
  match s with
  | "" => true
  | String "010" "" => true
  | _ => false
  end.

(** Backtracking matcher in continuation-passing style.  [pos] is the
    offset of [s] in the subject. *)
Fixpoint run (r : regex) (pos : nat) (s : string) (caps : captures)
    (k : nat → string → captures → option captures) : option captures :=
  match r with
  | Bol => if Nat.eqb pos 0 then k pos s caps else None
  | Eol => if at_end s then k pos s caps else None
  | Chr c =>
      match s with
      | String d s' => if Ascii.eqb d c then k (S pos) s' caps else None
      | "" => None
      end
  | Plus p =>
      match s with
      | String d s' =>
          if p d then star p (S pos) s' (λ pos' s'', k pos' s'' caps) else None
      | "" => None
      end
  | Rep n p => rep n p pos s (λ pos' s', k pos' s' caps)
  | Grp i r' =>
      run r' pos s caps
        (λ pos' s' caps', k pos' s' ((i, String.substring 0 (pos' - pos) s) :: caps'))
  | Cat r1 r2 =>
      run r1 pos s caps (λ pos' s' caps', run r2 pos' s' caps' k)
  end.

(** [pattern.match(s)]: anchored at offset 0, not at the end. *)
Definition match_ (r : regex) (s : string) : option captures :=
  run r 0 s [] (λ _ _ caps, Some caps).

(** [m.group(i)]; a group that took no part in the match is [None]. *)
Fixpoint group (m : captures) (i : nat) : option string :=
  match m with
  | [] => None
  | (j, s) :: m' => if Nat.eqb i j then Some s else group m' i
  end.

End Re.

Infix "⋅" := Re.Cat (at level 60, right associativity).

(** The pattern of [list_directory]:
    [^([\-dlcbpsrwxStT]+)\s+\d+\s+\S+\s+\S+\s+(\d+)\s+(\d{4}-\d{2}-\d{2})\s+(\d{2}:\d{2})\s+(.+)$] *)
Definition perm_char (c : ascii) : bool :=
  match c with
  | "-" | "d" | "l" | "c" | "b" | "p" | "s" | "r" | "w" | "x"
  | "S" | "t" | "T" => true
  | _ => false
  end%char.

Definition nonspace (c : ascii) : bool := negb (Py.isspace c).

(** [.] without DOTALL *)
Definition dot (c : ascii) : bool := negb (Ascii.eqb c "010").

Definition pattern : Re.regex :=
  Re.Bol ⋅ Re.Grp 1 (Re.Plus perm_char) ⋅ Re.Plus Py.isspace ⋅
  Re.Plus Py.isdigit ⋅ Re.Plus Py.isspace ⋅
  Re.Plus nonspace ⋅ Re.Plus Py.isspace ⋅
  Re.Plus nonspace ⋅ Re.Plus Py.isspace ⋅
  Re.Grp 2 (Re.Plus Py.isdigit) ⋅ Re.Plus Py.isspace ⋅
  Re.Grp 3 (Re.Rep 4 Py.isdigit ⋅ Re.Chr "-" ⋅ Re.Rep 2 Py.isdigit ⋅
            Re.Chr "-" ⋅ Re.Rep 2 Py.isdigit) ⋅
  Re.Plus Py.isspace ⋅
  Re.Grp 4 (Re.Rep 2 Py.isdigit ⋅ Re.Chr ":" ⋅ Re.Rep 2 Py.isdigit) ⋅
  Re.Plus Py.isspace ⋅
  Re.Grp 5 (Re.Plus dot) ⋅ Re.Eol.

(* ================================================================== *)
(** * The process boundary, the log and the method monad *)
(* ================================================================== *)

(** The exceptions that can cross this code; all are subclasses of
    [Exception].  Each carries the text that [str(e)] yields. *)
Inductive exn : Type :=
| TimeoutExpired (msg : string)     (* subprocess.TimeoutExpired *)
| FileNotFoundError (msg : string)  (* the adb executable is missing *)
| IndexError (msg : string)
| ValueError (msg : string)
| AttributeError (msg : string)
| StopIteration
| OtherException (msg : string).    (* any other Exception *)

Definition str_exn (e : exn) : string :=
  match e with
  | TimeoutExpired m | FileNotFoundError m | IndexError m | ValueError m
  | AttributeError m | OtherException m => m
  | StopIteration => ""
  end.

(** [subprocess.CompletedProcess] as produced with [capture_output] and
    [text=True]. *)
Record CompletedProcess : Type := mkCompleted {
  returncode : Z;
  stdout : string;
  stderr : string
}.

(** What one call of [subprocess.run] does. *)
Inductive outcome : Type :=
| Completed (r : CompletedProcess)
| Raised (e : exn).

Inductive level : Type := DEBUG | INFO | WARNING | ERROR.

Definition level_no (l : level) : nat :=
  match l with DEBUG => 10 | INFO => 20 | WARNING => 30 | ERROR => 40 end%nat.

(** logging_config.py: [adb_logger.setLevel(logging.WARNING)], which is
    also the level an unconfigured logger inherits from the root. *)
Definition logger_level : level := WARNING.

Record world : Type := mkWorld {
  spawned : list (list string);    (* argument vectors given to
                                      subprocess.run, oldest first *)
  log : list (level * string);     (* records passed on by the logger *)
  printed : list string            (* lines written by [print] *)
}.

Definition M (A : Type) : Type := world → (exn + A) * world.

Definition ret {A} (x : A) : M A := λ w, (inr x, w).

Definition bind {A B} (c : M A) (f : A → M B) : M B :=
  λ w, match c w with
       | (inr x, w') => f x w'
       | (inl e, w') => (inl e, w')
       end.

Definition raise {A} (e : exn) : M A := λ w, (inl e, w).

(** [try: body except Exception as e: handler(e)] *)
Definition try_except {A} (body : M A) (handler : exn → M A) : M A :=
  λ w, match body w with
       | (inr x, w') => (inr x, w')
       | (inl e, w') => handler e w'
       end.

#[global] Instance M_ret : MRet M := @ret.
#[global] Instance M_bind : MBind M := λ A B f c, bind c f.
#[global] Instance M_fmap : FMap M := λ A B f c, bind c (λ x, ret (f x)).

Definition logger_log (l : level) (msg : string) : M unit :=
  λ w, if (level_no logger_level <=? level_no l)%nat
       then (inr tt, mkWorld (spawned w) (log w ++ [(l, msg)]) (printed w))
       else (inr tt, w).

Definition logger_debug := logger_log DEBUG.
Definition logger_warning := logger_log WARNING.
Definition logger_error := logger_log ERROR.

Definition print (msg : string) : M unit :=
  λ w, (inr tt, mkWorld (spawned w) (log w) (printed w ++ [msg])).

(** [l[i]] *)
Definition index {A} (l : list A) (i : nat) : M A :=
  match l !! i with
  | Some x => ret x
  | None => raise (IndexError "list index out of range")
  end.

(** The double-quote character, as a string. *)
Definition dq : string := String "034" "".

(** Truth value of an optional string: [None] and the empty string are
    false. *)
Definition truthy (o : option string) : bool :=
  match o with
  | Some s => negb (Py.is_empty s)
  | None => false
  end.

(* ================================================================== *)
(** * handler.py *)
(* ================================================================== *)

Module FileItem.
Record t : Type := make {
  name : string;
  path : string;
  is_dir : bool;
  size : Z;
  permissions : string;
  date_modified : string
}.
End FileItem.

(** The attributes of an [ADBHandler] instance (the logger lives in the
    [world]). *)
Record ADBHandler : Type := mkHandler {
  device_serial : option string;
  devices : gmap string string;
  device_connected : bool
}.

(** [_escape_path] *)
Definition escape_path (path : string) : string :=
  let path := Py.replace "'" "\'" (Py.replace "034" ("\" +:+ dq) path) in
  dq +:+ path +:+ dq.

(** The argument vector built by [_run_adb_command]. *)
Definition adb_argv (serial : option string) (command : list string)
    : list string :=
  ["adb"] ++
  (match serial with
   | Some s => if truthy serial then ["-s"; s] else []
   | None => []
   end) ++
  command.

Definition exit_ok (o : outcome) : bool :=
  match o with
  | Completed r => returncode r =? 0
  | Raised _ => false
  end.

Section Handler.

(** [subprocess.run]: the outcome of the call number [n] (from 0) with
    argument vector [cmd]. *)
Variable subprocess_run : nat → list string → outcome.

(** The call itself: it is recorded in the world whatever its outcome. *)
Definition spawn (cmd : list string) : M CompletedProcess :=
  λ w, let w' := mkWorld (spawned w ++ [cmd]) (log w) (printed w) in
       match subprocess_run (length (spawned w)) cmd with
       | Completed r => (inr r, w')
       | Raised e => (inl e, w')
       end.

(** [_run_adb_command] (the window-hiding flags of the Windows build have
    no counterpart here). *)
Definition run_adb_command (serial : option string) (command : list string)
    : M CompletedProcess :=
  let cmd := adb_argv serial command in
  try_except (spawn cmd)
    (λ e, match e with
          | TimeoutExpired _ =>
              logger_error ("Command timed out: " +:+ Py.join " " cmd);;
              raise e
          | _ => raise e
          end).

(** ** Device discovery *)

(** [next((p.split(':')[1] for p in parts if p.startswith('model:')),
    'Unknown')] *)
Fixpoint first_model (parts : list string) : M string :=
  match parts with
  | [] => ret "Unknown"
  | p :: parts' =>
      if Py.startswith "model:" p then index (Py.split ":" p) 1
      else first_model parts'
  end.

(** The loop of [get_connected_devices] over the output lines. *)
Fixpoint devices_loop (lines : list string) (devices : gmap string string)
    : M (gmap string string) :=
  match lines with
  | [] => ret devices
  | line :: lines' =>
      if Py.contains "device " line && negb (Py.contains "devices" line) then
        let parts := Py.split_ws line in
        serial ← index parts 0;
        model ← first_model (drop 1 parts);
        devices_loop lines' (<[serial := model]> devices)
      else devices_loop lines' devices
  end.

Definition get_connected_devices (serial : option string)
    : M (gmap string string) :=
  try_except
    (result ← run_adb_command serial ["devices"; "-l"];
     if negb (returncode result =? 0) then
       logger_error ("Error getting devices: " +:+ stderr result);;
       ret ∅
     else devices_loop (Py.splitlines (stdout result)) ∅)
    (λ e, logger_error ("Error listing devices: " +:+ str_exn e);; ret ∅).

(** [next(iter(d.keys()))]; [__init__] evaluates it on a mapping with one
    key only, where the order of iteration plays no part. *)
Definition first_key (d : gmap string string) : M string :=
  match map_to_list d with
  | (k, _) :: _ => ret k
  | [] => raise StopIteration
  end.

(** [__init__] *)
Definition init (serial : option string) : M ADBHandler :=
  devices ← get_connected_devices serial;
  let connected := negb (Nat.eqb (size devices) 0) in
  if negb connected then
    logger_warning "No ADB device connected";;
    ret (mkHandler serial devices connected)
  else if negb (truthy serial) && Nat.eqb (size devices) 1 then
    k ← first_key devices;
    ret (mkHandler (Some k) devices connected)
  else ret (mkHandler serial devices connected).

(** ** Directory listing *)

(** [m.group(i)] of a match object bound to a name and used as a string:
    an absent group would fail at its first use as one. *)
Definition group (m : Re.captures) (i : nat) : M string :=
  match Re.group m i with
  | Some s => ret s
  | None => raise (AttributeError "'NoneType' object has no attribute")
  end.

(** [int(size)] *)
Definition int (s : string) : M Z :=
  match Py.int s with
  | Some n => ret n
  | None => raise (ValueError (Py.int_error s))
  end.

(** The body of the [for line in lines] loop; [items] is the list built
    so far. *)
Fixpoint parse_lines (path : string) (lines : list string)
    (items : list FileItem.t) : M (list FileItem.t) :=
  match lines with
  | [] => ret items
  | line :: lines' =>
      logger_debug ("Raw line: '" +:+ line +:+ "'");;
      let line := Py.strip line in
      if Py.is_empty line || Py.startswith "total" line then
        parse_lines path lines' items
      else
        match Re.match_ pattern line with
        | None =>
            logger_debug ("Skipping line (no regex match): '" +:+ line +:+ "'");;
            parse_lines path lines' items
        | Some m =>
            perms ← group m 1;
            size ← group m 2;
            d ← group m 3;
            t ← group m 4;
            let date := d +:+ " " +:+ t in
            name ← group m 5;
            if String.eqb name "." || String.eqb name ".." then
              parse_lines path lines' items
            else
              logger_debug ("Parsed: perms=" +:+ perms +:+ ", size=" +:+ size +:+
                            ", date=" +:+ date +:+ ", name=" +:+ name);;
              n ← int size;
              parse_lines path lines'
                (items ++ [FileItem.make name
                             (Py.rstrip_char "/" path +:+ "/" +:+ name)
                             (Py.startswith "d" perms) n perms date])
        end
  end.

(** Lines 112-143 of [list_directory]: the parser proper, run on the
    captured standard output. *)
Definition parse_listing (path text : string) : M (list FileItem.t) :=
  let lines := Py.split "010" text in
  items ← parse_lines path lines [];
  logger_debug ("Successfully parsed " +:+ pretty (length items) +:+ " items");;
  ret items.

Definition ls_command (path : string) : string :=
  "ls -la " +:+ escape_path path +:+ " 2>/dev/null || echo " +:+ dq +:+ "error" +:+ dq.

Definition list_directory (self : ADBHandler) (path : string)
    : M (list FileItem.t) :=
  if negb (device_connected self) then
    logger_error "No ADB device connected";;
    ret []
  else
    try_except
      (logger_debug ("Listing directory: " +:+ path);;
       result ← run_adb_command (device_serial self) ["shell"; ls_command path];
       if negb (returncode result =? 0) then
         logger_error ("ADB Error: " +:+ stderr result);;
         ret []
       else parse_listing path (stdout result))
      (λ e, match e with
            | TimeoutExpired _ =>
                logger_error ("Timeout listing directory: " +:+ path);;
                ret []
            | _ =>
                logger_error ("Error listing directory: " +:+ str_exn e);;
                ret []
            end).

(** ** The file-operation facade *)

Definition pull_file (self : ADBHandler) (remote_path local_path : string) : M bool :=
  if negb (device_connected self) then
    logger_error "No ADB device connected";;
    ret false
  else
    try_except
      (result ← run_adb_command (device_serial self)
                  ["pull"; remote_path; local_path];
       ret (returncode result =? 0))
      (λ e, match e with
            | TimeoutExpired _ =>
                logger_error ("Timeout pulling file: " +:+ remote_path);;
                ret false
            | _ =>
                logger_error ("Error pulling file/folder: " +:+ str_exn e);;
                ret false
            end).

Definition rename_item (self : ADBHandler) (old_path new_path : string) : M bool :=
  if negb (device_connected self) then
    logger_error "No ADB device connected";;
    ret false
  else
    try_except
      (let escaped_old := escape_path old_path in
       let escaped_new := escape_path new_path in
       result ← run_adb_command (device_serial self)
                  ["shell"; "mv " +:+ escaped_old +:+ " " +:+ escaped_new];
       ret (returncode result =? 0))
      (λ e, match e with
            | TimeoutExpired _ =>
                logger_error ("Timeout renaming: " +:+ old_path);;
                ret false
            | _ =>
                logger_error ("Error renaming: " +:+ str_exn e);;
                ret false
            end).

Definition delete_item (self : ADBHandler) (path : string) (is_dir : bool) : M bool :=
  if negb (device_connected self) then
    logger_error "No ADB device connected";;
    ret false
  else
    try_except
      (let escaped_path := escape_path path in
       let cmd := if is_dir then "rm -r " +:+ escaped_path
                  else "rm " +:+ escaped_path in
       result ← run_adb_command (device_serial self) ["shell"; cmd];
       ret (returncode result =? 0))
      (λ e, match e with
            | TimeoutExpired _ =>
                logger_error ("Timeout deleting: " +:+ path);;
                ret false
            | _ =>
                logger_error ("Error deleting: " +:+ str_exn e);;
                ret false
            end).

Definition create_file (self : ADBHandler) (remote_path : string) : M bool :=
  if negb (device_connected self) then
    logger_error "No ADB device connected";;
    ret false
  else
    try_except
      (let escaped_path := escape_path remote_path in
       result ← run_adb_command (device_serial self)
                  ["shell"; "touch " +:+ escaped_path];
       ret (returncode result =? 0))
      (λ e, match e with
            | TimeoutExpired _ =>
                logger_error ("Timeout creating file: " +:+ remote_path);;
                ret false
            | _ =>
                logger_error ("Error creating file: " +:+ str_exn e);;
                ret false
            end).

Definition create_folder (self : ADBHandler) (remote_path : string) : M bool :=
  if negb (device_connected self) then
    logger_error "No ADB device connected";;
    ret false
  else
    try_except
      (let escaped_path := escape_path remote_path in
       result ← run_adb_command (device_serial self)
                  ["shell"; "mkdir -p " +:+ escaped_path];
       ret (returncode result =? 0))
      (λ e, match e with
            | TimeoutExpired _ =>
                logger_error ("Timeout creating folder: " +:+ remote_path);;
                ret false
            | _ =>
                logger_error ("Error creating folder: " +:+ str_exn e);;
                ret false
            end).

Definition push_file (self : ADBHandler) (local_path remote_path : string) : M bool :=
  if negb (device_connected self) then
    logger_error "No ADB device connected";;
    ret false
  else
    try_except
      (result ← run_adb_command (device_serial self)
                  ["push"; local_path; remote_path];
       ret (returncode result =? 0))
      (λ e, match e with
            | TimeoutExpired _ =>
                logger_error ("Timeout pushing file: " +:+ local_path);;
                ret false
            | _ =>
                logger_error ("Error pushing file: " +:+ str_exn e);;
                ret false
            end).

(** ['/'.join(dest_path.split('/')[:-1])] *)
Definition parent_dir (dest_path : string) : string :=
  Py.join "/" (Py.init (Py.split "/" dest_path)).

Definition copy_on_device (self : ADBHandler) (src_path dest_path : string) : M bool :=
  if negb (device_connected self) then
    logger_error "No ADB device connected";;
    ret false
  else
    try_except
      (let escaped_src := escape_path src_path in
       let escaped_dest := escape_path dest_path in
       let parent := parent_dir dest_path in
       (if negb (Py.is_empty parent) then
          create_folder self parent;; ret tt
        else ret tt);;
       result ← run_adb_command (device_serial self)
                  ["shell"; "cp -r " +:+ escaped_src +:+ " " +:+ escaped_dest];
       ret (returncode result =? 0))
      (λ e, match e with
            | TimeoutExpired _ =>
                print ("Timeout copying: " +:+ src_path +:+ " to " +:+ dest_path);;
                ret false
            | _ =>
                print ("Error copying: " +:+ str_exn e);;
                ret false
            end).

Definition move_on_device (self : ADBHandler) (src_path dest_path : string) : M bool :=
  if negb (device_connected self) then
    logger_error "No ADB device connected";;
    ret false
  else
    try_except
      (let escaped_src := escape_path src_path in
       let escaped_dest := escape_path dest_path in
       let parent := parent_dir dest_path in
       (if negb (Py.is_empty parent) then
          create_folder self parent;; ret tt
        else ret tt);;
       result ← run_adb_command (device_serial self)
                  ["shell"; "mv " +:+ escaped_src +:+ " " +:+ escaped_dest];
       ret (returncode result =? 0))
      (λ e, match e with
            | TimeoutExpired _ =>
                print ("Timeout moving: " +:+ src_path +:+ " to " +:+ dest_path);;
                ret false
            | _ =>
                print ("Error moving: " +:+ str_exn e);;
                ret false
            end).

(** ** The facade as one interface *)

Inductive operation : Type :=
| ListDirectory (path : string)
| PullFile (remote_path local_path : string)
| PushFile (local_path remote_path : string)
| RenameItem (old_path new_path : string)
| DeleteItem (path : string) (is_dir : bool)
| CreateFile (remote_path : string)
| CreateFolder (remote_path : string)
| CopyOnDevice (src_path dest_path : string)
| MoveOnDevice (src_path dest_path : string).

Inductive value : Type :=
| Items (l : list FileItem.t)
| Flag (b : bool).

Definition perform (self : ADBHandler) (op : operation) : M value :=
  match op with
  | ListDirectory p => Items <$> list_directory self p
  | PullFile r l => Flag <$> pull_file self r l
  | PushFile l r => Flag <$> push_file self l r
  | RenameItem o n => Flag <$> rename_item self o n
  | DeleteItem p d => Flag <$> delete_item self p d
  | CreateFile p => Flag <$> create_file self p
  | CreateFolder p => Flag <$> create_folder self p
  | CopyOnDevice a b => Flag <$> copy_on_device self a b
  | MoveOnDevice a b => Flag <$> move_on_device self a b
  end.

End Handler.

(** The value by which an operation reports failure. *)
Definition failure (op : operation) : value :=
  match op with
  | ListDirectory _ => Items []
  | _ => Flag false
  end.

(* ================================================================== *)
(** * Vocabulary of the properties *)
(* ================================================================== *)

Fixpoint all_chars (p : ascii → bool) (s : string) : bool :=
  match s with
  | "" => true
  | String c s' => p c && all_chars p s'
  end.

(** A non-empty run of characters of one class. *)
Definition run_of (p : ascii → bool) (s : string) : bool :=
  negb (Py.is_empty s) && all_chars p s.

(** Blank other than the line feed, which ends a line. *)
Definition gap_char (c : ascii) : bool := Py.isspace c && dot c.

(** YYYY-MM-DD *)
Definition is_date (s : string) : bool :=
  match s with
  | String y1 (String y2 (String y3 (String y4 (String h1
      (String m1 (String m2 (String h2 (String d1 (String d2 ""))))))))) =>
      Py.isdigit y1 && Py.isdigit y2 && Py.isdigit y3 && Py.isdigit y4 &&
      Ascii.eqb h1 "-" && Py.isdigit m1 && Py.isdigit m2 &&
      Ascii.eqb h2 "-" && Py.isdigit d1 && Py.isdigit d2
  | _ => false
  end.

(** HH:MM *)
Definition is_time (s : string) : bool :=
  match s with
  | String h1 (String h2 (String c (String m1 (String m2 "")))) =>
      Py.isdigit h1 && Py.isdigit h2 && Ascii.eqb c ":" &&
      Py.isdigit m1 && Py.isdigit m2
  | _ => false
  end.

(** The columns of a long-format listing line and the blanks between
    them. *)
Record listing_line : Type := mkLine {
  l_perms : string;  gap1 : string;
  l_links : string;  gap2 : string;
  l_owner : string;  gap3 : string;
  l_group : string;  gap4 : string;
  l_size : string;   gap5 : string;
  l_date : string;   gap6 : string;
  l_time : string;   gap7 : string;
  l_name : string
}.

(** The line as text. *)
Definition render (f : listing_line) : string :=
  l_perms f +:+ gap1 f +:+ l_links f +:+ gap2 f +:+ l_owner f +:+ gap3 f +:+
  l_group f +:+ gap4 f +:+ l_size f +:+ gap5 f +:+ l_date f +:+ gap6 f +:+
  l_time f +:+ gap7 f +:+ l_name f.

(** A well-formed line: a permissions run, a numeric link count, two
    owner/group tokens, a numeric size, a date, a time, and a name that
    is the rest of the line, so that it neither begins nor ends with a
    blank and holds no line feed. *)
Definition well_formed (f : listing_line) : bool :=
  run_of perm_char (l_perms f) && run_of gap_char (gap1 f) &&
  run_of Py.isdigit (l_links f) && run_of gap_char (gap2 f) &&
  run_of nonspace (l_owner f) && run_of gap_char (gap3 f) &&
  run_of nonspace (l_group f) && run_of gap_char (gap4 f) &&
  run_of Py.isdigit (l_size f) && run_of gap_char (gap5 f) &&
  is_date (l_date f) && run_of gap_char (gap6 f) &&
  is_time (l_time f) && run_of gap_char (gap7 f) &&
  run_of dot (l_name f) && String.eqb (Py.strip (l_name f)) (l_name f).

(** The entry that a line stands for under base path [path], once its
    size column is read as the number [n]. *)
Definition entry_of (path : string) (f : listing_line) (n : Z) : FileItem.t :=
  FileItem.make (l_name f)
    (Py.rstrip_char "/" path +:+ "/" +:+ l_name f)
    (Py.startswith "d" (l_perms f)) n (l_perms f)
    (l_date f +:+ " " +:+ l_time f).

(** A world in which nothing has happened yet. *)
Definition w0 : world := mkWorld [] [] [].

(** A process boundary at which every call completes with the same
    result. *)
Definition always (r : CompletedProcess) : nat → list string → outcome :=
  λ _ _, Completed r.

Definition notes_line : listing_line :=
  mkLine "-rw-r--r--" " " "1" " " "root" " " "root" " " "1024" " "
         "2024-01-15" " " "10:30" " " "notes.txt".

(** The listing line of the current directory. *)
Definition dot_line : listing_line :=
  mkLine "drwxr-xr-x" " " "2" " " "root" " " "root" " " "4096" " "
         "2024-01-15" " " "10:30" " " ".".

(** A directory and a symbolic link as [ls -la] prints them. *)
Definition docs_text : string :=
  "drwxr-xr-x 2 root root 4096 2024-01-15 10:30 docs".

Definition symlink_text : string :=
  "lrwxrwxrwx 1 root root 21 2024-01-15 10:30 sdcard -> /storage/self/primary".

(** A listing as [ls -la] prints it: the total line, the two dot entries
    and one file. *)
Definition full_text : string :=
  "total 8" +:+ String "010" "" +:+
  "drwxr-xr-x 2 root root 4096 2024-01-15 10:30 ." +:+ String "010" "" +:+
  "drwxr-xr-x 9 root root 4096 2024-01-15 10:30 .." +:+ String "010" "" +:+
  "-rw-r--r-- 1 root root 1024 2024-01-15 10:30 notes.txt" +:+
  String "010" "".

(** A run of [n] digits 9. *)
Fixpoint nines (n : nat) : string :=
  match n with
  | O => ""
  | S n' => String "9" (nines n')
  end.

(** A listing in which the size column of the second line has one digit
    more than [int] converts. *)
Definition overlong_text : string :=
  docs_text +:+ String "010" "" +:+
  "-rw-r--r-- 1 root root " +:+ nines (S Py.int_max_str_digits) +:+
  " 2024-01-15 10:30 notes.txt" +:+ String "010" "".

(** A listing that [ls] began and then failed on, so that the sentinel
    follows an entry. *)
Definition partial_text : string :=
  "-rw-r--r-- 1 root root 1024 2024-01-15 10:30 notes.txt" +:+
  String "010" "" +:+ "error" +:+ String "010" "".

(** The output of the discovery scenario. *)
Definition devices_text : string :=
  "List of devices attached" +:+ String "010" "" +:+
  "ABC123  device product:x model:Pixel_5 device:x" +:+ String "010" "".

(** A session without device. *)
Definition no_handler : ADBHandler := mkHandler None ∅ false.

(** A process boundary at which the adb executable cannot be started. *)
Definition adb_missing : nat → list string → outcome :=
  λ _ _, Raised (FileNotFoundError "adb").

(** A process boundary at which the first call fails and the later ones
    succeed. *)
Definition first_fails : nat → list string → outcome :=
  λ n _, if Nat.eqb n 0 then Completed (mkCompleted 1 "" "mkdir: denied")
         else Completed (mkCompleted 0 "" "").

Definition a_handler : ADBHandler := mkHandler (Some "ABC123") {[ "ABC123" := "Pixel_5" ]} true.

(** What the loop knows of an entry when it appends it: the entry comes
    from a line on which the pattern matched, its fields are the groups
    of that match, and its name passed the test on the dot entries. *)
Definition produced (path : string) (lines : list string) (e : FileItem.t)
    : Prop :=
  ∃ line m perms size d t name n,
    line ∈ lines ∧
    Re.match_ pattern (Py.strip line) = Some m ∧
    Re.group m 1 = Some perms ∧ Re.group m 2 = Some size ∧
    Re.group m 3 = Some d ∧ Re.group m 4 = Some t ∧
    Re.group m 5 = Some name ∧
    name ≠ "." ∧ name ≠ ".." ∧ Py.int size = Some n ∧
    e = FileItem.make name (Py.rstrip_char "/" path +:+ "/" +:+ name)
          (Py.startswith "d" perms) n perms (d +:+ " " +:+ t).

(** The path of an entry under base path [path]. *)
Definition path_from_base (path : string) (e : FileItem.t) : Prop :=
  FileItem.path e = Py.rstrip_char "/" path +:+ "/" +:+ FileItem.name e.

(** The entry is the one that a line of [text] stands for under base
    path [path], and its size is the value of the size column of that
    line. *)
Definition size_from_line (path text : string) (e : FileItem.t) : Prop :=
  ∃ line f,
    line ∈ Py.split "010" text ∧ Py.strip line = render f ∧
    well_formed f = true ∧
    e = entry_of path f (FileItem.size e) ∧
    Py.int (l_size f) = Some (FileItem.size e) ∧
    0 ≤ FileItem.size e.

(** The fields of an entry as the parser leaves them. *)
Definition fields_well_formed (e : FileItem.t) : Prop :=
  run_of dot (FileItem.name e) = true ∧
  Py.strip (FileItem.name e) = FileItem.name e ∧
  run_of perm_char (FileItem.permissions e) = true ∧
  (∃ d t, is_date d = true ∧ is_time t = true ∧
          FileItem.date_modified e = d +:+ " " +:+ t) ∧
  0 ≤ FileItem.size e ∧
  FileItem.size e < 10 ^ Z.of_nat Py.int_max_str_digits.

(** A line on which the loop raises [e]: stripped, it is a well-formed
    line other than a dot entry whose size column has more digits than
    [int] converts. *)
Definition refused (line : string) (e : exn) : Prop :=
  ∃ f,
    Py.strip line = render f ∧ well_formed f = true ∧
    l_name f ≠ "." ∧ l_name f ≠ ".." ∧
    (Py.int_max_str_digits < String.length (l_size f))%nat ∧
    e = ValueError (Py.int_error (l_size f)).

(** A line that [get_connected_devices] takes for a device record. *)
Definition qualifies (line : string) : bool :=
  Py.contains "device " line && negb (Py.contains "devices" line).

(** The model named by the tokens after the serial: the text between the
    first and the second colon of the first token that starts with
    [model:], and [Unknown] without such a token. *)
Fixpoint model_of (parts : list string) : string :=
  match parts with
  | [] => "Unknown"
  | p :: parts' =>
      if Py.startswith "model:" p then default "" (Py.split ":" p !! 1%nat)
      else model_of parts'
  end.

(** The serial and the model read off a device record. *)
Definition record_of (line : string) : string * string :=
  (default "" (head (Py.split_ws line)), model_of (drop 1 (Py.split_ws line))).

(** The records of an output, in the order of its lines. *)
Definition records_of (out : string) : list (string * string) :=
  record_of <$> filter (λ l, qualifies l = true) (Py.splitlines out).

(** The reading of the device test by whole tokens: some
    whitespace-delimited token of the line is the word [device]. *)
Definition has_token (t line : string) : bool :=
  existsb (String.eqb t) (Py.split_ws line).

(** The world once [cmd] has been spawned, and once a record has been
    logged. *)
Definition after_spawn (cmd : list string) (w : world) : world :=
  mkWorld (spawned w ++ [cmd]) (log w) (printed w).

Definition logged (l : level) (msg : string) (w : world) : world :=
  mkWorld (spawned w) (log w ++ [(l, msg)]) (printed w).

Definition head_fails (p : ascii → bool) (s : string) : bool :=
  match s with
  | "" => true
  | String c _ => negb (p c)
  end.

(* ================================================================== *)
(** * The rest of handler.py *)
(* ================================================================== *)

Section Connection.

Variable subprocess_run : nat → list string → outcome.

(** [check_adb_connection] *)
Definition check_adb_connection (self : ADBHandler) : M bool :=
  try_except
    (result ← run_adb_command subprocess_run (device_serial self) ["devices"];
     let devices := Py.strip (stdout result) in
     logger_debug ("ADB Devices output: " +:+ devices);;
     ret (Py.contains "device" devices))
    (λ e, match e with
          | FileNotFoundError _ =>
              logger_error
                "ADB command not found. Please ensure ADB is installed and in PATH";;
              ret false
          | _ =>
              logger_error ("ADB Connection error: " +:+ str_exn e);;
              ret false
          end).

End Connection.

(** The outcome of the parser on a text: the list it returns or the
    exception it raises.  The parser reads nothing of the world and its
    log records are below the level of the logger, so the outcome is that
    of a run in the empty world. *)
Definition entries (path text : string) : exn + list FileItem.t :=
  (parse_listing path text w0).1.

(** The outcome of the loop on one line. *)
Definition line_entry (path line : string) : exn + list FileItem.t :=
  (parse_lines path [line] [] w0).1.

(** The outcome of one part of the loop followed by the next: the first
    exception ends the loop. *)
Definition and_then (r rest : exn + list FileItem.t)
    : exn + list FileItem.t :=
  match r, rest with
  | inl e, _ => inl e
  | inr _, inl e => inl e
  | inr items, inr items' => inr (items ++ items')
  end.

(** The groups that the pattern captures on a line given by its
    columns. *)
Definition groups_of (f : listing_line) : Re.captures :=
  [(5%nat, l_name f); (4%nat, l_time f); (3%nat, l_date f);
   (2%nat, l_size f); (1%nat, l_perms f)].

Definition is_quote (c : ascii) : bool :=
  Ascii.eqb c "034" || Ascii.eqb c "'".

(** What the two [replace] calls of [_escape_path] do to a path, read
    character by character. *)
Fixpoint escape_chars (s : string) : string :=
  match s with
  | "" => ""
  | String c s' =>
      if is_quote c then String "\" (String c (escape_chars s'))
      else String c (escape_chars s')
  end.

(** Reading an escaped text back: a backslash before a quote is dropped. *)
Fixpoint unescape (s : string) : string :=
  match s with
  | "" => ""
  | String c s' =>
      match s' with
      | String q s'' =>
          if Ascii.eqb c "\" && is_quote q then String q (unescape s'')
          else String c (unescape s')
      | "" => String c ""
      end
  end.

(** The argument vector that a one-command operation spawns. *)
Definition argv_of (self : ADBHandler) (op : operation) : list string :=
  adb_argv (device_serial self)
    match op with
    | ListDirectory p => ["shell"; ls_command p]
    | PullFile r l => ["pull"; r; l]
    | PushFile l r => ["push"; l; r]
    | RenameItem o n => ["shell"; "mv " +:+ escape_path o +:+ " " +:+ escape_path n]
    | DeleteItem p d =>
        ["shell"; (if d then "rm -r " else "rm ") +:+ escape_path p]
    | CreateFile p => ["shell"; "touch " +:+ escape_path p]
    | CreateFolder p => ["shell"; "mkdir -p " +:+ escape_path p]
    | CopyOnDevice a b =>
        ["shell"; "cp -r " +:+ escape_path a +:+ " " +:+ escape_path b]
    | MoveOnDevice a b =>
        ["shell"; "mv " +:+ escape_path a +:+ " " +:+ escape_path b]
    end.

(** The operations that spawn one command and return its flag. *)
Definition one_command (op : operation) : bool :=
  match op with
  | ListDirectory _ | CopyOnDevice _ _ | MoveOnDevice _ _ => false
  | _ => true
  end.

(** In the escaped text every quote of the path stands behind a
    backslash; [prev] tells whether the character before is one. *)
Fixpoint quotes_guarded (prev : bool) (s : string) : bool :=
  match s with
  | "" => true
  | String c s' =>
      (negb (is_quote c) || prev) && quotes_guarded (Ascii.eqb c "\") s'
  end.

(* ================================================================== *)
(** * main.py: the explorer window *)
(* ================================================================== *)

(** ** More built-ins *)

(** [str.lower] on one character: the capital letters of ASCII and of
    Latin-1 (the multiplication sign, 215, is no letter). *)
Definition lower_char (c : ascii) : ascii :=
  let n := nat_of_ascii c in
  if ((65 <=? n) && (n <=? 90) ||
      (192 <=? n) && (n <=? 222) && negb (n =? 215))%nat
  then ascii_of_nat (n + 32) else c.

(** [s.lower()] *)
Fixpoint lower (s : string) : string :=
  match s with
  | "" => ""
  | String c s' => String (lower_char c) (lower s')
  end.

(** [sorted(l, key=key)] with string keys: a stable sort by [<] on the
    keys, written as an insertion sort.  An element goes before the first
    one of the sorted rest whose key is not smaller than its own. *)
Fixpoint insert_sorted {A} (key : A → string) (x : A) (l : list A) : list A :=
  match l with
  | [] => [x]
  | y :: l' =>
      if String.ltb (key y) (key x) then y :: insert_sorted key x l'
      else x :: l
  end.

Fixpoint sorted {A} (key : A → string) (l : list A) : list A :=
  match l with
  | [] => []
  | x :: l' => insert_sorted key x (sorted key l')
  end.

(** The order that [sorted] leaves between an element and a later one. *)
Definition by_key {A} (key : A → string) (x y : A) : Prop :=
  String.leb (key x) (key y) = true.

Fixpoint zeros (n : nat) : string :=
  match n with
  | O => ""
  | S n' => String "0" (zeros n')
  end.

(** [s.zfill(width)]: zeros go after a leading sign. *)
Definition zfill (width : nat) (s : string) : string :=
  let pad := zeros (width - String.length s) in
  match s with
  | String c s' =>
      if Ascii.eqb c "+" || Ascii.eqb c "-" then String c (pad +:+ s')
      else pad +:+ s
  | "" => pad
  end.

(** The first digit of the numeral of a positive number. *)
Definition leading_digit (c : ascii) : bool :=
  Py.isdigit c && negb (Ascii.eqb c "0").

(** What an f-string prints for a value that is a string or [None]. *)
Definition fmt (o : option string) : string := default "None" o.

(** ** The window *)

(** What the operating system and the dialogs of the window supply. *)
Record host : Type := mkHost {
  platform : string;                          (* sys.platform *)
  gettempdir : string;                        (* tempfile.gettempdir() *)
  path_join : string → string → string;       (* os.path.join *)
  startfile : string → M unit                 (* os.startfile *)
}.

Module Main.

(** The attributes of an [ADBFileExplorer] that its slots read and write.
    The search bar is its text and the tree model is its rows, each a list
    of cell texts.  What is only shown (the status line, the window title,
    message boxes, progress dialogs) is left out.  A slot runs to its end
    before the next one starts: the timer is taken not to fire while a
    dialog of another slot is open. *)
Record ADBFileExplorer : Type := mkExplorer {
  adb_handler : ADBHandler;
  current_path : string;
  path_history : list string;
  all_files : list FileItem.t;
  search_bar : string;
  tree_model : list (list string)
}.

Definition default_root : string := "/storage/emulated/0".

(** The history is not empty and ends with the current path. *)
Definition history_ok (self : ADBFileExplorer) : Prop :=
  last (path_history self) = Some (current_path self).


(** Two states of the window with the same handler, place and search
    text: they differ in the listing and the rows at most. *)
Definition same_place (s s' : ADBFileExplorer) : Prop :=
  adb_handler s' = adb_handler s ∧
  current_path s' = current_path s ∧
  path_history s' = path_history s ∧
  search_bar s' = search_bar s.

(** [self.tree_model.data(self.tree_model.index(row, column))]: [None]
    outside the model. *)
Definition data (self : ADBFileExplorer) (row column : nat) : option string :=
  tree_model self !! row ≫= (λ cells, cells !! column).

(** The row that the loop of [apply_search_filter] appends for an entry. *)
Definition row_of (file_item : FileItem.t) : list string :=
  [FileItem.name file_item;
   if FileItem.is_dir file_item then "Directory" else "File";
   if negb (FileItem.is_dir file_item) then pretty (FileItem.size file_item)
   else "";
   FileItem.permissions file_item;
   FileItem.date_modified file_item].

Definition parent_row : list string := [".."; "Directory"; ""; ""; ""].

Definition name_key (x : FileItem.t) : string := lower (FileItem.name x).

(** [apply_search_filter]; [all_files] is set before any slot can run, so
    the early return for a missing list is never taken. *)
Definition apply_search_filter (self : ADBFileExplorer) : ADBFileExplorer :=
  let search_text := lower (search_bar self) in
  let parent :=
    if negb (String.eqb (Py.rstrip_char "/" (current_path self)) default_root)
    then [parent_row] else [] in
  let filtered :=
    List.filter (λ f, Py.contains search_text (lower (FileItem.name f)))
      (all_files self) in
  let dirs := sorted name_key (List.filter FileItem.is_dir filtered) in
  let regular_files :=
    sorted name_key (List.filter (λ f, negb (FileItem.is_dir f)) filtered) in
  let sorted_files := dirs ++ regular_files in
  mkExplorer (adb_handler self) (current_path self) (path_history self)
    (all_files self) (search_bar self) (parent ++ map row_of sorted_files).

Section Window.

Variable subprocess_run : nat → list string → outcome.
Variable os : host.

(** [refresh_files] *)
Definition refresh_files (self : ADBFileExplorer) : M ADBFileExplorer :=
  if negb (device_connected (adb_handler self)) then ret self
  else
    files ← list_directory subprocess_run (adb_handler self) (current_path self);
    ret (apply_search_filter
           (mkExplorer (adb_handler self) (current_path self)
              (path_history self) files (search_bar self) (tree_model self))).

(** [setup_ui]: the state it sets up, and its first listing. *)
Definition setup_ui (handler : ADBHandler) : M ADBFileExplorer :=
  let current_path := Py.rstrip_char "/" "/storage/emulated/0" in
  let self := mkExplorer handler current_path [current_path] [] "" [] in
  if device_connected handler then refresh_files self else ret self.

(** [select_device]; [chosen] is what the device chooser hands back: the
    serial of its current item if the dialog was accepted.  Looking up a
    serial that the new handler did not find raises [KeyError], whose
    text is the serial in quotes. *)
Definition select_device (self : ADBFileExplorer) (chosen : option string)
    : M ADBFileExplorer :=
  if negb (device_connected (adb_handler self)) then ret self
  else if (1 <? size (devices (adb_handler self)))%nat then
    match chosen with
    | Some selected_serial =>
        if truthy chosen then
          handler ← init subprocess_run (Some selected_serial);
          match devices handler !! selected_serial with
          | Some _ =>
              ret (mkExplorer handler (current_path self) (path_history self)
                     (all_files self) (search_bar self) (tree_model self))
          | None => raise (OtherException ("'" +:+ selected_serial +:+ "'"))
          end
        else ret self
    | None => ret self
    end
  else ret self.

(** [ADBFileExplorer.__init__] *)
Definition init (chosen : option string) : M ADBFileExplorer :=
  handler ← init subprocess_run None;
  self ← setup_ui handler;
  self ← select_device self chosen;
  if device_connected (adb_handler self) then refresh_files self else ret self.

(** [open_file_on_host] *)
Definition open_file_on_host (self : ADBFileExplorer) (filename : string)
    : M unit :=
  if negb (device_connected (adb_handler self)) then ret tt
  else
    let remote_path :=
      Py.rstrip_char "/" (current_path self) +:+ "/" +:+ filename in
    let temp_dir := gettempdir os in
    let local_path := path_join os temp_dir filename in
    success ← pull_file subprocess_run (adb_handler self) remote_path local_path;
    if negb success then ret tt
    else
      try_except
        (if Py.startswith "win" (platform os) then startfile os local_path
         else if Py.startswith "darwin" (platform os) then
           spawn subprocess_run ["open"; local_path];; ret tt
         else spawn subprocess_run ["xdg-open"; local_path];; ret tt)
        (λ e, ret tt).

(** [go_back] *)
Definition go_back (self : ADBFileExplorer) : M ADBFileExplorer :=
  if (1 <? length (path_history self))%nat then
    let path_history := Py.init (path_history self) in
    match last path_history with
    | Some previous =>
        refresh_files
          (mkExplorer (adb_handler self) previous path_history
             (all_files self) (search_bar self) (tree_model self))
    | None => raise (IndexError "list index out of range")
    end
  else ret self.

(** The path that a double click on a directory row leads to: [new_path]
    of [handle_double_click]. *)
Definition new_path (self : ADBFileExplorer) (item_name : option string)
    : string :=
  if bool_decide (item_name = Some "..") then
    let parent_path := parent_dir (Py.rstrip_char "/" (current_path self)) in
    if negb (Py.is_empty parent_path) then parent_path
    else "/storage/emulated/0"
  else Py.rstrip_char "/" (current_path self) +:+ "/" +:+ fmt item_name.

(** [handle_double_click] on the row of the index it is given *)
Definition handle_double_click (self : ADBFileExplorer) (row : nat)
    : M ADBFileExplorer :=
  let item_name := data self row 0 in
  let item_type := data self row 1 in
  print ("Clicked on: '" +:+ fmt item_name +:+ "' (Type: " +:+ fmt item_type
         +:+ ")");;
  if negb (truthy item_name) then
    print "Empty item name, skipping...";;
    ret self
  else if bool_decide (item_type = Some "Directory") then
    let new_path := new_path self item_name in
    print ("Current path: " +:+ current_path self);;
    print ("New path: " +:+ new_path);;
    if negb (String.eqb new_path (current_path self)) then
      let self :=
        mkExplorer (adb_handler self) new_path (path_history self ++ [new_path])
          (all_files self) (search_bar self) (tree_model self) in
      print ("Refreshing files for path: " +:+ current_path self);;
      refresh_files self
    else ret self
  else if bool_decide (item_type = Some "File") then
    open_file_on_host self (fmt item_name);;
    ret self
  else ret self.

(** [check_connection_periodically], the slot of the ten-second timer *)
Definition check_connection_periodically (self : ADBFileExplorer)
    : M ADBFileExplorer :=
  let was_connected := device_connected (adb_handler self) in
  connected ← check_adb_connection subprocess_run (adb_handler self);
  let self :=
    mkExplorer
      (mkHandler (device_serial (adb_handler self)) (devices (adb_handler self))
         connected)
      (current_path self) (path_history self) (all_files self)
      (search_bar self) (tree_model self) in
  if negb (Bool.eqb was_connected connected) then
    if negb connected then ret self
    else refresh_files self
  else ret self.

(** The names and kinds that [delete_selected_items] collects from the
    selected rows. *)
Fixpoint names_types (self : ADBFileExplorer) (indexes : list nat)
    : list (string * bool) :=
  match indexes with
  | [] => []
  | row :: indexes' =>
      let item_name := data self row 0 in
      let item_type := data self row 1 in
      if truthy item_name && negb (bool_decide (item_name = Some "..")) then
        (fmt item_name, bool_decide (item_type = Some "Directory"))
        :: names_types self indexes'
      else names_types self indexes'
  end.

(** The deleting loop; the result is [success_count]. *)
Fixpoint delete_loop (self : ADBFileExplorer) (items : list (string * bool))
    (success_count : nat) : M nat :=
  match items with
  | [] => ret success_count
  | (name, is_dir) :: items' =>
      let path := Py.rstrip_char "/" (current_path self) +:+ "/" +:+ name in
      deleted ← delete_item subprocess_run (adb_handler self) path is_dir;
      delete_loop self items'
        (if deleted : bool then S success_count else success_count)
  end.

(** [delete_selected_items]; [indexes] are the selected rows and [yes]
    tells whether the question is answered with Yes. *)
Definition delete_selected_items (self : ADBFileExplorer)
    (indexes : list nat) (yes : bool) : M ADBFileExplorer :=
  if negb (device_connected (adb_handler self)) then ret self
  else
    match indexes with
    | [] => ret self
    | _ =>
        match names_types self indexes with
        | [] => ret self
        | items =>
            if yes then
              delete_loop self items 0;;
              refresh_files self
            else ret self
        end
    end.

(** [new_name] of [batch_rename_selected] for the item at position [i]. *)
Definition new_name (base_name : string) (padding i : nat) : string :=
  base_name +:+ zfill padding (pretty (i + 1)%nat).

(** How many rounds a loop of [n] rounds makes from position [i] when it
    stops at the first position at which the progress dialog was
    cancelled. *)
Fixpoint rounds (wasCanceled : nat → bool) (i n : nat) : nat :=
  match n with
  | O => O
  | S n' => if wasCanceled i then O else S (rounds wasCanceled (S i) n')
  end.

(** The renaming loop of [batch_rename_selected]; [i] is the position
    reached and [wasCanceled] the state of the progress dialog at each
    position.  The destination handed to the handler is [new_name]. *)
Fixpoint rename_loop (self : ADBFileExplorer) (base_name : string)
    (padding : nat) (wasCanceled : nat → bool) (i : nat) (indexes : list nat)
    (success_count : nat) : M nat :=
  match indexes with
  | [] => ret success_count
  | row :: indexes' =>
      if wasCanceled i then ret success_count
      else
        let old_name := data self row 0 in
        let new_name := new_name base_name padding i in
        let old_path :=
          Py.rstrip_char "/" (current_path self) +:+ "/" +:+ fmt old_name in
        renamed ← rename_item subprocess_run (adb_handler self) old_path new_name;
        rename_loop self base_name padding wasCanceled (S i) indexes'
          (if renamed : bool then S success_count else success_count)
  end.

(** [batch_rename_selected]; [base_name] and [ok] are what the input
    dialog returns. *)
Definition batch_rename_selected (self : ADBFileExplorer)
    (indexes : list nat) (base_name : string) (ok : bool)
    (wasCanceled : nat → bool) : M ADBFileExplorer :=
  if negb (device_connected (adb_handler self)) then ret self
  else if (length indexes <? 2)%nat then ret self
  else if negb ok || Py.is_empty base_name then ret self
  else
    let padding := String.length (pretty (length indexes)) in
    rename_loop self base_name padding wasCanceled 0 indexes 0;;
    refresh_files self.

(** ** The slots as one interface *)

Inductive event : Type :=
| DoubleClicked (row : nat)
| BackClicked
| RefreshClicked
| SearchEdited (text : string)
| TimerFired
| DeleteSelected (indexes : list nat) (yes : bool)
| BatchRename (indexes : list nat) (base_name : string) (ok : bool)
    (wasCanceled : nat → bool).

Definition handle (self : ADBFileExplorer) (ev : event) : M ADBFileExplorer :=
  match ev with
  | DoubleClicked row => handle_double_click self row
  | BackClicked => go_back self
  | RefreshClicked => refresh_files self
  | SearchEdited text =>
      ret (apply_search_filter
             (mkExplorer (adb_handler self) (current_path self)
                (path_history self) (all_files self) text (tree_model self)))
  | TimerFired => check_connection_periodically self
  | DeleteSelected indexes yes => delete_selected_items self indexes yes
  | BatchRename indexes base_name ok wasCanceled =>
      batch_rename_selected self indexes base_name ok wasCanceled
  end.

End Window.
End Main.

(** A host and a window for the examples: the window shows [/sdcard],
    reached from the default root. *)
Definition a_host : host :=
  mkHost "linux" "/tmp" (λ a b, a +:+ "/" +:+ b) (λ _, ret tt).

Definition a_window : Main.ADBFileExplorer :=
  Main.mkExplorer a_handler "/sdcard" ["/storage/emulated/0"; "/sdcard"] [] ""
    [[".."; "Directory"; ""; ""; ""];
     ["docs"; "Directory"; ""; "drwxr-xr-x"; "2024-01-15 10:30"];
     ["notes.txt"; "File"; "1024"; "-rw-r--r--"; "2024-01-15 10:30"]].

(* ================================================================== *)
(** * select_directory_dialog.py: the directory picker *)
(* ================================================================== *)

Module Picker.

(** The attributes of a [SelectDirectoryDialog]; the rows of its model
    have two cells, the name and the path. *)
Record SelectDirectoryDialog : Type := mkDialog {
  adb_handler : ADBHandler;
  selected_path : option string;
  root_path : string;
  current_path : string;
  use_root : bool;
  tree_model : list (list string)
}.

(** [self.adb_handler.list_directory(self.current_path,
    use_root=self.use_root)]: [list_directory] has the one parameter
    [path], so the call raises [TypeError] before its body runs. *)
Definition list_directory_use_root (handler : ADBHandler) (path : string)
    (use_root : bool) : M (list FileItem.t) :=
  raise (OtherException
           "ADBHandler.list_directory() got an unexpected keyword argument 'use_root'").

(** The parent that [refresh] and [go_up] compute. *)
Definition parent_of (self : SelectDirectoryDialog) : string :=
  let parent := parent_dir (current_path self) in
  if negb (Py.is_empty parent) then parent else root_path self.

(** [refresh] *)
Definition refresh (self : SelectDirectoryDialog) : M SelectDirectoryDialog :=
  if negb (device_connected (adb_handler self)) then ret self
  else
    let rows :=
      if negb (String.eqb (current_path self) (root_path self))
      then [[".."; parent_of self]] else [] in
    rows ←
      try_except
        (files ← list_directory_use_root (adb_handler self)
                   (current_path self) (use_root self);
         let dirs :=
           sorted (λ x, lower (FileItem.name x))
             (List.filter FileItem.is_dir files) in
         ret (rows ++ map (λ d, [FileItem.name d; FileItem.path d]) dirs))
        (λ e, ret rows);
    ret (mkDialog (adb_handler self) (selected_path self) (root_path self)
           (current_path self) (use_root self) rows).

(** [__init__] *)
Definition init (adb_handler : ADBHandler) (start_path root_path : string)
    (use_root : bool) : M SelectDirectoryDialog :=
  let root_path :=
    if String.eqb root_path "/" then "/" else Py.rstrip_char "/" root_path in
  let current_path :=
    if String.eqb start_path "/" then "/" else Py.rstrip_char "/" start_path in
  let self := mkDialog adb_handler None root_path current_path use_root [] in
  if device_connected adb_handler then refresh self else ret self.

(** [go_up] *)
Definition go_up (self : SelectDirectoryDialog) : M SelectDirectoryDialog :=
  if String.eqb (current_path self) (root_path self) then ret self
  else
    refresh (mkDialog (adb_handler self) (selected_path self) (root_path self)
               (parent_of self) (use_root self) (tree_model self)).

(** [on_double_click] on a row of the name column; outside the model
    there is no path item. *)
Definition on_double_click (self : SelectDirectoryDialog) (row : nat)
    : M SelectDirectoryDialog :=
  if negb (device_connected (adb_handler self)) then ret self
  else
    match tree_model self !! row with
    | Some [name; path] =>
        if negb (String.eqb name "..") then
          refresh (mkDialog (adb_handler self) (selected_path self)
                     (root_path self) path (use_root self) (tree_model self))
        else ret self
    | _ => ret self
    end.

(** [accept]: the dialog and whether it was accepted. *)
Definition accept (self : SelectDirectoryDialog) (selection : list nat)
    : bool * SelectDirectoryDialog :=
  if negb (device_connected (adb_handler self)) then (false, self)
  else
    match selection with
    | [] => (false, self)
    | row :: _ =>
        (true,
         mkDialog (adb_handler self)
           (tree_model self !! row ≫= (λ cells, cells !! 1%nat))
           (root_path self) (current_path self) (use_root self)
           (tree_model self))
    end.

(** What the user does while the dialog is up. *)
Inductive action : Type :=
| Up
| DoubleClick (row : nat)
| Select (selection : list nat)
| Cancel.

(** [dialog.exec()] under a sequence of actions: whether the dialog was
    accepted, and the dialog; it is rejected when it is cancelled or
    closed. *)
Fixpoint exec (self : SelectDirectoryDialog) (actions : list action)
    : M (bool * SelectDirectoryDialog) :=
  match actions with
  | [] => ret (false, self)
  | Up :: actions' => self ← go_up self; exec self actions'
  | DoubleClick row :: actions' =>
      self ← on_double_click self row; exec self actions'
  | Select selection :: actions' =>
      match accept self selection with
      | (true, self) => ret (true, self)
      | (false, self) => exec self actions'
      end
  | Cancel :: _ => ret (false, self)
  end.

(** The path [steps] levels up. *)
Fixpoint ancestor (root_path : string) (steps : nat) (path : string) : string :=
  match steps with
  | O => path
  | S steps' =>
      let parent := parent_dir path in
      ancestor root_path steps'
        (if negb (Py.is_empty parent) then parent else root_path)
  end.

End Picker.

(** What every state of a running picker satisfies, for the handler [h],
    the root [r] and the start path [c]: nothing is selected yet, the
    current path is some levels above the start path, and the rows are
    the parent row at most. *)
Definition picker_inv (h : ADBHandler) (r c : string)
    (self : Picker.SelectDirectoryDialog) : Prop :=
  Picker.adb_handler self = h ∧ Picker.root_path self = r ∧
  Picker.selected_path self = None ∧
  (∃ j, Picker.current_path self = Picker.ancestor r j c) ∧
  (Picker.tree_model self = [] ∨
   device_connected h = true ∧
   Picker.tree_model self =
     [[".."; Picker.ancestor r 1 (Picker.current_path self)]]).

(* ================================================================== *)
(** * main.py: sizes read back from the rows *)
(* ================================================================== *)

(** [str.isdigit] on one character: the decimal digits and the
    superscripts two, three and one of Latin-1. *)
Definition isdigit_char (c : ascii) : bool :=
  Py.isdigit c ||
  match c with
  | "178" | "179" | "185" => true
  | _ => false
  end%char.

(** [s.isdigit()] *)
Definition str_isdigit (s : string) : bool :=
  negb (Py.is_empty s) && all_chars isdigit_char s.

Module Sizes.

(** [get_file_size_from_row]; a row outside the model has no text to ask. *)
Definition get_file_size_from_row (self : Main.ADBFileExplorer) (row : nat)
    : M Z :=
  match Main.data self row 2 with
  | Some size_text => if str_isdigit size_text then int size_text else ret 0
  | None => raise (AttributeError "'NoneType' object has no attribute 'isdigit'")
  end.

(** [is_dir_from_row] *)
Definition is_dir_from_row (self : Main.ADBFileExplorer) (row : nat) : bool :=
  bool_decide (Main.data self row 1 = Some "Directory").

(** [total_size] of [show_context_menu]: the sum over the selected rows
    that are not directories. *)
Fixpoint total_size (self : Main.ADBFileExplorer) (indexes : list nat) : M Z :=
  match indexes with
  | [] => ret 0
  | row :: indexes' =>
      if negb (is_dir_from_row self row) then
        size ← get_file_size_from_row self row;
        rest ← total_size self indexes';
        ret (size + rest)
      else total_size self indexes'
  end.

End Sizes.

(* ================================================================== *)
(** * main.py: the actions on one item *)
(* ================================================================== *)

Module Item.

(** The path of an item of the current directory:
    [f"{self.current_path.rstrip('/')}/{name}"]. *)
Definition in_current (self : Main.ADBFileExplorer) (name : string) : string :=
  Py.rstrip_char "/" (Main.current_path self) +:+ "/" +:+ name.

Section Actions.

Variable subprocess_run : nat → list string → outcome.

(** [rename_item]; [new_name] and [ok] are what the input dialog
    returns. *)
Definition rename_item (self : Main.ADBFileExplorer)
    (old_name new_name : string) (ok : bool) : M Main.ADBFileExplorer :=
  if negb (device_connected (Main.adb_handler self)) then ret self
  else if ok && negb (Py.is_empty new_name)
          && negb (String.eqb new_name old_name) then
    let old_path := in_current self old_name in
    let new_path := in_current self new_name in
    success ← rename_item subprocess_run (Main.adb_handler self)
                old_path new_path;
    if negb success then ret self
    else Main.refresh_files subprocess_run self
  else ret self.

(** [delete_item]; [yes] tells whether the question is answered with
    Yes. *)
Definition delete_item (self : Main.ADBFileExplorer) (name : string)
    (is_dir : bool) (yes : bool) : M Main.ADBFileExplorer :=
  if negb (device_connected (Main.adb_handler self)) then ret self
  else if yes then
    let path := in_current self name in
    success ← delete_item subprocess_run (Main.adb_handler self) path is_dir;
    if negb success then ret self
    else Main.refresh_files subprocess_run self
  else ret self.

(** [create_new_file] *)
Definition create_new_file (self : Main.ADBFileExplorer) (name : string)
    (ok : bool) : M Main.ADBFileExplorer :=
  if negb (device_connected (Main.adb_handler self)) then ret self
  else if ok && negb (Py.is_empty name) then
    let remote_path := in_current self name in
    success ← create_file subprocess_run (Main.adb_handler self) remote_path;
    if negb success then ret self
    else Main.refresh_files subprocess_run self
  else ret self.

(** [create_new_folder] *)
Definition create_new_folder (self : Main.ADBFileExplorer) (name : string)
    (ok : bool) : M Main.ADBFileExplorer :=
  if negb (device_connected (Main.adb_handler self)) then ret self
  else if ok && negb (Py.is_empty name) then
    let remote_path := in_current self name in
    success ← create_folder subprocess_run (Main.adb_handler self) remote_path;
    if negb success then ret self
    else Main.refresh_files subprocess_run self
  else ret self.

(** The four actions as one interface: what is asked for, with the answer
    of the dialog. *)
Inductive request : Type :=
| Rename (old_name new_name : string) (ok : bool)
| Delete (name : string) (is_dir yes : bool)
| NewFile (name : string) (ok : bool)
| NewFolder (name : string) (ok : bool).

Definition act (self : Main.ADBFileExplorer) (req : request)
    : M Main.ADBFileExplorer :=
  match req with
  | Rename old_name new_name ok => rename_item self old_name new_name ok
  | Delete name is_dir yes => delete_item self name is_dir yes
  | NewFile name ok => create_new_file self name ok
  | NewFolder name ok => create_new_folder self name ok
  end.

End Actions.

(** The operation of the handler that a request comes to, if the dialog
    was confirmed with a name that can be used. *)
Definition command (self : Main.ADBFileExplorer) (req : request)
    : option operation :=
  match req with
  | Rename old_name new_name ok =>
      if ok && negb (Py.is_empty new_name)
         && negb (String.eqb new_name old_name)
      then Some (RenameItem (in_current self old_name)
                   (in_current self new_name))
      else None
  | Delete name is_dir yes =>
      if yes then Some (DeleteItem (in_current self name) is_dir) else None
  | NewFile name ok =>
      if ok && negb (Py.is_empty name)
      then Some (CreateFile (in_current self name)) else None
  | NewFolder name ok =>
      if ok && negb (Py.is_empty name)
      then Some (CreateFolder (in_current self name)) else None
  end.

End Item.

(* ================================================================== *)
(** * main.py: the clipboard *)
(* ================================================================== *)

Module Clip.

(** An item of the clipboard: the dictionary that [get_selected_items]
    builds for a selected row. *)
Record item : Type := mkItem {
  name : string;
  path : string;
  is_dir : bool
}.

Inductive mode : Type := copy | cut.

(** The [clipboard] attribute of the window, kept beside the attributes
    of [Main.ADBFileExplorer]. *)
Record clipboard : Type := mkClipboard {
  items : list item;
  operation : option mode
}.

Definition empty : clipboard := mkClipboard [] None.

(** [get_selected_items] on the selected rows; a row outside the model
    has no item to take the text of. *)
Fixpoint get_selected_items (self : Main.ADBFileExplorer)
    (indexes : list nat) : M (list item) :=
  match indexes with
  | [] => ret []
  | row :: indexes' =>
      match Main.data self row 0, Main.data self row 1 with
      | Some name, Some item_type =>
          let selected :=
            mkItem name (Item.in_current self name)
              (String.eqb (lower item_type) "directory") in
          rest ← get_selected_items self indexes';
          ret (selected :: rest)
      | _, _ =>
          raise (AttributeError "'NoneType' object has no attribute 'text'")
      end
  end.

(** [copy_selected] and [cut_selected] *)
Definition take_selected (op : mode) (self : Main.ADBFileExplorer)
    (clip : clipboard) (indexes : list nat) : M clipboard :=
  selected_items ← get_selected_items self indexes;
  match selected_items with
  | [] => ret clip
  | _ => ret (mkClipboard selected_items (Some op))
  end.

Definition copy_selected := take_selected copy.
Definition cut_selected := take_selected cut.

Section Paste.

Variable subprocess_run : nat → list string → outcome.

(** [os.path.basename] *)
Variable basename : string → string.

(** The destination of an item pasted into [dest_dir]. *)
Definition dest_path (dest_dir : string) (it : item) : string :=
  dest_dir +:+ "/" +:+ basename (path it).

(** The loop of [paste_items]; [i] is the position reached and the
    result is [success_count]. *)
Fixpoint paste_loop (self : Main.ADBFileExplorer) (op : option mode)
    (dest_dir : string) (wasCanceled : nat → bool) (i : nat)
    (items : list item) (success_count : nat) : M nat :=
  match items with
  | [] => ret success_count
  | it :: items' =>
      if wasCanceled i then ret success_count
      else
        let src_path := path it in
        let dest_path := dest_path dest_dir it in
        success_count ←
          try_except
            (success ←
               match op with
               | Some copy =>
                   copy_on_device subprocess_run (Main.adb_handler self)
                     src_path dest_path
               | _ =>
                   move_on_device subprocess_run (Main.adb_handler self)
                     src_path dest_path
               end;
             ret (if success : bool then S success_count else success_count))
            (λ e, print ("Error during paste operation: " +:+ str_exn e);;
                  ret success_count);
        paste_loop self op dest_dir wasCanceled (S i) items' success_count
  end.

(** [paste_items]: the window and the clipboard after it. *)
Definition paste_items (self : Main.ADBFileExplorer) (clip : clipboard)
    (wasCanceled : nat → bool) : M (Main.ADBFileExplorer * clipboard) :=
  match items clip with
  | [] => ret (self, clip)
  | _ =>
      let dest_dir := Main.current_path self in
      success_count ←
        paste_loop self (operation clip) dest_dir wasCanceled 0 (items clip) 0;
      if (0 <? success_count)%nat then
        self ← Main.refresh_files subprocess_run self;
        match operation clip with
        | Some cut => ret (self, empty)
        | _ => ret (self, clip)
        end
      else ret (self, clip)
  end.

End Paste.

(** The two commands that pasting one item spawns: the creation of the
    destination directory and the copy or move itself. *)
Definition commands (basename : string → string) (h : ADBHandler)
    (op : option mode) (dest_dir : string) (it : item) : list (list string) :=
  [argv_of h (CreateFolder dest_dir);
   argv_of h
     match op with
     | Some copy => CopyOnDevice (path it) (dest_path basename dest_dir it)
     | _ => MoveOnDevice (path it) (dest_path basename dest_dir it)
     end].

(** Whether the item pasted at position [i] of a paste that began after
    [n] spawns succeeded: the exit status of its second command. *)
Definition succeeded (subprocess_run : nat → list string → outcome)
    (basename : string → string) (h : ADBHandler) (op : option mode)
    (dest_dir : string) (n i : nat) (it : item) : bool :=
  exit_ok (subprocess_run (n + 2 * i + 1)%nat
             (argv_of h
                match op with
                | Some copy =>
                    CopyOnDevice (path it) (dest_path basename dest_dir it)
                | _ => MoveOnDevice (path it) (dest_path basename dest_dir it)
                end)).

End Clip.

(** [os.path.basename] of a POSIX host, for the examples: what follows
    the last slash. *)
Definition posix_basename (p : string) : string :=
  default "" (last (Py.split "/" p)).

(* ================================================================== *)
(** * Strings *)
(* ================================================================== *)

#[local] Arguments String.append : simpl nomatch.

(** The built-ins on small inputs. *)
Example split_slash : Py.split "/" "/a/b" = [""; "a"; "b"].
Proof. reflexivity. Qed.

Example split_trailing : Py.split "010" ("a" +:+ String "010" "") = ["a"; ""].
Proof. reflexivity. Qed.

Example splitlines_crlf :
  Py.splitlines ("a" +:+ String "013" (String "010" "b") +:+ String "010" "")
  = ["a"; "b"].
Proof. reflexivity. Qed.

Example split_ws_runs : Py.split_ws "  ABC123   device  " = ["ABC123"; "device"].
Proof. reflexivity. Qed.

Example strip_both : Py.strip (String "009" " a b " +:+ String "013" "") = "a b".
Proof. reflexivity. Qed.

Example rstrip_slashes : Py.rstrip_char "/" "/a/b//" = "/a/b".
Proof. reflexivity. Qed.

Example int_digits_1024 : Py.int "1024" = Some 1024.
Proof. reflexivity. Qed.

Example parent_of_nested : parent_dir "/sdcard/docs/a.txt" = "/sdcard/docs".
Proof. reflexivity. Qed.

Example parent_of_top : parent_dir "/a.txt" = "".
Proof. reflexivity. Qed.

Example escape_quotes :
  escape_path ("a" +:+ dq +:+ "b'c") = dq +:+ "a\" +:+ dq +:+ "b\'c" +:+ dq.
Proof. reflexivity. Qed.

Example sentinel_rejected : Re.match_ pattern "error" = None.
Proof. reflexivity. Qed.

(** Backtracking: the name takes the rest of the line, blanks included. *)
Example name_with_blanks :
  Re.match_ pattern "-rw-r--r-- 1 u g 7 2024-01-15 10:30 my file.txt" =
  Some [(5%nat, "my file.txt"); (4%nat, "10:30"); (3%nat, "2024-01-15");
        (2%nat, "7"); (1%nat, "-rw-r--r--")].
Proof. reflexivity. Qed.

Lemma str_app_nil_r (s : string) : s +:+ "" = s.
Proof. induction s as [|c s IH]; simpl; [done | by rewrite IH]. Qed.

Lemma str_app_assoc (s t u : string) : (s +:+ t) +:+ u = s +:+ t +:+ u.
Proof. induction s as [|c s IH]; simpl; [done | by rewrite IH]. Qed.

Lemma str_length_app (s t : string) :
  String.length (s +:+ t) = (String.length s + String.length t)%nat.
Proof. induction s as [|c s IH]; simpl; [done | by rewrite IH]. Qed.

Lemma substring_app (s t : string) :
  String.substring 0 (String.length s) (s +:+ t) = s.
Proof.
  induction s as [|c s IH]; simpl.
  - by destruct t.
  - by rewrite IH.
Qed.

Lemma substring_consumed (s t : string) (pos : nat) :
  String.substring 0 (String.length s + pos - pos) (s +:+ t) = s.
Proof. rewrite Nat.add_sub. apply substring_app. Qed.

Lemma is_empty_true (s : string) : Py.is_empty s = true ↔ s = "".
Proof. by destruct s. Qed.

Lemma is_empty_app (s t : string) :
  Py.is_empty s = false → Py.is_empty (s +:+ t) = false.
Proof. by destruct s. Qed.

Lemma is_empty_app_r (s t : string) :
  Py.is_empty t = false → Py.is_empty (s +:+ t) = false.
Proof. by destruct s. Qed.

Lemma all_chars_app (p : ascii → bool) (s t : string) :
  all_chars p (s +:+ t) = all_chars p s && all_chars p t.
Proof.
  induction s as [|c s IH]; simpl; [done |].
  by rewrite IH, andb_assoc.
Qed.

Lemma all_chars_impl (p q : ascii → bool) (s : string) :
  (∀ c, p c = true → q c = true) → all_chars p s = true → all_chars q s = true.
Proof.
  intros Hpq. induction s as [|c s IH]; simpl; [done |].
  intros [Hc Hs]%andb_true_iff. rewrite (Hpq _ Hc). simpl. auto.
Qed.

Lemma run_of_inv (p : ascii → bool) (s : string) :
  run_of p s = true →
  ∃ c s', s = String c s' ∧ p c = true ∧ all_chars p s' = true.
Proof.
  unfold run_of. destruct s as [|c s']; simpl; [done |].
  intros [Hc Hs]%andb_true_iff. eauto.
Qed.

Lemma run_of_all (p : ascii → bool) (s : string) :
  run_of p s = true → all_chars p s = true.
Proof. unfold run_of. by intros [_ ?]%andb_true_iff. Qed.

Lemma run_of_nonempty (p : ascii → bool) (s : string) :
  run_of p s = true → Py.is_empty s = false.
Proof. unfold run_of. intros [H _]%andb_true_iff. by apply negb_true_iff. Qed.

Lemma run_of_impl (p q : ascii → bool) (s : string) :
  (∀ c, p c = true → q c = true) → run_of p s = true → run_of q s = true.
Proof.
  unfold run_of. intros Hpq [H1 H2]%andb_true_iff.
  rewrite H1. simpl. by eapply all_chars_impl.
Qed.

(** The next token starts with a character outside the class [p]. *)
Lemma head_fails_run (p q : ascii → bool) (tok more : string) :
  (∀ c, q c = true → p c = false) →
  run_of q tok = true → head_fails p (tok +:+ more) = true.
Proof.
  intros Hqp (c & s' & -> & Hc & _)%run_of_inv. simpl.
  by rewrite (Hqp _ Hc).
Qed.

(** ** Character classes *)

Ltac by_cases_on c :=
  destruct c as [[] [] [] [] [] [] [] []]; simpl; try done.

Lemma gap_is_space c : gap_char c = true → Py.isspace c = true.
Proof. unfold gap_char. by intros [? _]%andb_true_iff. Qed.

Lemma gap_is_dot c : gap_char c = true → dot c = true.
Proof. unfold gap_char. by intros [_ ?]%andb_true_iff. Qed.

Lemma gap_not_perm c : gap_char c = true → perm_char c = false.
Proof. intros H%gap_is_space. revert H. by_cases_on c. Qed.

Lemma gap_not_digit c : gap_char c = true → Py.isdigit c = false.
Proof. intros H%gap_is_space. revert H. by_cases_on c. Qed.

Lemma gap_not_nonspace c : gap_char c = true → nonspace c = false.
Proof. intros H%gap_is_space. unfold nonspace. by rewrite H. Qed.

Lemma digit_not_space c : Py.isdigit c = true → Py.isspace c = false.
Proof. by_cases_on c. Qed.

Lemma perm_not_space c : perm_char c = true → Py.isspace c = false.
Proof. by_cases_on c. Qed.

Lemma nonspace_not_space c : nonspace c = true → Py.isspace c = false.
Proof. unfold nonspace. by intros ?%negb_true_iff. Qed.

Lemma nonspace_is_dot c : nonspace c = true → dot c = true.
Proof. by_cases_on c. Qed.

Lemma digit_is_dot c : Py.isdigit c = true → dot c = true.
Proof. by_cases_on c. Qed.

Lemma perm_is_dot c : perm_char c = true → dot c = true.
Proof. by_cases_on c. Qed.

(** ** Stripping and splitting *)

Lemma lstrip_head (p : ascii → bool) (s : string) :
  head_fails p (Py.lstrip_with p s) = true.
Proof.
  induction s as [|c s IH]; simpl; [done |].
  destruct (p c) eqn:Hc; [done |]. simpl. by rewrite Hc.
Qed.

Lemma lstrip_id (p : ascii → bool) (s : string) :
  head_fails p s = true → Py.lstrip_with p s = s.
Proof. destruct s as [|c s]; simpl; [done |]. by intros ->%negb_true_iff. Qed.

Lemma lstrip_length (p : ascii → bool) (s : string) :
  (String.length (Py.lstrip_with p s) ≤ String.length s)%nat.
Proof.
  induction s as [|c s IH]; simpl; [done |].
  destruct (p c); simpl; lia.
Qed.

Lemma rstrip_prefix (p : ascii → bool) (s : string) :
  ∃ t, s = Py.rstrip_with p s +:+ t.
Proof.
  induction s as [|c s [t IH]]; simpl; [by exists "" |].
  destruct (Py.is_empty (Py.rstrip_with p s) && p c).
  - by exists (String c s).
  - exists t. simpl. by rewrite <- IH.
Qed.

Lemma rstrip_app_keep (p : ascii → bool) (a b : string) :
  Py.rstrip_with p b = b → Py.is_empty b = false →
  Py.rstrip_with p (a +:+ b) = a +:+ b.
Proof.
  intros Hb Hne. induction a as [|c a IH]; simpl; [done |].
  rewrite IH. by rewrite (is_empty_app_r a b Hne).
Qed.

(** A string that [strip] leaves alone has no blank at either end. *)
Lemma strip_fixed (s : string) :
  Py.strip s = s →
  Py.rstrip_with Py.isspace s = s ∧ head_fails Py.isspace s = true.
Proof.
  unfold Py.strip. intros H. split.
  - destruct (rstrip_prefix Py.isspace s) as [t Ht].
    pose proof (lstrip_length Py.isspace (Py.rstrip_with Py.isspace s)) as Hl.
    rewrite H in Hl. rewrite Ht, str_length_app in Hl at 1.
    destruct t; [by rewrite str_app_nil_r in Ht | simpl in Hl; lia].
  - rewrite <- H. apply lstrip_head.
Qed.

Lemma split_no_sep (sep : ascii) (s : string) :
  all_chars (λ c, negb (Ascii.eqb c sep)) s = true → Py.split sep s = [s].
Proof.
  induction s as [|c s IH]; simpl; [done |].
  intros [Hc Hs]%andb_true_iff. apply negb_true_iff in Hc.
  by rewrite Hc, (IH Hs).
Qed.

(* ================================================================== *)
(** * The matcher on a line given by its columns *)
(* ================================================================== *)

Lemma star_app {R} (p : ascii → bool) (s rest : string) (pos : nat)
    (k : nat → string → option R) (r : R) :
  all_chars p s = true → head_fails p rest = true →
  k (String.length s + pos)%nat rest = Some r →
  Re.star p pos (s +:+ rest) k = Some r.
Proof.
  revert pos. induction s as [|c s IH]; simpl; intros pos Hs Hrest Hk.
  - destruct rest as [|d rest]; simpl; [done |].
    simpl in Hrest. apply negb_true_iff in Hrest. by rewrite Hrest.
  - apply andb_true_iff in Hs as [Hc Hs]. rewrite Hc.
    rewrite (IH (S pos) Hs Hrest); [done |].
    by rewrite Nat.add_succ_r.
Qed.

Lemma run_plus (p : ascii → bool) (s rest : string) (pos : nat)
    (caps : Re.captures) k (res : Re.captures) :
  run_of p s = true → head_fails p rest = true →
  k (String.length s + pos)%nat rest caps = Some res →
  Re.run (Re.Plus p) pos (s +:+ rest) caps k = Some res.
Proof.
  intros (c & s' & -> & Hc & Hs)%run_of_inv Hrest Hk. simpl. rewrite Hc.
  apply star_app; [done..|]. by rewrite Nat.add_succ_r.
Qed.

Lemma run_grp (i : nat) (r : Re.regex) (pos : nat) (s : string)
    (caps : Re.captures) k :
  Re.run (Re.Grp i r) pos s caps k =
  Re.run r pos s caps
    (λ pos' s' caps', k pos' s' ((i, String.substring 0 (pos' - pos) s) :: caps')).
Proof. reflexivity. Qed.

Lemma run_cat (r1 r2 : Re.regex) (pos : nat) (s : string)
    (caps : Re.captures) k :
  Re.run (r1 ⋅ r2) pos s caps k =
  Re.run r1 pos s caps (λ pos' s' caps', Re.run r2 pos' s' caps' k).
Proof. reflexivity. Qed.

Lemma run_bol (s : string) (caps : Re.captures) k :
  Re.run Re.Bol 0 s caps k = k 0%nat s caps.
Proof. reflexivity. Qed.

Lemma run_eol (pos : nat) (caps : Re.captures) k :
  Re.run Re.Eol pos "" caps k = k pos "" caps.
Proof. reflexivity. Qed.

(** A captured run. *)
Lemma run_group_plus (i : nat) (p : ascii → bool) (s rest : string)
    (pos : nat) (caps : Re.captures) k (res : Re.captures) :
  run_of p s = true → head_fails p rest = true →
  k (String.length s + pos)%nat rest ((i, s) :: caps) = Some res →
  Re.run (Re.Grp i (Re.Plus p)) pos (s +:+ rest) caps k = Some res.
Proof.
  intros Hs Hrest Hk. rewrite run_grp. apply run_plus; [done..|].
  by rewrite substring_consumed.
Qed.

Lemma run_group_date (d rest : string) (pos : nat) (caps : Re.captures) k :
  is_date d = true →
  Re.run (Re.Grp 3 (Re.Rep 4 Py.isdigit ⋅ Re.Chr "-" ⋅ Re.Rep 2 Py.isdigit ⋅
                     Re.Chr "-" ⋅ Re.Rep 2 Py.isdigit))
    pos (d +:+ rest) caps k
  = k (10 + pos)%nat rest ((3%nat, d) :: caps).
Proof.
  intros H.
  do 10 (destruct d as [|? d]; [done |]). destruct d; [| done].
  simpl in H. repeat (apply andb_true_iff in H as [H ?]).
  repeat match goal with
         | E : Ascii.eqb _ _ = true |- _ => apply Ascii.eqb_eq in E; subst
         end.
  cbn [Re.run Re.rep String.append].
  repeat match goal with E : Py.isdigit _ = true |- _ => rewrite E; clear E end.
  cbn [Ascii.eqb Bool.eqb].
  replace (S (S (S (S (S (S (S (S (S (S pos))))))))) - pos)%nat with 10%nat by lia.
  simpl. by destruct rest.
Qed.

Lemma run_group_time (t rest : string) (pos : nat) (caps : Re.captures) k :
  is_time t = true →
  Re.run (Re.Grp 4 (Re.Rep 2 Py.isdigit ⋅ Re.Chr ":" ⋅ Re.Rep 2 Py.isdigit))
    pos (t +:+ rest) caps k
  = k (5 + pos)%nat rest ((4%nat, t) :: caps).
Proof.
  intros H.
  do 5 (destruct t as [|? t]; [done |]). destruct t; [| done].
  simpl in H. repeat (apply andb_true_iff in H as [H ?]).
  repeat match goal with
         | E : Ascii.eqb _ _ = true |- _ => apply Ascii.eqb_eq in E; subst
         end.
  cbn [Re.run Re.rep String.append].
  repeat match goal with E : Py.isdigit _ = true |- _ => rewrite E; clear E end.
  cbn [Ascii.eqb Bool.eqb].
  replace (S (S (S (S (S pos)))) - pos)%nat with 5%nat by lia.
  simpl. by destruct rest.
Qed.

Lemma run_group_plus_end (i : nat) (p : ascii → bool) (s : string)
    (pos : nat) (caps : Re.captures) k (res : Re.captures) :
  run_of p s = true →
  k (String.length s + pos)%nat "" ((i, s) :: caps) = Some res →
  Re.run (Re.Grp i (Re.Plus p)) pos s caps k = Some res.
Proof.
  intros Hs Hk. rewrite <- (str_app_nil_r s) at 1.
  by apply run_group_plus.
Qed.

Lemma head_fails_date (p : ascii → bool) (d more : string) :
  (∀ c, Py.isdigit c = true → p c = false) →
  is_date d = true → head_fails p (d +:+ more) = true.
Proof.
  intros Hp H. do 10 (destruct d as [|? d]; [done |]). destruct d; [| done].
  simpl in H. repeat (apply andb_true_iff in H as [H ?]).
  simpl. by rewrite (Hp _ H).
Qed.

Lemma head_fails_time (p : ascii → bool) (t more : string) :
  (∀ c, Py.isdigit c = true → p c = false) →
  is_time t = true → head_fails p (t +:+ more) = true.
Proof.
  intros Hp H. do 5 (destruct t as [|? t]; [done |]). destruct t; [| done].
  simpl in H. repeat (apply andb_true_iff in H as [H ?]).
  simpl. by rewrite (Hp _ H).
Qed.

Lemma head_fails_app (p : ascii → bool) (s more : string) :
  Py.is_empty s = false → head_fails p s = true →
  head_fails p (s +:+ more) = true.
Proof. by destruct s. Qed.

Create HintDb columns.

#[local] Hint Resolve gap_not_perm gap_not_digit gap_not_nonspace
  digit_not_space perm_not_space nonspace_not_space gap_is_space : columns.
#[local] Hint Resolve head_fails_run head_fails_date head_fails_time : columns.
#[local] Hint Extern 1 (run_of Py.isspace _ = true) =>
  apply (run_of_impl gap_char); [exact gap_is_space | assumption] : columns.

(** The hypotheses packed in [well_formed]. *)
Ltac unpack_well_formed H :=
  unfold well_formed in H;
  repeat match goal with
         | H' : (_ && _) = true |- _ => apply andb_true_iff in H' as [? ?]
         end.

Ltac column :=
  rewrite run_cat;
  first [ apply run_group_plus | apply run_plus ];
  [ eauto with columns | solve [eauto 6 with columns] | cbv beta ].

(** On a well-formed line the pattern matches, and its five groups are
    the permissions, size, date, time and name columns. *)
Lemma match_columns (f : listing_line) :
  well_formed f = true →
  Re.match_ pattern (render f) =
  Some [(5%nat, l_name f); (4%nat, l_time f); (3%nat, l_date f);
        (2%nat, l_size f); (1%nat, l_perms f)].
Proof.
  intros H. unpack_well_formed H.
  match goal with
  | E : String.eqb _ _ = true |- _ =>
      apply String.eqb_eq in E; apply strip_fixed in E as [_ Hhead]
  end.
  unfold Re.match_, pattern, render.
  rewrite run_cat, run_bol.
  do 10 column.
  rewrite run_cat, run_group_date by done.
  column.
  rewrite run_cat, run_group_time by done.
  column.
  rewrite run_cat. apply run_group_plus_end; [done |].
  reflexivity.
Qed.

(** ** What a match tells: inversion of the matcher *)

Lemma star_inv {R} (p : ascii → bool) (pos : nat) (s : string)
    (k : nat → string → option R) (r : R) :
  Re.star p pos s k = Some r →
  ∃ pre rest, s = pre +:+ rest ∧ all_chars p pre = true ∧
              k (String.length pre + pos)%nat rest = Some r.
Proof.
  revert pos. induction s as [|c s IH]; intros pos; cbn [Re.star].
  - intros H. by exists "", "".
  - destruct (p c) eqn:Hc; [| intros H; by exists "", (String c s)].
    destruct (Re.star p (S pos) s k) as [r'|] eqn:E.
    + intros [= ->]. apply IH in E as (pre & rest & -> & Hpre & Hk).
      exists (String c pre), rest. cbn [all_chars String.length].
      rewrite Hc, Hpre. rewrite Nat.add_succ_r in Hk. done.
    + intros H. by exists "", (String c s).
Qed.

Lemma run_plus_inv (p : ascii → bool) (pos : nat) (s : string)
    (caps : Re.captures) k (res : Re.captures) :
  Re.run (Re.Plus p) pos s caps k = Some res →
  ∃ pre rest, s = pre +:+ rest ∧ run_of p pre = true ∧
              k (String.length pre + pos)%nat rest caps = Some res.
Proof.
  cbn [Re.run]. destruct s as [|c s]; [done |].
  destruct (p c) eqn:Hc; [| done].
  intros (pre & rest & -> & Hpre & Hk)%star_inv.
  exists (String c pre), rest. unfold run_of. cbn [all_chars String.length].
  rewrite Hc, Hpre. rewrite Nat.add_succ_r in Hk. done.
Qed.

Lemma run_group_plus_inv (i : nat) (p : ascii → bool) (pos : nat)
    (s : string) (caps : Re.captures) k (res : Re.captures) :
  Re.run (Re.Grp i (Re.Plus p)) pos s caps k = Some res →
  ∃ pre rest, s = pre +:+ rest ∧ run_of p pre = true ∧
              k (String.length pre + pos)%nat rest ((i, pre) :: caps) = Some res.
Proof.
  rewrite run_grp. intros (pre & rest & -> & Hpre & Hk)%run_plus_inv.
  rewrite substring_consumed in Hk. by exists pre, rest.
Qed.

Lemma run_group_date_inv (pos : nat) (s : string) (caps : Re.captures) k
    (res : Re.captures) :
  Re.run (Re.Grp 3 (Re.Rep 4 Py.isdigit ⋅ Re.Chr "-" ⋅ Re.Rep 2 Py.isdigit ⋅
                     Re.Chr "-" ⋅ Re.Rep 2 Py.isdigit)) pos s caps k
    = Some res →
  ∃ d rest, s = d +:+ rest ∧ is_date d = true ∧
            k (10 + pos)%nat rest ((3%nat, d) :: caps) = Some res.
Proof.
  cbn [Re.run Re.rep].
  repeat (destruct s as [|? s]; [done |];
          match goal with
          | |- context [Py.isdigit ?c] => destruct (Py.isdigit c) eqn:?; [| done]
          | |- context [Ascii.eqb ?c ?d] =>
              destruct (Ascii.eqb_spec c d) as [-> |]; [| done]
          end).
  replace (S (S (S (S (S (S (S (S (S (S pos))))))))) - pos)%nat with 10%nat by lia.
  intros H. eexists (String _ (String _ (String _ (String _ (String _
    (String _ (String _ (String _ (String _ (String _ "")))))))))), s.
  split; [reflexivity |]. split.
  - cbn [is_date]. by repeat match goal with E : _ = true |- _ => rewrite E; clear E end.
  - revert H. cbn [String.substring]. by destruct s.
Qed.

Lemma run_group_time_inv (pos : nat) (s : string) (caps : Re.captures) k
    (res : Re.captures) :
  Re.run (Re.Grp 4 (Re.Rep 2 Py.isdigit ⋅ Re.Chr ":" ⋅ Re.Rep 2 Py.isdigit))
    pos s caps k = Some res →
  ∃ t rest, s = t +:+ rest ∧ is_time t = true ∧
            k (5 + pos)%nat rest ((4%nat, t) :: caps) = Some res.
Proof.
  cbn [Re.run Re.rep].
  repeat (destruct s as [|? s]; [done |];
          match goal with
          | |- context [Py.isdigit ?c] => destruct (Py.isdigit c) eqn:?; [| done]
          | |- context [Ascii.eqb ?c ?d] =>
              destruct (Ascii.eqb_spec c d) as [-> |]; [| done]
          end).
  replace (S (S (S (S (S pos)))) - pos)%nat with 5%nat by lia.
  intros H. eexists (String _ (String _ (String _ (String _ (String _ ""))))), s.
  split; [reflexivity |]. split.
  - cbn [is_time]. by repeat match goal with E : _ = true |- _ => rewrite E; clear E end.
  - revert H. cbn [String.substring]. by destruct s.
Qed.

Ltac invert_column H :=
  rewrite run_cat in H;
  first [ apply run_group_plus_inv in H | apply run_plus_inv in H ];
  destruct H as (? & ? & _ & ? & H); cbv beta in H.

(** A successful match defines all five groups: a run of permission
    characters, a run of digits, a date, a time, and a non-empty name
    without line feed. *)
Lemma match_inv (s : string) (m : Re.captures) :
  Re.match_ pattern s = Some m →
  ∃ perms size d t name,
    m = [(5%nat, name); (4%nat, t); (3%nat, d); (2%nat, size); (1%nat, perms)] ∧
    run_of perm_char perms = true ∧ run_of Py.isdigit size = true ∧
    is_date d = true ∧ is_time t = true ∧ run_of dot name = true.
Proof.
  unfold Re.match_, pattern. intros H.
  rewrite run_cat, run_bol in H.
  do 10 invert_column H.
  rewrite run_cat in H.
  apply run_group_date_inv in H as (d & ? & _ & ? & H). cbv beta in H.
  invert_column H.
  rewrite run_cat in H.
  apply run_group_time_inv in H as (t & ? & _ & ? & H). cbv beta in H.
  invert_column H.
  invert_column H.
  cbn [Re.run] in H. destruct (Re.at_end _); [| done].
  injection H as <-. by eexists _, _, _, _, _.
Qed.

(** ** The line around the match: stripping, the total line, splitting *)

Lemma date_is_dot (d : string) : is_date d = true → all_chars dot d = true.
Proof.
  intros H. do 10 (destruct d as [|? d]; [done |]). destruct d; [| done].
  simpl in H. repeat (apply andb_true_iff in H as [H ?]).
  repeat match goal with
         | E : Ascii.eqb _ _ = true |- _ => apply Ascii.eqb_eq in E; subst
         end.
  simpl. by rewrite !digit_is_dot.
Qed.

Lemma time_is_dot (t : string) : is_time t = true → all_chars dot t = true.
Proof.
  intros H. do 5 (destruct t as [|? t]; [done |]). destruct t; [| done].
  simpl in H. repeat (apply andb_true_iff in H as [H ?]).
  repeat match goal with
         | E : Ascii.eqb _ _ = true |- _ => apply Ascii.eqb_eq in E; subst
         end.
  simpl. by rewrite !digit_is_dot.
Qed.

Lemma render_one_line (f : listing_line) :
  well_formed f = true → Py.split "010" (render f) = [render f].
Proof.
  intros H. unpack_well_formed H.
  apply split_no_sep. change (all_chars dot (render f) = true).
  unfold render. rewrite !all_chars_app.
  repeat match goal with
         | E : run_of _ _ = true |- _ => apply run_of_all in E
         end.
  repeat (apply andb_true_iff; split);
    first [ assumption
          | by apply date_is_dot
          | by apply time_is_dot
          | by apply (all_chars_impl _ _ _ perm_is_dot)
          | by apply (all_chars_impl _ _ _ gap_is_dot)
          | by apply (all_chars_impl _ _ _ digit_is_dot)
          | by apply (all_chars_impl _ _ _ nonspace_is_dot) ].
Qed.

Lemma render_stripped (f : listing_line) :
  well_formed f = true → Py.strip (render f) = render f.
Proof.
  intros H. unpack_well_formed H.
  match goal with
  | E : String.eqb _ _ = true |- _ =>
      apply String.eqb_eq in E; apply strip_fixed in E as [Hr _]
  end.
  unfold Py.strip.
  assert (Py.rstrip_with Py.isspace (render f) = render f) as ->.
  { unfold render. rewrite <- !str_app_assoc.
    apply rstrip_app_keep; [done |]. by eapply run_of_nonempty. }
  apply lstrip_id. unfold render. eauto with columns.
Qed.

Lemma render_nonempty (f : listing_line) :
  well_formed f = true → Py.is_empty (render f) = false.
Proof.
  intros H. unpack_well_formed H.
  apply is_empty_app. by eapply run_of_nonempty.
Qed.

Lemma prefix_cons (a b : ascii) (s t : string) :
  String.prefix (String a s) (String b t) =
  if ascii_dec a b then String.prefix s t else false.
Proof. reflexivity. Qed.

(** No well-formed line is taken for the summary line: in "total" the
    letter after the "t" is neither a permission character nor a blank. *)
Lemma render_not_total (f : listing_line) :
  well_formed f = true → Py.startswith "total" (render f) = false.
Proof.
  intros H. unpack_well_formed H.
  unfold render, Py.startswith.
  repeat match goal with
         | E : run_of _ (l_perms f) = true |- _ =>
             apply run_of_inv in E as (c & s & -> & Hc & Hs)
         | E : run_of _ (gap1 f) = true |- _ =>
             apply run_of_inv in E as (g & s1 & -> & Hg & _)
         end.
  cbn [String.append]. rewrite prefix_cons.
  destruct (ascii_dec "t" c) as [<- |]; [| done].
  destruct s as [|c2 s]; cbn [String.append]; rewrite prefix_cons.
  - destruct (ascii_dec "o" g) as [<- |]; done.
  - simpl in Hs. apply andb_true_iff in Hs as [Hc2 _].
    destruct (ascii_dec "o" c2) as [<- |]; done.
Qed.

Lemma int_from_digits (s : string) (acc : Z) :
  all_chars Py.isdigit s = true → 0 ≤ acc →
  ∃ n, Py.int_from acc s = Some n ∧ 0 ≤ n.
Proof.
  revert acc. induction s as [|c s IH]; simpl; intros acc Hs Hacc; [eauto |].
  apply andb_true_iff in Hs as [Hc Hs]. rewrite Hc.
  apply IH; [done |].
  assert (0 ≤ Py.digit_value c); [| lia].
  revert Hc. unfold Py.digit_value. by_cases_on c.
Qed.

Lemma leading_digits_all (s : string) :
  all_chars Py.isdigit s = true → Py.leading_digits s = String.length s.
Proof.
  induction s as [|c s IH]; [done |]. cbn [all_chars].
  intros [Hc Hs]%andb_true_iff. cbn [Py.leading_digits String.length].
  by rewrite Hc, IH.
Qed.

(** [int] succeeds on a run of digits no longer than the interpreter
    converts, with a non-negative value. *)
Lemma int_digits (s : string) :
  run_of Py.isdigit s = true →
  (String.length s ≤ Py.int_max_str_digits)%nat →
  ∃ n, Py.int s = Some n ∧ 0 ≤ n.
Proof.
  intros H Hlen. pose proof (run_of_all _ _ H) as Hall.
  apply run_of_inv in H as (c & s' & -> & _ & _).
  unfold Py.int. rewrite (leading_digits_all _ Hall).
  destruct (Nat.ltb_spec Py.int_max_str_digits (String.length (String c s')));
    [lia |].
  by apply int_from_digits.
Qed.

(** It refuses a longer run. *)
Lemma int_overlong (s : string) :
  all_chars Py.isdigit s = true →
  (Py.int_max_str_digits < String.length s)%nat →
  Py.int s = None.
Proof.
  intros Hall Hlen. unfold Py.int. destruct s as [|c s']; [done |].
  rewrite (leading_digits_all _ Hall).
  by destruct (Nat.ltb_spec Py.int_max_str_digits (String.length (String c s')));
    [| lia].
Qed.

Lemma int_refuses (s : string) :
  run_of Py.isdigit s = true → Py.int s = None →
  (Py.int_max_str_digits < String.length s)%nat.
Proof.
  intros H Hnone.
  destruct (Nat.le_gt_cases (String.length s) Py.int_max_str_digits)
    as [Hle|Hlt]; [| done].
  destruct (int_digits s H Hle) as (n & Hn & _). congruence.
Qed.

(** ** The lines that the pattern matches *)

Lemma rstrip_app_stripped (p : ascii → bool) (s : string) (c : ascii) :
  p c = true → Py.rstrip_with p (s +:+ String c "") = Py.rstrip_with p s.
Proof.
  intros Hc. induction s as [|d s IH]; simpl; [by rewrite Hc | by rewrite IH].
Qed.

Lemma star_none {R} (p : ascii → bool) (pos : nat) (s : string)
    (k : nat → string → option R) :
  Re.star p pos s k = None → k pos s = None.
Proof.
  destruct s as [|c s]; cbn [Re.star]; [done |].
  destruct (p c); [| done]. by destruct (Re.star p (S pos) s k).
Qed.

(** The run that a greedy repetition settles on is the longest one after
    which the rest of the pattern matches. *)
Lemma star_inv_max {R} (p : ascii → bool) (pos : nat) (s : string)
    (k : nat → string → option R) (r : R) :
  Re.star p pos s k = Some r →
  ∃ pre rest, s = pre +:+ rest ∧ all_chars p pre = true ∧
              k (String.length pre + pos)%nat rest = Some r ∧
              ∀ c rest', rest = String c rest' → p c = true →
                         k (S (String.length pre + pos)) rest' = None.
Proof.
  revert pos. induction s as [|c s IH]; intros pos; cbn [Re.star].
  - intros H. exists "", "". by repeat split.
  - destruct (p c) eqn:Hc.
    + destruct (Re.star p (S pos) s k) as [r'|] eqn:E.
      * intros [= ->]. apply IH in E as (pre & rest & -> & Hpre & Hk & Hmax).
        exists (String c pre), rest. cbn [all_chars String.length].
        rewrite Hc, Hpre. rewrite Nat.add_succ_r in Hk.
        repeat split; [done |]. intros c' rest' Hr Hc'.
        specialize (Hmax c' rest' Hr Hc'). by rewrite Nat.add_succ_r in Hmax.
      * intros H. exists "", (String c s). repeat split; [done |].
        intros c' rest' [= <- <-] _. by apply star_none in E.
    + intros H. exists "", (String c s). repeat split; [done |].
      intros c' rest' [= <- <-]. by rewrite Hc.
Qed.

Lemma run_plus_inv_max (p : ascii → bool) (pos : nat) (s : string)
    (caps : Re.captures) k (res : Re.captures) :
  Re.run (Re.Plus p) pos s caps k = Some res →
  ∃ pre rest, s = pre +:+ rest ∧ run_of p pre = true ∧
              k (String.length pre + pos)%nat rest caps = Some res ∧
              ∀ c rest', rest = String c rest' → p c = true →
                         k (S (String.length pre + pos)) rest' caps = None.
Proof.
  cbn [Re.run]. destruct s as [|c s]; [done |].
  destruct (p c) eqn:Hc; [| done].
  intros (pre & rest & -> & Hpre & Hk & Hmax)%star_inv_max.
  exists (String c pre), rest. unfold run_of. cbn [all_chars String.length].
  rewrite Hc, Hpre. rewrite Nat.add_succ_r in Hk.
  repeat split; [done |]. intros c' rest' Hr Hc'.
  specialize (Hmax c' rest' Hr Hc'). by rewrite Nat.add_succ_r in Hmax.
Qed.

Lemma rstrip_length (p : ascii → bool) (s : string) :
  (String.length (Py.rstrip_with p s) ≤ String.length s)%nat.
Proof.
  destruct (rstrip_prefix p s) as [t Ht]. rewrite Ht at 2.
  rewrite str_length_app. lia.
Qed.

(** A string that ends in a stripped character is changed by stripping. *)
Lemma rstrip_changes (p : ascii → bool) (a : string) (c : ascii) :
  p c = true → Py.rstrip_with p (a +:+ String c "") ≠ a +:+ String c "".
Proof.
  intros Hc H. rewrite rstrip_app_stripped in H by done.
  pose proof (rstrip_length p a) as Hl. rewrite H, str_length_app in Hl.
  cbn [String.length] in Hl. lia.
Qed.

Lemma rstrip_suffix (p : ascii → bool) (a b : string) :
  Py.rstrip_with p (a +:+ b) = a +:+ b → Py.rstrip_with p b = b.
Proof.
  induction a as [|c a IH]; [done |].
  cbn [String.append Py.rstrip_with]. cbv zeta.
  destruct (Py.is_empty _ && p c); [done |].
  intros [= H]. by apply IH.
Qed.

Lemma run_of_gap (s : string) :
  run_of Py.isspace s = true → all_chars dot s = true →
  run_of gap_char s = true.
Proof.
  unfold run_of. intros [Hne Hs]%andb_true_iff Hd. rewrite Hne. cbn [andb].
  clear Hne. induction s as [|c s IH]; [done |].
  cbn [all_chars] in *. apply andb_true_iff in Hs as [Hc Hs].
  apply andb_true_iff in Hd as [Hdc Hd]. unfold gap_char at 1.
  by rewrite Hc, Hdc, IH.
Qed.

(** The converse of [match_columns]: a line without line feed and
    without blank at its end that the pattern matches is a well-formed
    line, and the groups are its columns. *)
Lemma match_columns_inv (s : string) (m : Re.captures) :
  all_chars dot s = true → Py.rstrip_with Py.isspace s = s →
  Re.match_ pattern s = Some m →
  ∃ f, s = render f ∧ well_formed f = true ∧ m = groups_of f.
Proof.
  unfold Re.match_, pattern. intros Hdot Hstrip H.
  rewrite run_cat, run_bol in H.
  rewrite run_cat in H.
  apply run_group_plus_inv in H as (perms & r1 & -> & Hperms & H). cbv beta in H.
  rewrite run_cat in H.
  apply run_plus_inv in H as (g1 & r2 & -> & Hg1 & H). cbv beta in H.
  rewrite run_cat in H.
  apply run_plus_inv in H as (links & r3 & -> & Hlinks & H). cbv beta in H.
  rewrite run_cat in H.
  apply run_plus_inv in H as (g2 & r4 & -> & Hg2 & H). cbv beta in H.
  rewrite run_cat in H.
  apply run_plus_inv in H as (owner & r5 & -> & Howner & H). cbv beta in H.
  rewrite run_cat in H.
  apply run_plus_inv in H as (g3 & r6 & -> & Hg3 & H). cbv beta in H.
  rewrite run_cat in H.
  apply run_plus_inv in H as (grp & r7 & -> & Hgrp & H). cbv beta in H.
  rewrite run_cat in H.
  apply run_plus_inv in H as (g4 & r8 & -> & Hg4 & H). cbv beta in H.
  rewrite run_cat in H.
  apply run_group_plus_inv in H as (size & r9 & -> & Hsize & H). cbv beta in H.
  rewrite run_cat in H.
  apply run_plus_inv in H as (g5 & r10 & -> & Hg5 & H). cbv beta in H.
  rewrite run_cat in H.
  apply run_group_date_inv in H as (d & r11 & -> & Hd & H). cbv beta in H.
  rewrite run_cat in H.
  apply run_plus_inv in H as (g6 & r12 & -> & Hg6 & H). cbv beta in H.
  rewrite run_cat in H.
  apply run_group_time_inv in H as (t & r13 & -> & Ht & H). cbv beta in H.
  rewrite run_cat in H.
  apply run_plus_inv_max in H as (g7 & r14 & -> & Hg7 & H & Hmax).
  cbv beta in H, Hmax.
  rewrite run_cat in H.
  apply run_group_plus_inv in H as (name & tail & -> & Hname & H). cbv beta in H.
  cbn [Re.run] in H. destruct (Re.at_end tail) eqn:Hend; [| done].
  injection H as <-.
  rewrite !all_chars_app in Hdot.
  repeat match goal with
         | E : (_ && _) = true |- _ => apply andb_true_iff in E as [? ?]
         end.
  assert (tail = "") as ->.
  { destruct tail as [|c tail']; [done |]. exfalso.
    revert Hend. match goal with E : all_chars dot _ = true |- _ => revert E end.
    cbn [all_chars Re.at_end]. by_cases_on c. }
  rewrite str_app_nil_r in *.
  assert (Py.rstrip_with Py.isspace name = name) as Hrname.
  { do 14 (apply rstrip_suffix in Hstrip). done. }
  assert (head_fails Py.isspace name = true) as Hhead.
  { apply run_of_inv in Hname as (c & name' & -> & Hc & Hname').
    cbn [head_fails]. destruct (Py.isspace c) eqn:Hsp; [| done]. exfalso.
    specialize (Hmax c name' eq_refl Hsp).
    destruct name' as [|c' name'].
    - by apply (rstrip_changes Py.isspace "" c) in Hrname.
    - rewrite run_cat in Hmax.
      erewrite run_group_plus_end in Hmax; [done | | reflexivity].
      unfold run_of. by rewrite Hname'. }
  exists (mkLine perms g1 links g2 owner g3 grp g4 size g5 d g6 t g7 name).
  split; [done |]. split; [| done].
  unfold well_formed. cbn [l_perms gap1 l_links gap2 l_owner gap3 l_group gap4
    l_size gap5 l_date gap6 l_time gap7 l_name].
  rewrite Hperms, Hlinks, Howner, Hgrp, Hsize, Hd, Ht, Hname.
  rewrite !run_of_gap by done. cbn [andb].
  apply String.eqb_eq. unfold Py.strip. rewrite Hrname. by apply lstrip_id.
Qed.

Lemma split_parts_no_sep (sep : ascii) (s : string) :
  Forall (λ part, all_chars (λ c, negb (Ascii.eqb c sep)) part = true)
    (Py.split sep s).
Proof.
  induction s as [|c s IH]; cbn [Py.split]; [by repeat constructor |].
  destruct (Ascii.eqb c sep) eqn:Ec; [by constructor |].
  destruct (Py.split sep s) as [|h t].
  - constructor; [| done]. cbn [all_chars]. by rewrite Ec.
  - apply Forall_cons in IH as [Hh Ht]. constructor; [| done].
    cbn [all_chars]. by rewrite Ec, Hh.
Qed.

Lemma all_chars_lstrip (q p : ascii → bool) (s : string) :
  all_chars q s = true → all_chars q (Py.lstrip_with p s) = true.
Proof.
  induction s as [|c s IH]; [done |]. cbn [Py.lstrip_with].
  destruct (p c); [| done]. cbn [all_chars]. intros [_ ?]%andb_true_iff. auto.
Qed.

Lemma all_chars_rstrip (q p : ascii → bool) (s : string) :
  all_chars q s = true → all_chars q (Py.rstrip_with p s) = true.
Proof.
  destruct (rstrip_prefix p s) as [t Ht]. rewrite Ht at 1.
  rewrite all_chars_app. by intros [? _]%andb_true_iff.
Qed.

Lemma rstrip_idem (p : ascii → bool) (s : string) :
  Py.rstrip_with p (Py.rstrip_with p s) = Py.rstrip_with p s.
Proof.
  induction s as [|c s IH]; [done |]. cbn [Py.rstrip_with]. cbv zeta.
  destruct (Py.is_empty (Py.rstrip_with p s) && p c) eqn:E; [done |].
  cbn [Py.rstrip_with]. cbv zeta. by rewrite IH, E.
Qed.

Lemma rstrip_lstrip (p : ascii → bool) (s : string) :
  Py.rstrip_with p s = s →
  Py.rstrip_with p (Py.lstrip_with p s) = Py.lstrip_with p s.
Proof.
  induction s as [|c s IH]; [done |]. cbn [Py.lstrip_with].
  destruct (p c) eqn:Hc; [| done].
  cbn [Py.rstrip_with]. cbv zeta. rewrite Hc, andb_true_r.
  destruct (Py.is_empty (Py.rstrip_with p s)); [done |].
  intros [= H]. by apply IH.
Qed.

(** What [strip] returns has no line feed that the line had not, and no
    blank at its right end. *)
Lemma strip_shape (line : string) :
  all_chars dot line = true →
  all_chars dot (Py.strip line) = true ∧
  Py.rstrip_with Py.isspace (Py.strip line) = Py.strip line.
Proof.
  intros H. unfold Py.strip. split.
  - by apply all_chars_lstrip, all_chars_rstrip.
  - apply rstrip_lstrip, rstrip_idem.
Qed.

(* ================================================================== *)
(** * The listing parser *)
(* ================================================================== *)

Ltac unfold_monad :=
  unfold mbind, M_bind, mret, M_ret, fmap, M_fmap, bind, ret, raise,
    try_except, logger_debug, logger_warning, logger_error, logger_log, print;
  change (level_no logger_level <=? level_no DEBUG)%nat with false;
  change (level_no logger_level <=? level_no WARNING)%nat with true;
  change (level_no logger_level <=? level_no ERROR)%nat with true;
  cbv iota.

(** One step of the loop. *)
Lemma parse_lines_cons (path line : string) (lines : list string)
    (items : list FileItem.t) (w : world) :
  parse_lines path (line :: lines) items w =
  let line := Py.strip line in
  if Py.is_empty line || Py.startswith "total" line then
    parse_lines path lines items w
  else
    match Re.match_ pattern line with
    | None => parse_lines path lines items w
    | Some m =>
        (perms ← group m 1;
         size ← group m 2;
         d ← group m 3;
         t ← group m 4;
         name ← group m 5;
         if String.eqb name "." || String.eqb name ".." then
           parse_lines path lines items
         else
           n ← int size;
           parse_lines path lines
             (items ++ [FileItem.make name
                          (Py.rstrip_char "/" path +:+ "/" +:+ name)
                          (Py.startswith "d" perms) n perms
                          (d +:+ " " +:+ t)])) w
    end.
Proof.
  cbn [parse_lines]. unfold_monad. cbn zeta. simpl (_ <=? _)%nat. cbv iota.
  destruct (Py.is_empty _ || _); [done |].
  destruct (Re.match_ _ _) as [m|]; [| done].
  destruct (group m 1 w) as [[e|perms] w1]; [done |].
  destruct (group m 2 w1) as [[e|size] w2]; [done |].
  destruct (group m 3 w2) as [[e|d] w3]; [done |].
  destruct (group m 4 w3) as [[e|t] w4]; [done |].
  destruct (group m 5 w4) as [[e|name] w5]; [done |].
  by destruct (_ || _).
Qed.

(** A line that, stripped, is a well-formed line other than the two dot
    entries adds its entry if [int] converts its size column, and ends
    the loop with the [ValueError] of [int] if not. *)
Lemma parse_lines_entry (path line : string) (f : listing_line)
    (lines : list string) (items : list FileItem.t) (w : world) :
  Py.strip line = render f → well_formed f = true →
  l_name f ≠ "." → l_name f ≠ ".." →
  parse_lines path (line :: lines) items w =
  match Py.int (l_size f) with
  | Some n => parse_lines path lines (items ++ [entry_of path f n]) w
  | None => (inl (ValueError (Py.int_error (l_size f))), w)
  end.
Proof.
  intros Hline Hf Hdot Hdots.
  rewrite parse_lines_cons. cbv zeta.
  rewrite Hline, (render_nonempty f Hf), (render_not_total f Hf),
    (match_columns f Hf).
  unfold_monad. unfold group, int. cbn [groups_of Re.group Nat.eqb orb].
  unfold_monad.
  apply String.eqb_neq in Hdot, Hdots. rewrite Hdot, Hdots. cbn [orb].
  by destruct (Py.int (l_size f)).
Qed.

Lemma parse_lines_well_formed (path : string) (f : listing_line)
    (lines : list string) (items : list FileItem.t) (w : world) :
  well_formed f = true → l_name f ≠ "." → l_name f ≠ ".." →
  (String.length (l_size f) ≤ Py.int_max_str_digits)%nat →
  ∃ n, Py.int (l_size f) = Some n ∧ 0 ≤ n ∧
       parse_lines path (render f :: lines) items w =
       parse_lines path lines (items ++ [entry_of path f n]) w.
Proof.
  intros Hf Hdot Hdots Hlen.
  assert (run_of Py.isdigit (l_size f) = true) as Hsize.
  { unpack_well_formed Hf. done. }
  destruct (int_digits _ Hsize Hlen) as (n & Hn & Hpos).
  exists n. split; [done |]. split; [done |].
  by rewrite (parse_lines_entry path _ f lines items w
                (render_stripped f Hf) Hf Hdot Hdots), Hn.
Qed.

(** The two dot entries are dropped. *)
Lemma parse_lines_dot_entry (path : string) (f : listing_line)
    (lines : list string) (items : list FileItem.t) (w : world) :
  well_formed f = true → l_name f = "." ∨ l_name f = ".." →
  parse_lines path (render f :: lines) items w =
  parse_lines path lines items w.
Proof.
  intros Hf Hname.
  rewrite parse_lines_cons. cbv zeta.
  rewrite (render_stripped f Hf), (render_nonempty f Hf),
    (render_not_total f Hf), (match_columns f Hf).
  unfold_monad. unfold group. simpl.
  by destruct Hname as [-> | ->].
Qed.

Lemma parse_listing_eq (path text : string) (w : world) :
  parse_listing path text w = parse_lines path (Py.split "010" text) [] w.
Proof.
  unfold parse_listing. unfold_monad. simpl.
  by destruct (parse_lines _ _ _ _) as [[?|?] ?].
Qed.

(** Splitting a loop over two runs of lines. *)
Lemma parse_lines_app (path : string) (l1 l2 : list string)
    (items : list FileItem.t) (w : world) :
  parse_lines path (l1 ++ l2) items w =
  match parse_lines path l1 items w with
  | (inr items', w') => parse_lines path l2 items' w'
  | (inl e, w') => (inl e, w')
  end.
Proof.
  revert items w. induction l1 as [|line l1 IH]; intros items w; [done |].
  rewrite <- app_comm_cons, !parse_lines_cons. cbv zeta.
  destruct (Py.is_empty _ || _); [apply IH |].
  destruct (Re.match_ _ _) as [m|]; [| apply IH].
  unfold_monad.
  destruct (group m 1 w) as [[e|perms] w1]; [done |].
  destruct (group m 2 w1) as [[e|size] w2]; [done |].
  destruct (group m 3 w2) as [[e|d] w3]; [done |].
  destruct (group m 4 w3) as [[e|t] w4]; [done |].
  destruct (group m 5 w4) as [[e|name] w5]; [done |].
  destruct (_ || _); [apply IH |].
  destruct (int size w5) as [[e|n] w6]; [done | apply IH].
Qed.

(** A line that the pattern rejects is passed over. *)
Lemma parse_lines_no_match (path line : string) (lines : list string)
    (items : list FileItem.t) (w : world) :
  Re.match_ pattern (Py.strip line) = None →
  parse_lines path (line :: lines) items w = parse_lines path lines items w.
Proof.
  intros H. rewrite parse_lines_cons. cbv zeta. rewrite H.
  by destruct (_ || _).
Qed.

Lemma group_inv (m : Re.captures) (i : nat) (w : world) r w' :
  group m i w = (r, w') →
  w' = w ∧ match r with inr s => Re.group m i = Some s | inl _ => True end.
Proof.
  unfold group. destruct (Re.group m i); unfold_monad; by intros [= <- <-].
Qed.

Lemma int_inv (s : string) (w : world) r w' :
  int s w = (r, w') →
  w' = w ∧ match r with inr n => Py.int s = Some n | inl _ => True end.
Proof.
  unfold int. destruct (Py.int s); unfold_monad; by intros [= <- <-].
Qed.

Lemma produced_mono (path : string) (l1 l2 : list string) (e : FileItem.t) :
  l1 ⊆ l2 → produced path l1 e → produced path l2 e.
Proof.
  intros Hsub (line & m & perms & size & d & t & name & n & Hin & H).
  exists line, m, perms, size, d, t, name, n. split; [by apply Hsub | done].
Qed.

(** The loop only appends, it leaves the world alone, and every entry it
    appends went through the checks of the loop body. *)
Lemma parse_lines_produced (path : string) (lines : list string)
    (items : list FileItem.t) (w : world) r w' :
  parse_lines path lines items w = (r, w') →
  w' = w ∧
  match r with
  | inr items' => ∃ new, items' = items ++ new ∧
                         Forall (produced path lines) new
  | inl _ => True
  end.
Proof.
  revert items r w'. induction lines as [|line lines IH]; intros items r w'.
  - intros [= <- <-]. split; [done |]. exists []. by rewrite app_nil_r.
  - assert (∀ r w', parse_lines path lines items w = (r, w') →
       w' = w ∧
       match r with
       | inr items' => ∃ new, items' = items ++ new ∧
                              Forall (produced path (line :: lines)) new
       | inl _ => True
       end) as Hskip.
    { intros r0 w0 [-> Hr]%IH. split; [done |].
      destruct r0 as [|items']; [done |]. destruct Hr as (new & -> & Hnew).
      exists new. split; [done |].
      eapply Forall_impl; [done |]. intros e. apply produced_mono.
      intros x Hx. by apply list_elem_of_further. }
    rewrite parse_lines_cons. cbv zeta.
    destruct (Py.is_empty _ || _); [apply Hskip |].
    destruct (Re.match_ _ _) as [m|] eqn:Em; [| apply Hskip].
    unfold_monad.
    destruct (group m 1 w) as [[e|perms] w1] eqn:E1;
      apply group_inv in E1 as [-> E1]; [by intros [= <- <-] |].
    destruct (group m 2 w) as [[e|size] w2] eqn:E2;
      apply group_inv in E2 as [-> E2]; [by intros [= <- <-] |].
    destruct (group m 3 w) as [[e|d] w3] eqn:E3;
      apply group_inv in E3 as [-> E3]; [by intros [= <- <-] |].
    destruct (group m 4 w) as [[e|t] w4] eqn:E4;
      apply group_inv in E4 as [-> E4]; [by intros [= <- <-] |].
    destruct (group m 5 w) as [[e|name] w5] eqn:E5;
      apply group_inv in E5 as [-> E5]; [by intros [= <- <-] |].
    destruct (String.eqb_spec name ".") as [|Hdot]; [apply Hskip |].
    destruct (String.eqb_spec name "..") as [|Hdots]; [apply Hskip |].
    cbn [orb].
    destruct (int size w) as [[e|n] w6] eqn:E6;
      apply int_inv in E6 as [-> Hn]; [by intros [= <- <-] |].
    intros [-> Hr]%IH. split; [done |].
    destruct r as [e|items']; [done |].
    destruct Hr as (new & -> & Hnew).
    eexists (_ :: new). rewrite <- app_assoc. split; [done |].
    constructor.
    + exists line, m, perms, size, d, t, name, n.
      split; [by apply list_elem_of_here | done].
    + eapply Forall_impl; [done |]. intros e. apply produced_mono.
      intros x Hx. by apply list_elem_of_further.
Qed.

Lemma parse_listing_produced (path text : string) (w : world)
    (items : list FileItem.t) w' :
  parse_listing path text w = (inr items, w') →
  w' = w ∧ Forall (produced path (Py.split "010" text)) items.
Proof.
  rewrite parse_listing_eq. intros [-> (new & -> & H)]%parse_lines_produced.
  done.
Qed.

(** The loop leaves the world alone, and what it returns or raises does
    not depend on the world; the list it starts with is the head of the
    list it returns. *)
Lemma parse_lines_acc (path : string) (lines : list string)
    (items : list FileItem.t) (w : world) :
  parse_lines path lines items w =
  (match (parse_lines path lines [] w0).1 with
   | inl e => inl e
   | inr new => inr (items ++ new)
   end, w).
Proof.
  revert items w. induction lines as [|line lines IH]; intros items w.
  - cbn [parse_lines]. unfold_monad. cbn [fst]. by rewrite app_nil_r.
  - rewrite !parse_lines_cons. cbv zeta.
    destruct (Py.is_empty _ || _); [apply IH |].
    destruct (Re.match_ _ _) as [m|] eqn:Em; [| apply IH].
    apply match_inv in Em
      as (perms & size & d & t & name & -> & _ & Hsize & _).
    unfold_monad. unfold group, int. cbn [Re.group Nat.eqb]. unfold_monad.
    destruct (_ || _); [apply IH |].
    destruct (Py.int size) as [n|]; unfold_monad; [| done].
    rewrite (IH (items ++ _)), (IH ([] ++ _)). cbn [fst].
    destruct (parse_lines path lines [] w0).1 as [e|new]; [done |].
    by rewrite <- app_assoc.
Qed.

(** One step of the loop, by the outcome of the line. *)
Lemma parse_lines_step (path line : string) (lines : list string)
    (items : list FileItem.t) (w : world) :
  parse_lines path (line :: lines) items w =
  match line_entry path line with
  | inl e => (inl e, w)
  | inr new => parse_lines path lines (items ++ new) w
  end.
Proof.
  change (line :: lines) with ([line] ++ lines).
  rewrite parse_lines_app, (parse_lines_acc path [line]).
  unfold line_entry. by destruct (parse_lines path [line] [] w0).1.
Qed.

Lemma parse_listing_entries (path text : string) (w : world) :
  parse_listing path text w = (entries path text, w).
Proof.
  unfold entries. rewrite !parse_listing_eq, parse_lines_acc.
  by destruct (parse_lines _ _ _ _).1.
Qed.

(** The outcome of the loop is that of its lines, one after the other. *)
Lemma parse_lines_foldr (path : string) (lines : list string) :
  (parse_lines path lines [] w0).1 =
  foldr (λ line, and_then (line_entry path line)) (inr []) lines.
Proof.
  induction lines as [|line lines IH]; [done |].
  rewrite parse_lines_step. cbn [foldr]. rewrite <- IH.
  destruct (line_entry path line) as [e|new]; [done |].
  rewrite parse_lines_acc. cbn [fst and_then].
  by destruct (parse_lines path lines [] w0).1.
Qed.

(** The outcome of one line: nothing, the entry of the line, or the
    [ValueError] of [int] on a size column that is too long. *)
Lemma line_entry_entry (path line : string) (f : listing_line) :
  Py.strip line = render f → well_formed f = true →
  l_name f ≠ "." → l_name f ≠ ".." →
  line_entry path line =
  match Py.int (l_size f) with
  | Some n => inr [entry_of path f n]
  | None => inl (ValueError (Py.int_error (l_size f)))
  end.
Proof.
  intros Hline Hf Hdot Hdots. unfold line_entry.
  rewrite (parse_lines_entry path line f [] [] w0 Hline Hf Hdot Hdots).
  by destruct (Py.int (l_size f)).
Qed.

Lemma line_entry_inv (path line : string) :
  all_chars dot line = true →
  match line_entry path line with
  | inr new =>
      (new = [] ∧
       ∀ f, Py.strip line = render f → well_formed f = true →
            l_name f = "." ∨ l_name f = "..") ∨
      ∃ f n, Py.strip line = render f ∧ well_formed f = true ∧
             l_name f ≠ "." ∧ l_name f ≠ ".." ∧
             Py.int (l_size f) = Some n ∧ new = [entry_of path f n]
  | inl e => refused line e
  end.
Proof.
  intros Hdot. destruct (strip_shape line Hdot) as [Hd Hr].
  unfold line_entry. rewrite parse_lines_cons. cbv zeta.
  destruct (Py.is_empty _ || _) eqn:Eskip.
  { left. split; [done |]. intros f Hline Hf. rewrite Hline in Eskip.
    by rewrite (render_nonempty f Hf), (render_not_total f Hf) in Eskip. }
  destruct (Re.match_ _ _) as [m|] eqn:Em.
  2:{ left. split; [done |]. intros f Hline Hf. rewrite Hline in Em.
      by rewrite (match_columns f Hf) in Em. }
  pose proof Em as Em'.
  apply match_columns_inv in Em as (f & Hf & Hwf & ->); [| done..].
  unfold_monad. unfold group, int. cbn [groups_of Re.group Nat.eqb].
  unfold_monad.
  destruct (String.eqb_spec (l_name f) ".") as [Hdot1|Hdot1].
  { left. split; [done |]. intros f' Hline' Hf'. rewrite Hline' in Em'.
    rewrite (match_columns f' Hf') in Em'. injection Em' as E5 _.
    left. congruence. }
  destruct (String.eqb_spec (l_name f) "..") as [Hdot2|Hdot2].
  { left. split; [done |]. intros f' Hline' Hf'. rewrite Hline' in Em'.
    rewrite (match_columns f' Hf') in Em'. injection Em' as E5 _.
    right. congruence. }
  cbn [orb].
  destruct (Py.int (l_size f)) as [n|] eqn:En; unfold_monad; cbn [fst].
  - right. by exists f, n.
  - exists f. repeat (split; [done |]). split; [| done].
    apply int_refuses; [| done]. by unpack_well_formed Hwf.
Qed.

(** The outcome of the lines of a text: the list holds exactly the
    entries of the well-formed lines other than the dot entries, and the
    loop raises exactly when [int] refuses the size column of one of
    them. *)
Lemma lines_outcome (path : string) (lines : list string) :
  Forall (λ line, all_chars dot line = true) lines →
  match foldr (λ line, and_then (line_entry path line)) (inr []) lines with
  | inr items =>
      (∀ e, e ∈ items ↔
            ∃ line f n,
              line ∈ lines ∧ Py.strip line = render f ∧
              well_formed f = true ∧ l_name f ≠ "." ∧ l_name f ≠ ".." ∧
              Py.int (l_size f) = Some n ∧ e = entry_of path f n) ∧
      ∀ line e, line ∈ lines → ¬ refused line e
  | inl e => ∃ line, line ∈ lines ∧ refused line e
  end.
Proof.
  induction 1 as [|line lines Hline _ IH]; cbn [foldr].
  - split; [| by intros ?? ?%elem_of_nil].
    intros e. split; [by intros ?%elem_of_nil |].
    by intros (? & ? & ? & ?%elem_of_nil & _).
  - pose proof (line_entry_inv path line Hline) as Hone.
    destruct (line_entry path line) as [e|new] eqn:E1; cbn [and_then].
    { exists line. split; [apply list_elem_of_here | done]. }
    destruct (foldr _ _ lines) as [e|items] eqn:E2.
    { destruct IH as (l & Hin & Hl). exists l.
      split; [by apply list_elem_of_further | done]. }
    destruct IH as [IH1 IH2].
    assert (∀ e, ¬ refused line e) as Hnot.
    { intros e (f & Hf & Hwf & Hd1 & Hd2 & Hlen & _).
      rewrite (line_entry_entry path line f Hf Hwf Hd1 Hd2) in E1.
      rewrite int_overlong in E1; [done | | done].
      apply run_of_all. by unpack_well_formed Hwf. }
    split.
    2:{ intros l e [-> | Hin]%elem_of_cons; [apply Hnot | by apply IH2]. }
    intros e. rewrite elem_of_app, IH1. split.
    + intros [He | (l & f & n & Hin & H)].
      * destruct Hone as [[-> _] | (f & n & Hf & Hwf & Hd1 & Hd2 & Hn & ->)];
          [by apply elem_of_nil in He |].
        apply list_elem_of_singleton in He as ->.
        exists line, f, n. split; [apply list_elem_of_here | done].
      * exists l, f, n. split; [by apply list_elem_of_further | done].
    + intros (l & f & n & [-> | Hin]%elem_of_cons & Hf & Hwf & Hd1 & Hd2
                & Hn & ->).
      * left. rewrite (line_entry_entry path line f Hf Hwf Hd1 Hd2), Hn in E1.
        injection E1 as <-. apply list_elem_of_here.
      * right. by exists l, f, n.
Qed.

(** ** Splitting at a separator and joining again *)

Lemma split_nonempty (sep : ascii) (s : string) :
  ∃ h t, Py.split sep s = h :: t.
Proof.
  induction s as [|c s (h & t & IH)]; simpl; [by eauto |].
  destruct (Ascii.eqb c sep); [by eauto |]. rewrite IH. by eauto.
Qed.

Lemma split_app_sep (sep : ascii) (a b : string) :
  Py.split sep (a +:+ String sep b) = Py.split sep a ++ Py.split sep b.
Proof.
  induction a as [|c a IH]; simpl.
  - by rewrite Ascii.eqb_refl.
  - rewrite IH. destruct (Ascii.eqb c sep); [done |].
    by destruct (split_nonempty sep a) as (h & t & ->).
Qed.

Lemma concat_cons (sep x y : string) (l : list string) :
  String.concat sep (x :: y :: l) = x +:+ sep +:+ String.concat sep (y :: l).
Proof. reflexivity. Qed.

Lemma join_split (sep : ascii) (s : string) :
  Py.join (String sep "") (Py.split sep s) = s.
Proof.
  unfold Py.join. induction s as [|c s IH]; [done |].
  cbn [Py.split].
  destruct (split_nonempty sep s) as (h & t & E). rewrite E in *.
  destruct (Ascii.eqb_spec c sep) as [-> |].
  - by rewrite concat_cons, IH.
  - destruct t as [|h' t]; [by rewrite <- IH |].
    rewrite concat_cons in *. by rewrite <- IH.
Qed.

(** [parent_dir] is the text before the last slash. *)
Lemma parent_dir_of_child (p leaf : string) :
  all_chars (λ c, negb (Ascii.eqb c "/")) leaf = true →
  parent_dir (p +:+ "/" +:+ leaf) = p.
Proof.
  intros H. unfold parent_dir, Py.init.
  change ("/" +:+ leaf) with (String "/" leaf).
  rewrite split_app_sep, (split_no_sep _ _ H), removelast_last.
  apply join_split.
Qed.

Lemma parent_dir_of_leaf (leaf : string) :
  all_chars (λ c, negb (Ascii.eqb c "/")) leaf = true →
  parent_dir leaf = "".
Proof. intros H. unfold parent_dir. by rewrite (split_no_sep _ _ H). Qed.

(* ================================================================== *)
(** * Device records *)
(* ================================================================== *)

Lemma prefix_app (a s : string) :
  String.prefix a s = true → ∃ rest, s = a +:+ rest.
Proof.
  revert s. induction a as [|c a IH]; intros s; [by exists s |].
  destruct s as [|d s]; [done |]. rewrite prefix_cons.
  destruct (ascii_dec c d) as [<- |]; [| done].
  intros [rest ->]%IH. by exists rest.
Qed.

(** A line in which a word occurs is not blank. *)
Lemma contains_not_blank (c : ascii) (sub s : string) :
  Py.isspace c = false → Py.contains (String c sub) s = true →
  all_chars Py.isspace s = false.
Proof.
  intros Hc. induction s as [|d s IH]; [done |].
  cbn [Py.contains all_chars]. rewrite prefix_cons.
  destruct (ascii_dec c d) as [<- |].
  - by rewrite Hc.
  - cbn [orb]. intros H%IH. rewrite H. apply andb_false_r.
Qed.

Lemma split_ws_blank (s : string) :
  Py.split_ws s = [] → all_chars Py.isspace s = true.
Proof.
  induction s as [|c s IH]; [done |]. cbn [Py.split_ws all_chars].
  destruct (Py.isspace c); [done |].
  destruct (Py.starts_word s); [| done].
  by destruct (Py.split_ws s).
Qed.

(** So [parts[0]] exists on every line that passes the test. *)
Lemma qualifies_has_serial (line : string) :
  qualifies line = true → ∃ serial rest, Py.split_ws line = serial :: rest.
Proof.
  unfold qualifies. intros [H _]%andb_true_iff.
  apply (contains_not_blank "d") in H; [| done].
  destruct (Py.split_ws line) as [|serial rest] eqn:E; [| by eauto].
  apply split_ws_blank in E. congruence.
Qed.

(** [p.split(':')[1]] exists for every token that starts with [model:]. *)
Lemma model_token_has_value (p : string) :
  Py.startswith "model:" p = true → ∃ v, Py.split ":" p !! 1%nat = Some v.
Proof.
  intros [rest ->]%prefix_app.
  change ("model:" +:+ rest) with ("model" +:+ String ":" rest).
  rewrite split_app_sep.
  destruct (split_nonempty ":" rest) as (h & t & ->). by exists h.
Qed.

Lemma first_model_spec (parts : list string) (w : world) :
  first_model parts w = (inr (model_of parts), w).
Proof.
  induction parts as [|p parts IH]; [done |]. cbn [first_model model_of].
  destruct (Py.startswith "model:" p) eqn:E; [| done].
  destruct (model_token_has_value p E) as [v Hv].
  unfold index. by rewrite Hv.
Qed.

(** The loop never fails: it inserts the record of each qualifying line,
    in order. *)
Lemma devices_loop_spec (lines : list string) (d : gmap string string)
    (w : world) :
  devices_loop lines d w =
  (inr (foldl (λ d r, <[r.1 := r.2]> d) d
          (record_of <$> filter (λ l, qualifies l = true) lines)), w).
Proof.
  revert d. induction lines as [|line lines IH]; intros d; [done |].
  cbn [devices_loop]. fold (qualifies line).
  rewrite filter_cons. destruct (decide (qualifies line = true)) as [Hq|Hq].
  - rewrite Hq. destruct (qualifies_has_serial line Hq) as (serial & rest & E).
    unfold index. rewrite E. cbn [lookup list_lookup]. unfold_monad.
    rewrite first_model_spec, IH. rewrite fmap_cons. cbn [foldl].
    unfold record_of at 2 3. by rewrite E.
  - apply not_true_is_false in Hq. rewrite Hq. apply IH.
Qed.

Lemma foldl_insert_records (l : list (string * string)) :
  foldl (λ (d : gmap string string) r, <[r.1 := r.2]> d) ∅ l =
  list_to_map (reverse l).
Proof.
  induction l as [|[k v] l IH] using rev_ind; [done |].
  by rewrite foldl_app, reverse_app, IH.
Qed.

(* ================================================================== *)
(** * The command executor and the facade *)
(* ================================================================== *)

Section Facade.

Variable subprocess_run : nat → list string → outcome.

(** [_run_adb_command] spawns exactly one process; a completed process
    is returned whatever its exit status, an exception is passed on, and
    a timeout is logged on the way. *)
Lemma run_adb_command_spec (serial : option string) (command : list string)
    (w : world) :
  let cmd := adb_argv serial command in
  run_adb_command subprocess_run serial command w =
  match subprocess_run (length (spawned w)) cmd with
  | Completed r => (inr r, after_spawn cmd w)
  | Raised (TimeoutExpired m) =>
      (inl (TimeoutExpired m),
       logged ERROR ("Command timed out: " +:+ Py.join " " cmd)
         (after_spawn cmd w))
  | Raised e => (inl e, after_spawn cmd w)
  end.
Proof.
  cbv zeta. unfold run_adb_command, spawn. unfold_monad.
  destruct (subprocess_run _ _) as [r|e]; [done |]. by destruct e.
Qed.

Lemma run_adb_command_spawned (serial : option string)
    (command : list string) (w : world) r w' :
  run_adb_command subprocess_run serial command w = (r, w') →
  spawned w' = spawned w ++ [adb_argv serial command] ∧
  match r with
  | inr c => subprocess_run (length (spawned w)) (adb_argv serial command)
             = Completed c
  | inl e => subprocess_run (length (spawned w)) (adb_argv serial command)
             = Raised e
  end.
Proof.
  rewrite run_adb_command_spec. cbv zeta.
  destruct (subprocess_run _ _) as [c|e]; [by intros [= <- <-] |].
  destruct e; by intros [= <- <-].
Qed.

(** [create_folder] on a connected session: one spawn, never an
    exception, and the flag of the exit status. *)
Lemma create_folder_spec (self : ADBHandler) (remote_path : string)
    (w : world) :
  device_connected self = true →
  let cmd := adb_argv (device_serial self)
               ["shell"; "mkdir -p " +:+ escape_path remote_path] in
  ∃ w', create_folder subprocess_run self remote_path w
        = (inr (exit_ok (subprocess_run (length (spawned w)) cmd)), w') ∧
        spawned w' = spawned w ++ [cmd].
Proof.
  intros Hc. cbv zeta. unfold create_folder. rewrite Hc. cbn [negb].
  unfold_monad. rewrite run_adb_command_spec. cbv zeta.
  destruct (subprocess_run _ _) as [r|e]; [by eexists |].
  destruct e; by eexists.
Qed.

(** Every facade operation returns a value, whatever the processes do. *)
Lemma facade_returns (self : ADBHandler) (op : operation) (w : world) :
  ∃ v w', perform subprocess_run self op w = (inr v, w').
Proof.
  destruct op; unfold perform;
    [ unfold list_directory | unfold pull_file | unfold push_file
    | unfold rename_item | unfold delete_item | unfold create_file
    | unfold create_folder | unfold copy_on_device | unfold move_on_device ];
    (destruct (device_connected self) eqn:Hc; cbn [negb];
     [| unfold_monad; simpl; by eauto]);
    unfold_monad; cbv zeta.
  - rewrite run_adb_command_spec. cbv zeta.
    destruct (subprocess_run _ _) as [r|e]; [| destruct e; simpl; by eauto].
    destruct (negb _); [simpl; by eauto |].
    destruct (parse_listing _ _ _) as [[e|items] w1];
      [destruct e |]; simpl; by eauto.
  - rewrite run_adb_command_spec. cbv zeta.
    destruct (subprocess_run _ _) as [r|e]; [| destruct e]; simpl; by eauto.
  - rewrite run_adb_command_spec. cbv zeta.
    destruct (subprocess_run _ _) as [r|e]; [| destruct e]; simpl; by eauto.
  - rewrite run_adb_command_spec. cbv zeta.
    destruct (subprocess_run _ _) as [r|e]; [| destruct e]; simpl; by eauto.
  - rewrite run_adb_command_spec. cbv zeta.
    destruct (subprocess_run _ _) as [r|e]; [| destruct e]; simpl; by eauto.
  - rewrite run_adb_command_spec. cbv zeta.
    destruct (subprocess_run _ _) as [r|e]; [| destruct e]; simpl; by eauto.
  - rewrite run_adb_command_spec. cbv zeta.
    destruct (subprocess_run _ _) as [r|e]; [| destruct e]; simpl; by eauto.
  - destruct (Py.is_empty (parent_dir dest_path)); cbn [negb].
    + rewrite run_adb_command_spec. cbv zeta.
      destruct (subprocess_run _ _) as [r|e]; [| destruct e]; simpl; by eauto.
    + destruct (create_folder_spec self (parent_dir dest_path) w Hc)
        as (w1 & -> & _).
      rewrite run_adb_command_spec. cbv zeta.
      destruct (subprocess_run (length (spawned w1)) _) as [r|e];
        [| destruct e]; simpl; by eauto.
  - destruct (Py.is_empty (parent_dir dest_path)); cbn [negb].
    + rewrite run_adb_command_spec. cbv zeta.
      destruct (subprocess_run _ _) as [r|e]; [| destruct e]; simpl; by eauto.
    + destruct (create_folder_spec self (parent_dir dest_path) w Hc)
        as (w1 & -> & _).
      rewrite run_adb_command_spec. cbv zeta.
      destruct (subprocess_run (length (spawned w1)) _) as [r|e];
        [| destruct e]; simpl; by eauto.
Qed.

(** Device discovery returns a mapping, whatever the process does. *)
Lemma discovery_returns (serial : option string) (w : world) :
  ∃ d w', get_connected_devices subprocess_run serial w = (inr d, w').
Proof.
  unfold get_connected_devices. unfold_monad.
  rewrite run_adb_command_spec. cbv zeta.
  destruct (subprocess_run _ _) as [r|e]; [| destruct e; simpl; by eauto].
  destruct (negb _); [simpl; by eauto |].
  destruct (devices_loop _ _ _) as [[e|d] w1]; simpl; by eauto.
Qed.

(** Of the nine operations, the seven that do not copy or move log an
    exception of the process boundary as an error and report failure. *)
Lemma sibling_fault_is_logged (self : ADBHandler) (op : operation)
    (w : world) (e : exn) :
  device_connected self = true →
  (∀ cmd, subprocess_run (length (spawned w)) cmd = Raised e) →
  match op with
  | CopyOnDevice _ _ | MoveOnDevice _ _ => True
  | _ => ∃ w' msg, perform subprocess_run self op w = (inr (failure op), w') ∧
                   last (log w') = Some (ERROR, msg)
  end.
Proof.
  intros Hc He.
  destruct op; try done; unfold perform;
    [ unfold list_directory | unfold pull_file | unfold push_file
    | unfold rename_item | unfold delete_item | unfold create_file
    | unfold create_folder ];
    rewrite Hc; cbn [negb]; unfold_monad; cbv zeta;
    rewrite run_adb_command_spec; cbv zeta; rewrite He;
    destruct e; eexists _, _; (split; [reflexivity |]);
    unfold logged, after_spawn; cbn [log]; apply last_snoc.
Qed.

(** Discovery logs it too, and returns the empty mapping. *)
Lemma discovery_fault_is_logged (serial : option string) (w : world)
    (e : exn) :
  subprocess_run (length (spawned w)) (adb_argv serial ["devices"; "-l"])
    = Raised e →
  ∃ w', get_connected_devices subprocess_run serial w = (inr ∅, w') ∧
        last (log w') = Some (ERROR, "Error listing devices: " +:+ str_exn e).
Proof.
  intros He. unfold get_connected_devices. unfold_monad.
  rewrite run_adb_command_spec. cbv zeta. rewrite He.
  destruct e; eexists; (split; [reflexivity |]);
    unfold logged, after_spawn; cbn [log]; apply last_snoc.
Qed.

(** A session that is not connected: each operation logs, returns its
    failure value and spawns nothing. *)
Lemma disconnected_fails_without_spawn_aux (self : ADBHandler) (w : world) :
  device_connected self = false →
  ∀ op : operation,
    ∃ w', perform subprocess_run self op w = (inr (failure op), w') ∧
          spawned w' = spawned w.
Proof.
  intros Hc op. destruct op; unfold perform;
    [ unfold list_directory | unfold pull_file | unfold push_file
    | unfold rename_item | unfold delete_item | unfold create_file
    | unfold create_folder | unfold copy_on_device | unfold move_on_device ];
    rewrite Hc; unfold_monad; simpl; by eauto.
Qed.

(** C3.  On a session whose connected flag is false, every facade
    operation, whatever its arguments, returns its failure value (false,
    or the empty list for [list_directory]) having logged the error and
    spawned no process; in particular [delete_item] with [is_dir] true
    returns false and spawns nothing. *)
Theorem disconnected_fails_without_spawn (self : ADBHandler) (w : world) :
  device_connected self = false →
  (∀ op : operation,
     ∃ w', perform subprocess_run self op w = (inr (failure op), w') ∧
           spawned w' = spawned w ∧
           log w' = log w ++ [(ERROR, "No ADB device connected")]) ∧
  (∀ path : string,
     ∃ w', delete_item subprocess_run self path true w = (inr false, w') ∧
           spawned w' = spawned w).
Proof.
  intros Hc. split.
  - intros op. destruct op; unfold perform;
      [ unfold list_directory | unfold pull_file | unfold push_file
      | unfold rename_item | unfold delete_item | unfold create_file
      | unfold create_folder | unfold copy_on_device | unfold move_on_device ];
      rewrite Hc; unfold_monad; simpl; by eauto.
  - intros path. unfold delete_item. rewrite Hc. unfold_monad. simpl.
    by eauto.
Qed.

(** C10.  On a connected session the flag returned by [copy_on_device]
    and [move_on_device] is the success of the final [cp -r] / [mv]
    command alone: it is true exactly when that command completes with
    exit status 0.  The parent directory is created first exactly when
    the text before the last slash of the destination is not empty, and
    the outcome of that creation does not enter the result; a destination
    without a parent component spawns the final command only.  (The text
    before the last slash is what [parent_dir] computes.) *)
Theorem copy_move_flag_from_final_command (self : ADBHandler)
    (src_path dest_path : string) (w : world) :
  device_connected self = true →
  let serial := device_serial self in
  let mkdir :=
    adb_argv serial ["shell"; "mkdir -p " +:+ escape_path (parent_dir dest_path)] in
  let before := if Py.is_empty (parent_dir dest_path) then [] else [mkdir] in
  let cp :=
    adb_argv serial
      ["shell"; "cp -r " +:+ escape_path src_path +:+ " " +:+ escape_path dest_path] in
  let mv :=
    adb_argv serial
      ["shell"; "mv " +:+ escape_path src_path +:+ " " +:+ escape_path dest_path] in
  (∃ w', copy_on_device subprocess_run self src_path dest_path w =
         (inr (exit_ok (subprocess_run (length (spawned w ++ before)) cp)), w') ∧
         spawned w' = spawned w ++ before ++ [cp]) ∧
  (∃ w', move_on_device subprocess_run self src_path dest_path w =
         (inr (exit_ok (subprocess_run (length (spawned w ++ before)) mv)), w') ∧
         spawned w' = spawned w ++ before ++ [mv]) ∧
  (∀ p leaf, all_chars (λ c, negb (Ascii.eqb c "/")) leaf = true →
             parent_dir (p +:+ "/" +:+ leaf) = p ∧ parent_dir leaf = "").
Proof.
  intros Hc. cbv zeta. split; [| split];
    [| | intros p leaf H; split;
         [by apply parent_dir_of_child | by apply parent_dir_of_leaf]].
  - unfold copy_on_device. rewrite Hc. cbn [negb]. unfold_monad. cbv zeta.
    destruct (Py.is_empty (parent_dir dest_path)); cbn [negb].
    + rewrite run_adb_command_spec, app_nil_r. cbv zeta.
      destruct (subprocess_run _ _) as [r|e]; [| destruct e];
        simpl; by eauto.
    + destruct (create_folder_spec self (parent_dir dest_path) w Hc)
        as (w1 & -> & Hs).
      rewrite run_adb_command_spec. cbv zeta. rewrite Hs.
      destruct (subprocess_run (length _) _) as [r|e]; [| destruct e];
        (eexists; split; [reflexivity |]);
        unfold logged, after_spawn; cbn [spawned];
        by rewrite Hs, <- app_assoc.
  - unfold move_on_device. rewrite Hc. cbn [negb]. unfold_monad. cbv zeta.
    destruct (Py.is_empty (parent_dir dest_path)); cbn [negb].
    + rewrite run_adb_command_spec, app_nil_r. cbv zeta.
      destruct (subprocess_run _ _) as [r|e]; [| destruct e];
        simpl; by eauto.
    + destruct (create_folder_spec self (parent_dir dest_path) w Hc)
        as (w1 & -> & Hs).
      rewrite run_adb_command_spec. cbv zeta. rewrite Hs.
      destruct (subprocess_run (length _) _) as [r|e]; [| destruct e];
        (eexists; split; [reflexivity |]);
        unfold logged, after_spawn; cbn [spawned];
        by rewrite Hs, <- app_assoc.
Qed.

End Facade.

(* ================================================================== *)
(** * Device discovery and session construction *)
(* ================================================================== *)

Section Discovery.

Variable subprocess_run : nat → list string → outcome.

Lemma get_connected_devices_completed (serial : option string)
    (out err : string) (w : world) :
  subprocess_run (length (spawned w)) (adb_argv serial ["devices"; "-l"])
    = Completed (mkCompleted 0 out err) →
  get_connected_devices subprocess_run serial w =
  (inr (list_to_map (reverse (records_of out))),
   after_spawn (adb_argv serial ["devices"; "-l"]) w).
Proof.
  intros H. unfold get_connected_devices. unfold_monad.
  rewrite run_adb_command_spec. cbv zeta. rewrite H.
  cbn [returncode stdout negb Z.eqb].
  by rewrite devices_loop_spec, foldl_insert_records.
Qed.

Lemma list_to_map_is_Some (l : list (string * string)) (s : string) :
  is_Some ((list_to_map l : gmap string string) !! s) ↔ s ∈ l.*1.
Proof.
  split.
  - intros [x Hx%elem_of_list_to_map_2].
    apply list_elem_of_fmap. by exists (s, x).
  - intros Hin. destruct (list_to_map l !! s) eqn:E; [by eauto |].
    by apply not_elem_of_list_to_map in E.
Qed.

Lemma record_serial (line : string) :
  qualifies line = true → head (Py.split_ws line) = Some (record_of line).1.
Proof.
  intros (serial & rest & E)%qualifies_has_serial.
  unfold record_of. by rewrite E.
Qed.

(** C4, as the code has it.  When the enumeration command completes with
    exit status 0, the mapping is built from exactly the output lines
    that contain the text [device ] (the word and a blank) and do not
    contain [devices]: each such line maps its first whitespace-delimited
    token to the model read off its remaining tokens ([model_of]), a
    later line replacing an earlier one with the same serial.  On the
    output of the scenario the mapping is exactly ABC123 -> Pixel_5. *)
Theorem discovery_records (serial : option string) (out err : string)
    (w : world) :
  subprocess_run (length (spawned w)) (adb_argv serial ["devices"; "-l"])
    = Completed (mkCompleted 0 out err) →
  ∃ d w',
    get_connected_devices subprocess_run serial w = (inr d, w') ∧
    d = list_to_map (reverse (records_of out)) ∧
    (∀ s, is_Some (d !! s) ↔
          ∃ line, line ∈ Py.splitlines out ∧ qualifies line = true ∧
                  head (Py.split_ws line) = Some s) ∧
    (∀ s m, d !! s = Some m →
            ∃ line, line ∈ Py.splitlines out ∧ qualifies line = true ∧
                    head (Py.split_ws line) = Some s ∧
                    m = model_of (drop 1 (Py.split_ws line))) ∧
    (out = "List of devices attached" +:+ String "010" "" +:+
           "ABC123  device product:x model:Pixel_5 device:x" +:+ String "010" ""
     → d = {[ "ABC123" := "Pixel_5" ]}).
Proof.
  intros H. eexists _, _.
  split; [by eapply get_connected_devices_completed |].
  split; [done |].
  split; [| split].
  - intros s. rewrite list_to_map_is_Some.
    rewrite fmap_reverse, elem_of_reverse. unfold records_of.
    rewrite <- list_fmap_compose, list_elem_of_fmap. split.
    + intros (line & -> & [Hq Hl]%list_elem_of_filter).
      exists line. split; [done |]. split; [done |]. by apply record_serial.
    + intros (line & Hl & Hq & Hs). exists line. split.
      * rewrite (record_serial line Hq) in Hs. by injection Hs as <-.
      * by apply list_elem_of_filter.
  - intros s m Hm%elem_of_list_to_map_2.
    rewrite elem_of_reverse in Hm. unfold records_of in Hm.
    apply list_elem_of_fmap in Hm as (line & E & [Hq Hl]%list_elem_of_filter).
    exists line. split; [done |]. split; [done |].
    rewrite (record_serial line Hq), <- E. split; [done |].
    unfold record_of in E. by injection E.
  - intros ->. by vm_compute.
Qed.

Lemma map_size_one (d : gmap string string) :
  size d = 1%nat → ∃ k v, d = {[ k := v ]} ∧ map_to_list d = [(k, v)].
Proof.
  intros H. rewrite <- length_map_to_list in H.
  destruct (map_to_list d) as [|[k v] [|? ?]] eqn:E; try done.
  exists k, v. split; [| done].
  by rewrite <- (list_to_map_to_list d), E.
Qed.

(** C9.  A session constructed without a serial binds the serial of the
    one device that discovery returns; when discovery returns more than
    one device the serial stays unbound, and an unbound session issues
    its commands as [adb <command>], without [-s].  (A bound, non-empty
    serial is passed as [-s <serial>].) *)
Theorem init_binds_the_single_device (w : world) (d : gmap string string)
    (w1 : world) :
  get_connected_devices subprocess_run None w = (inr d, w1) →
  (size d = 1%nat →
   ∃ k v, d = {[ k := v ]} ∧
          init subprocess_run None w = (inr (mkHandler (Some k) d true), w1)) ∧
  ((1 < size d)%nat →
   init subprocess_run None w = (inr (mkHandler None d true), w1) ∧
   ∀ command, adb_argv (device_serial (mkHandler None d true)) command
              = "adb" :: command) ∧
  (∀ k command, k ≠ "" →
     adb_argv (Some k) command = "adb" :: "-s" :: k :: command).
Proof.
  intros H. split; [| split].
  - intros Hsize. destruct (map_size_one d Hsize) as (k & v & Hd & Hl).
    exists k, v. split; [done |].
    unfold init. unfold_monad. rewrite H, Hsize. cbn [Nat.eqb negb truthy andb].
    unfold first_key. by rewrite Hl.
  - intros Hsize. split; [| done].
    unfold init. unfold_monad. rewrite H.
    destruct (size d) as [|[|n]] eqn:E; [lia | lia |]. done.
  - intros k command Hk. unfold adb_argv, truthy. by destruct k.
Qed.

End Discovery.

(* ================================================================== *)
(** * Properties of the listing parser *)
(* ================================================================== *)

Lemma startswith_d (perms : string) :
  Py.startswith "d" perms = true ↔ ∃ rest, perms = String "d" rest.
Proof.
  unfold Py.startswith. split.
  - intros [rest ->]%prefix_app. by exists rest.
  - intros [rest ->]. rewrite prefix_cons.
    destruct (ascii_dec "d" "d"); [by destruct rest | done].
Qed.

(** The loop reads the base path only through [path.rstrip('/')]. *)
Lemma parse_lines_base (p1 p2 : string) (lines : list string)
    (items : list FileItem.t) (w : world) :
  Py.rstrip_char "/" p1 = Py.rstrip_char "/" p2 →
  parse_lines p1 lines items w = parse_lines p2 lines items w.
Proof.
  intros Hp. revert items. induction lines as [|line lines IH]; intros items;
    [done |].
  rewrite !parse_lines_cons. cbv zeta.
  destruct (Py.is_empty _ || _); [apply IH |].
  destruct (Re.match_ _ _) as [m|]; [| apply IH].
  unfold_monad.
  destruct (group m 1 w) as [[e|perms] w1] eqn:E1;
    apply group_inv in E1 as [-> _]; [done |].
  destruct (group m 2 w) as [[e|size] w2] eqn:E2;
    apply group_inv in E2 as [-> _]; [done |].
  destruct (group m 3 w) as [[e|d] w3] eqn:E3;
    apply group_inv in E3 as [-> _]; [done |].
  destruct (group m 4 w) as [[e|t] w4] eqn:E4;
    apply group_inv in E4 as [-> _]; [done |].
  destruct (group m 5 w) as [[e|name] w5] eqn:E5;
    apply group_inv in E5 as [-> _]; [done |].
  destruct (_ || _); [apply IH |].
  destruct (int size w) as [[e|n] w6] eqn:E6;
    apply int_inv in E6 as [-> _]; [done |].
  rewrite Hp. apply IH.
Qed.

(** C1, as the code has it.  A well-formed long-format line whose name is
    neither of the dot entries and whose size column has no more digits
    than [int] converts parses to exactly one entry: its permissions and
    name are the columns of the line, its size is the value of the size
    column, its date_modified is the date, one space and the time, its
    path is the base path without trailing slashes, a slash and the name,
    and its is_dir flag is true exactly when the permissions start with
    the letter d.  The line of the scenario, under base /sdcard, gives
    the entry of the scenario. *)
Theorem well_formed_line_entry (path : string) (f : listing_line) (w : world) :
  well_formed f = true → l_name f ≠ "." → l_name f ≠ ".." →
  (String.length (l_size f) ≤ Py.int_max_str_digits)%nat →
  (∃ e, parse_listing path (render f) w = (inr [e], w) ∧
        FileItem.permissions e = l_perms f ∧
        Py.int (l_size f) = Some (FileItem.size e) ∧
        FileItem.name e = l_name f ∧
        FileItem.date_modified e = l_date f +:+ " " +:+ l_time f ∧
        FileItem.path e = Py.rstrip_char "/" path +:+ "/" +:+ l_name f ∧
        (FileItem.is_dir e = true ↔ ∃ rest, l_perms f = String "d" rest)) ∧
  parse_listing "/sdcard"
    "-rw-r--r-- 1 root root 1024 2024-01-15 10:30 notes.txt" w =
  (inr [FileItem.make "notes.txt" "/sdcard/notes.txt" false 1024
          "-rw-r--r--" "2024-01-15 10:30"], w).
Proof.
  intros Hf Hdot Hdots Hlen. split.
  - destruct (parse_lines_well_formed path f [] [] w Hf Hdot Hdots Hlen)
      as (n & Hn & _ & E).
    exists (entry_of path f n).
    rewrite parse_listing_eq, (render_one_line f Hf), E.
    split; [done |]. repeat (split; [done |]). apply startswith_d.
  - rewrite parse_listing_eq. by vm_compute.
Qed.

(** Lines that the pattern rejects add nothing. *)
Lemma parse_lines_none_match (path : string) (lines : list string)
    (items : list FileItem.t) (w : world) :
  (∀ line, line ∈ lines → Re.match_ pattern (Py.strip line) = None) →
  parse_lines path lines items w = (inr items, w).
Proof.
  induction lines as [|line lines IH]; intros Hnone; [done |].
  rewrite parse_lines_no_match by apply Hnone, list_elem_of_here.
  apply IH. intros l Hl. by apply Hnone, list_elem_of_further.
Qed.

(** The parser on a text: it leaves the world alone; the list it returns
    holds exactly the entries of the well-formed lines other than the dot
    entries, and it raises only on a line whose size column [int]
    refuses. *)
Lemma parse_listing_outcome (path text : string) (w : world) :
  parse_listing path text w = (entries path text, w) ∧
  match entries path text with
  | inr items =>
      (∀ e, e ∈ items ↔
            ∃ line f n,
              line ∈ Py.split "010" text ∧ Py.strip line = render f ∧
              well_formed f = true ∧ l_name f ≠ "." ∧ l_name f ≠ ".." ∧
              Py.int (l_size f) = Some n ∧ e = entry_of path f n) ∧
      ∀ line e, line ∈ Py.split "010" text → ¬ refused line e
  | inl e => ∃ line, line ∈ Py.split "010" text ∧ refused line e
  end.
Proof.
  split; [apply parse_listing_entries |].
  unfold entries. rewrite parse_listing_eq, parse_lines_foldr.
  apply lines_outcome, split_parts_no_sep.
Qed.

Lemma int_from_nonneg (s : string) (acc n : Z) :
  Py.int_from acc s = Some n → 0 ≤ acc → 0 ≤ n.
Proof.
  revert acc. induction s as [|c s IH]; simpl; intros acc.
  - by intros [= ->].
  - destruct (Py.isdigit c) eqn:Hc; [| done].
    intros H Hacc. apply (IH _ H).
    assert (0 ≤ Py.digit_value c); [| lia].
    revert Hc. unfold Py.digit_value. by_cases_on c.
Qed.

Lemma int_nonneg (s : string) (n : Z) : Py.int s = Some n → 0 ≤ n.
Proof.
  unfold Py.int. destruct s; [done |].
  destruct (_ <? _)%nat; [done |]. intros H.
  by apply (int_from_nonneg _ _ _ H).
Qed.

(** Every entry of the list is the entry of a line of the text, with the
    value of the size column of that line for its size. *)
Lemma parse_listing_size (path text : string) (w : world)
    (items : list FileItem.t) w' :
  parse_listing path text w = (inr items, w') →
  Forall (size_from_line path text) items.
Proof.
  destruct (parse_listing_outcome path text w) as [-> Hout].
  intros [= E _]. rewrite E in Hout. destruct Hout as [Hin _].
  apply Forall_forall. intros e He.
  apply Hin in He as (line & f & n & Hline & Hf & Hwf & _ & _ & Hn & ->).
  exists line, f. cbn [entry_of FileItem.size].
  repeat (split; [done |]). by eapply int_nonneg.
Qed.

Section Listing.

Variable subprocess_run : nat → list string → outcome.

(** What [list_directory] returns is the empty list or the parser's
    reading of the standard output of a listing command that completed
    with exit status 0. *)
Lemma list_directory_entries (self : ADBHandler) (path : string) (w : world) :
  ∃ items w',
    list_directory subprocess_run self path w = (inr items, w') ∧
    (items = [] ∨
     ∃ r, subprocess_run (length (spawned w))
            (adb_argv (device_serial self) ["shell"; ls_command path])
          = Completed r ∧
          returncode r = 0 ∧
          parse_listing path (stdout r) w' = (inr items, w')).
Proof.
  unfold list_directory.
  destruct (device_connected self); cbn [negb];
    [| unfold_monad; by eauto].
  unfold_monad. rewrite run_adb_command_spec. cbv zeta.
  destruct (subprocess_run _ _) as [r|e] eqn:Er; [| destruct e; by eauto].
  destruct (Z.eqb_spec (returncode r) 0) as [H0|]; cbn [negb]; [| by eauto].
  rewrite parse_listing_entries.
  destruct (entries path (stdout r)) as [e|items] eqn:Ee;
    [destruct e; by eauto |].
  eexists _, _. split; [done |]. right. exists r.
  split; [done |]. split; [done |]. by rewrite parse_listing_entries, Ee.
Qed.

(** So every entry that [list_directory] returns went through the loop
    body, on a line of that standard output. *)
Lemma list_directory_produced (self : ADBHandler) (path : string) (w : world) :
  ∃ items w',
    list_directory subprocess_run self path w = (inr items, w') ∧
    Forall (λ e, ∃ r, subprocess_run (length (spawned w))
                        (adb_argv (device_serial self) ["shell"; ls_command path])
                      = Completed r ∧
                      produced path (Py.split "010" (stdout r)) e) items.
Proof.
  destruct (list_directory_entries self path w)
    as (items & w' & E & [-> | (r & Hr & _ & Hp)]).
  - by exists [], w'.
  - exists items, w'. split; [done |].
    apply parse_listing_produced in Hp as [_ Hp].
    eapply Forall_impl; [exact Hp |]. intros e He. by exists r.
Qed.

(** C5, as the code has it.  A line that consists of the sentinel, blanks
    around it or not, is passed over like any line that the pattern
    rejects: the parser returns or raises what it does on the other
    lines.  A text none of whose lines matches the pattern, such as the
    sentinel alone, parses to the empty list.  The parser leaves the
    world alone and raises only at a line whose size column has more
    digits than [int] converts; [list_directory] raises on no output. *)
Theorem sentinel_line_is_skipped (self : ADBHandler) (path text : string)
    (w : world) :
  (∀ before line after,
     Py.strip line = "error" →
     Py.split "010" text = before ++ line :: after →
     parse_listing path text w = parse_lines path (before ++ after) [] w) ∧
  ((∀ line, line ∈ Py.split "010" text →
            Re.match_ pattern (Py.strip line) = None) →
   parse_listing path text w = (inr [], w)) ∧
  parse_listing path ("error" +:+ String "010" "") w = (inr [], w) ∧
  (∃ r, parse_listing path text w = (r, w) ∧
        match r with
        | inr _ => True
        | inl e => ∃ line, line ∈ Py.split "010" text ∧ refused line e
        end) ∧
  (∃ items w', list_directory subprocess_run self path w = (inr items, w')).
Proof.
  split; [| split; [| split; [| split]]].
  - intros before line after Hline Hsplit.
    rewrite parse_listing_eq, Hsplit, !parse_lines_app.
    destruct (parse_lines path before [] w) as [[e|items1] w1]; [done |].
    apply parse_lines_no_match. by rewrite Hline.
  - intros Hnone. rewrite parse_listing_eq. by apply parse_lines_none_match.
  - rewrite parse_listing_eq. apply parse_lines_none_match.
    intros line Hin. vm_compute in Hin.
    apply elem_of_cons in Hin as [-> | Hin]; [done |].
    by apply list_elem_of_singleton in Hin as ->.
  - destruct (parse_listing_outcome path text w) as [E Hout].
    exists (entries path text). split; [done |].
    by destruct (entries path text).
  - destruct (list_directory_entries self path w) as (items & w' & E & _).
    by exists items, w'.
Qed.

(** C6.  The path of every parsed entry, and so of every entry that
    [list_directory] returns, is the base path without its trailing
    slashes, a slash, and the entry's name; so a base path and the same
    base path with one more slash give the same entries, as do the bases
    /a/b/ and /a/b. *)
Theorem entry_path_from_base (self : ADBHandler) (path text : string)
    (items : list FileItem.t) (w w' : world) :
  parse_listing path text w = (inr items, w') →
  Forall (path_from_base path) items ∧
  parse_listing (path +:+ "/") text w = (inr items, w') ∧
  parse_listing "/a/b/" text w = parse_listing "/a/b" text w ∧
  (∃ items' w'',
     list_directory subprocess_run self path w = (inr items', w'') ∧
     Forall (path_from_base path) items').
Proof.
  intros E.
  assert (∀ lines e, produced path lines e → path_from_base path e) as Hpath.
  { by intros lines e (? & ? & ? & ? & ? & ? & ? & ? & _ & _ & _ & _ & _ & _
                      & _ & _ & _ & _ & ->). }
  split; [| split; [| split]].
  - apply parse_listing_produced in E as [_ Hp].
    eapply Forall_impl; [exact Hp |]. apply Hpath.
  - rewrite <- E, !parse_listing_eq. apply parse_lines_base.
    unfold Py.rstrip_char. by apply rstrip_app_stripped.
  - rewrite !parse_listing_eq. by apply parse_lines_base.
  - destruct (list_directory_produced self path w) as (items' & w'' & E' & Hp).
    exists items', w''. split; [done |].
    eapply Forall_impl; [exact Hp |]. intros e (r & _ & He). by eapply Hpath.
Qed.

(** C7, as the code has it.  Every entry that the parser returns, a
    directory or not, is the entry of one line of the text, and its size
    is the value of the size column of that line, a non-negative
    integer; the parser does not set it to 0 for directories.  This holds
    of the parser on every text and of every entry that [list_directory]
    returns.  The directory line of [docs_text] gives an entry whose
    is_dir flag is true and whose size is 4096. *)
Theorem entry_size_is_listed_size (self : ADBHandler) (path text : string)
    (items : list FileItem.t) (w w' : world) :
  parse_listing path text w = (inr items, w') →
  Forall (size_from_line path text) items ∧
  (∃ items' w'',
     list_directory subprocess_run self path w = (inr items', w'') ∧
     Forall (λ e, ∃ r, subprocess_run (length (spawned w))
                         (adb_argv (device_serial self)
                            ["shell"; ls_command path])
                       = Completed r ∧
                       size_from_line path (stdout r) e) items') ∧
  parse_listing "/sdcard" docs_text w =
  (inr [FileItem.make "docs" "/sdcard/docs" true 4096 "drwxr-xr-x"
          "2024-01-15 10:30"], w).
Proof.
  intros E. split; [| split].
  - by eapply parse_listing_size.
  - destruct (list_directory_entries self path w)
      as (items' & w'' & E' & [-> | (r & Hr & _ & Hp)]).
    + by exists [], w''.
    + exists items', w''. split; [done |].
      eapply Forall_impl; [by eapply parse_listing_size |].
      intros e He. by exists r.
  - rewrite parse_listing_eq. by vm_compute.
Qed.

(** C8, as the code has it.  No entry of the parser, and so no entry that
    [list_directory] returns, is named [.] or [..]; the parser puts no
    other condition on a name, which is the rest of the line as captured
    (a symbolic link keeps its arrow and target, slashes included). *)
Theorem entry_name_not_dot (self : ADBHandler) (path text : string)
    (items : list FileItem.t) (w w' : world) :
  parse_listing path text w = (inr items, w') →
  Forall (λ e, FileItem.name e ≠ "." ∧ FileItem.name e ≠ "..") items ∧
  (∃ items' w'',
     list_directory subprocess_run self path w = (inr items', w'') ∧
     Forall (λ e, FileItem.name e ≠ "." ∧ FileItem.name e ≠ "..") items').
Proof.
  intros E.
  assert (∀ lines e, produced path lines e →
                     FileItem.name e ≠ "." ∧ FileItem.name e ≠ "..") as Hname.
  { by intros lines e (? & ? & ? & ? & ? & ? & ? & ? & _ & _ & _ & _ & _ & _
                      & _ & ? & ? & _ & ->). }
  split.
  - apply parse_listing_produced in E as [_ Hp].
    eapply Forall_impl; [exact Hp |]. apply Hname.
  - destruct (list_directory_produced self path w) as (items' & w'' & E' & Hp).
    exists items', w''. split; [done |].
    eapply Forall_impl; [exact Hp |]. intros e (r & _ & He). by eapply Hname.
Qed.

End Listing.

(* ================================================================== *)
(** * Concrete runs *)
(* ================================================================== *)

(** A size column of 4301 digits: [int] refuses it, and the entry of the
    line before is lost with it. *)
Lemma overlong_text_raises :
  entries "/sdcard" overlong_text =
  inl (ValueError
         "Exceeds the limit (4300 digits) for integer string conversion: value has 4301 digits; use sys.set_int_max_str_digits() to increase the limit").
Proof. unfold entries. rewrite parse_listing_eq. by vm_compute. Qed.

(** C2.  With the adb executable missing, [copy_on_device] and
    [move_on_device] return false without raising, but what they write
    goes to [print]: the log stays empty.  [rename_item], which issues
    the same [mv] command, logs the fault. *)
Theorem copy_fault_is_printed_not_logged :
  copy_on_device adb_missing a_handler "/sdcard/a.txt" "b.txt" w0 =
    (inr false,
     mkWorld
       [adb_argv (Some "ABC123")
          ["shell"; "cp -r " +:+ escape_path "/sdcard/a.txt" +:+ " " +:+
                    escape_path "b.txt"]]
       [] ["Error copying: adb"]) ∧
  move_on_device adb_missing a_handler "/sdcard/a.txt" "b.txt" w0 =
    (inr false,
     mkWorld
       [adb_argv (Some "ABC123")
          ["shell"; "mv " +:+ escape_path "/sdcard/a.txt" +:+ " " +:+
                    escape_path "b.txt"]]
       [] ["Error moving: adb"]) ∧
  rename_item adb_missing a_handler "/sdcard/a.txt" "b.txt" w0 =
    (inr false,
     mkWorld
       [adb_argv (Some "ABC123")
          ["shell"; "mv " +:+ escape_path "/sdcard/a.txt" +:+ " " +:+
                    escape_path "b.txt"]]
       [(ERROR, "Error renaming: adb")] []).
Proof. by vm_compute. Qed.

(** The line of the current directory is well formed and gives no
    entry. *)
Lemma dot_line_gives_no_entry :
  well_formed dot_line = true ∧
  ¬ ∃ e, parse_listing "/sdcard" (render dot_line) w0 = (inr [e], w0).
Proof.
  split; [reflexivity |]. intros [e E].
  rewrite parse_listing_eq in E. vm_compute in E. discriminate E.
Qed.

Lemma well_formed_line_entry_witness :
  well_formed notes_line = true ∧
  ∃ e, parse_listing "/sdcard" (render notes_line) w0 = (inr [e], w0) ∧
       FileItem.name e = "notes.txt".
Proof.
  split; [reflexivity |].
  destruct (well_formed_line_entry "/sdcard" notes_line w0)
    as [(e & E & _ & _ & Hname & _) _];
    [reflexivity | discriminate | discriminate
    | apply Nat.leb_le; reflexivity |].
  exists e. split; [exact E | exact Hname].
Defined.

Lemma disconnected_fails_without_spawn_witness :
  device_connected no_handler = false ∧
  ∃ w', delete_item adb_missing no_handler "/sdcard/docs" true w0
        = (inr false, w') ∧ spawned w' = spawned w0.
Proof.
  split; [reflexivity |].
  apply (disconnected_fails_without_spawn adb_missing no_handler w0).
  reflexivity.
Defined.

(** A line whose last token is the word [device] holds the token and is
    not the header, yet it adds no device. *)
Lemma token_line_not_discovered :
  has_token "device" "ABC123 device" = true ∧
  Py.contains "devices" "ABC123 device" = false ∧
  ∃ d w', get_connected_devices (always (mkCompleted 0 "ABC123 device" ""))
            None w0 = (inr d, w') ∧
          d !! "ABC123" = None.
Proof.
  split; [reflexivity |]. split; [reflexivity |].
  eexists _, _. split; [by vm_compute | done].
Qed.

Lemma discovery_records_witness :
  ∃ w', get_connected_devices (always (mkCompleted 0 devices_text "")) None w0
        = (inr {[ "ABC123" := "Pixel_5" ]}, w').
Proof.
  destruct (discovery_records (always (mkCompleted 0 devices_text ""))
              None devices_text "" w0)
    as (d & w' & E & _ & _ & _ & Hd); [reflexivity |].
  exists w'. rewrite <- (Hd eq_refl). exact E.
Defined.

(** The sentinel stands on a line of its own and an entry is returned
    all the same. *)
Lemma sentinel_after_entry_keeps_entry :
  "error" ∈ Py.split "010" partial_text ∧
  ¬ ∃ w', parse_listing "/sdcard" partial_text w0 = (inr [], w').
Proof.
  split.
  - vm_compute. apply list_elem_of_further, list_elem_of_here.
  - intros [w' E]. rewrite parse_listing_eq in E. vm_compute in E.
    discriminate E.
Qed.

(** A directory entry whose size is not 0. *)
Lemma directory_entry_with_size :
  ¬ ∀ items e,
      parse_listing "/sdcard" docs_text w0 = (inr items, w0) →
      e ∈ items → FileItem.is_dir e = true → FileItem.size e = 0.
Proof.
  intros H.
  assert (parse_listing "/sdcard" docs_text w0 =
          (inr [FileItem.make "docs" "/sdcard/docs" true 4096 "drwxr-xr-x"
                  "2024-01-15 10:30"], w0)) as E.
  { rewrite parse_listing_eq. by vm_compute. }
  specialize (H _ _ E (list_elem_of_here _ _) eq_refl).
  discriminate H.
Qed.

Lemma entry_size_is_listed_size_witness :
  parse_listing "/sdcard" docs_text w0 =
    (inr [FileItem.make "docs" "/sdcard/docs" true 4096 "drwxr-xr-x"
            "2024-01-15 10:30"], w0) ∧
  size_from_line "/sdcard" docs_text
    (FileItem.make "docs" "/sdcard/docs" true 4096 "drwxr-xr-x"
       "2024-01-15 10:30").
Proof.
  assert (parse_listing "/sdcard" docs_text w0 =
          (inr [FileItem.make "docs" "/sdcard/docs" true 4096 "drwxr-xr-x"
                  "2024-01-15 10:30"], w0)) as E.
  { rewrite parse_listing_eq. by vm_compute. }
  split; [exact E |].
  destruct (entry_size_is_listed_size adb_missing a_handler "/sdcard"
              docs_text _ w0 w0 E) as [H _].
  exact (proj1 (proj1 (Forall_cons _ _ _) H)).
Defined.

(** An entry whose name holds path separators. *)
Lemma symlink_name_has_separator :
  ¬ ∀ items e,
      parse_listing "/" symlink_text w0 = (inr items, w0) →
      e ∈ items → Py.contains "/" (FileItem.name e) = false.
Proof.
  intros H.
  assert (parse_listing "/" symlink_text w0 =
          (inr [FileItem.make "sdcard -> /storage/self/primary"
                  "/sdcard -> /storage/self/primary" false 21 "lrwxrwxrwx"
                  "2024-01-15 10:30"], w0)) as E.
  { rewrite parse_listing_eq. by vm_compute. }
  specialize (H _ _ E (list_elem_of_here _ _)). vm_compute in H.
  discriminate H.
Qed.

Lemma entry_name_not_dot_witness :
  parse_listing "/sdcard" full_text w0 =
    (inr [FileItem.make "notes.txt" "/sdcard/notes.txt" false 1024
            "-rw-r--r--" "2024-01-15 10:30"], w0) ∧
  Forall (λ e, FileItem.name e ≠ "." ∧ FileItem.name e ≠ "..")
    [FileItem.make "notes.txt" "/sdcard/notes.txt" false 1024
       "-rw-r--r--" "2024-01-15 10:30"].
Proof.
  assert (parse_listing "/sdcard" full_text w0 =
          (inr [FileItem.make "notes.txt" "/sdcard/notes.txt" false 1024
                  "-rw-r--r--" "2024-01-15 10:30"], w0)) as E.
  { rewrite parse_listing_eq. by vm_compute. }
  split; [exact E |].
  exact (proj1 (entry_name_not_dot adb_missing a_handler "/sdcard"
                  full_text _ w0 w0 E)).
Defined.

(** The base path with a trailing slash: the path of the entry has one
    slash before the name. *)
Lemma entry_path_from_base_witness :
  parse_listing "/sdcard/" docs_text w0 =
    (inr [FileItem.make "docs" "/sdcard/docs" true 4096 "drwxr-xr-x"
            "2024-01-15 10:30"], w0) ∧
  parse_listing "/sdcard//" docs_text w0 =
    (inr [FileItem.make "docs" "/sdcard/docs" true 4096 "drwxr-xr-x"
            "2024-01-15 10:30"], w0).
Proof.
  assert (parse_listing "/sdcard/" docs_text w0 =
          (inr [FileItem.make "docs" "/sdcard/docs" true 4096 "drwxr-xr-x"
                  "2024-01-15 10:30"], w0)) as E.
  { rewrite parse_listing_eq. by vm_compute. }
  split; [exact E |].
  exact (proj1 (proj2 (entry_path_from_base adb_missing a_handler "/sdcard/"
                         docs_text _ w0 w0 E))).
Defined.

Lemma init_binds_the_single_device_witness :
  ∃ k v w1,
    init (always (mkCompleted 0 devices_text "")) None w0 =
    (inr (mkHandler (Some k) {[ k := v ]} true), w1).
Proof.
  destruct (init_binds_the_single_device
              (always (mkCompleted 0 devices_text "")) w0
              {[ "ABC123" := "Pixel_5" ]}
              (after_spawn ["adb"; "devices"; "-l"] w0))
    as [H _]; [by vm_compute |].
  destruct H as (k & v & Hd & E); [by vm_compute |].
  exists k, v, (after_spawn ["adb"; "devices"; "-l"] w0).
  rewrite <- Hd. exact E.
Defined.

Lemma copy_move_flag_from_final_command_witness :
  device_connected a_handler = true ∧
  ∃ w', copy_on_device first_fails a_handler "/a/b" "/c/d" w0 = (inr true, w') ∧
        length (spawned w') = 2%nat.
Proof.
  split; [reflexivity |].
  destruct (copy_move_flag_from_final_command first_fails a_handler
              "/a/b" "/c/d" w0)
    as [(w' & E & Hs) _]; [reflexivity |].
  exists w'. split; [exact E |]. rewrite Hs. reflexivity.
Defined.

(* ================================================================== *)
(** * Further properties of handler.py *)
(* ================================================================== *)

(** ** The connection check *)

Lemma prefix_app_r (sub a t : string) :
  String.prefix sub a = true → String.prefix sub (a +:+ t) = true.
Proof.
  intros [rest ->]%prefix_app. rewrite str_app_assoc.
  induction sub as [|c sub IH]; cbn [String.append]; [by destruct (rest +:+ t) |].
  rewrite prefix_cons. by destruct (ascii_dec c c).
Qed.

Lemma contains_app_r (sub a t : string) :
  Py.contains sub a = true → Py.contains sub (a +:+ t) = true.
Proof.
  induction a as [|c a IH].
  - cbn [Py.contains]. rewrite orb_false_r. intros H.
    apply (prefix_app_r _ _ t) in H. cbn [String.append] in *.
    destruct t; cbn [Py.contains]; by rewrite H.
  - cbn [Py.contains String.append].
    intros [H | H]%orb_true_iff.
    + apply (prefix_app_r _ _ t) in H. cbn [String.append] in H.
      by rewrite H.
    + rewrite (IH H). apply orb_true_r.
Qed.

(** Stripping the right end leaves alone a beginning that ends in a
    character which is not stripped. *)
Lemma rstrip_keeps_prefix (p : ascii → bool) (a b : string) :
  Py.is_empty a = false → Py.rstrip_with p a = a →
  ∃ t, Py.rstrip_with p (a +:+ b) = a +:+ t.
Proof.
  induction a as [|c a IH]; [done |]. intros _ Ha.
  cbn [String.append Py.rstrip_with] in *. cbv zeta in *.
  destruct a as [|d a].
  - cbn [String.append Py.rstrip_with Py.is_empty andb] in *.
    destruct (p c) eqn:Hc; [done |]. rewrite andb_false_r. by eexists.
  - destruct (Py.is_empty (Py.rstrip_with p (String d a)) && p c) eqn:E;
      [done |].
    injection Ha as Ha. destruct (IH eq_refl Ha) as [t Ht].
    rewrite Ht. cbn [String.append Py.is_empty andb]. by exists t.
Qed.

Section ConnectionCheck.

Variable subprocess_run : nat → list string → outcome.

Lemma check_adb_connection_outcome (self : ADBHandler) (w : world) :
  let cmd := adb_argv (device_serial self) ["devices"] in
  ∃ b w',
    check_adb_connection subprocess_run self w = (inr b, w') ∧
    spawned w' = spawned w ++ [cmd] ∧
    (∀ r, subprocess_run (length (spawned w)) cmd = Completed r →
          b = Py.contains "device" (Py.strip (stdout r))) ∧
    (∀ r rest, subprocess_run (length (spawned w)) cmd = Completed r →
               stdout r = "List of devices attached" +:+ rest → b = true) ∧
    (∀ e, subprocess_run (length (spawned w)) cmd = Raised e → b = false).
Proof.
  cbv zeta. unfold check_adb_connection. unfold_monad.
  rewrite run_adb_command_spec. cbv zeta.
  destruct (subprocess_run _ _) as [r|e] eqn:E.
  - eexists _, _. split; [reflexivity |]. split; [done |].
    split; [by intros ? [= <-] |]. split; [| done].
    intros r' rest [= <-] Hout. rewrite Hout. unfold Py.strip.
    destruct (rstrip_keeps_prefix Py.isspace "List of devices attached" rest)
      as [t ->]; [done | done |].
    rewrite lstrip_id by done. by apply contains_app_r.
  - destruct e; eexists _, _; (split; [reflexivity |]); (split; [done |]);
      (split; [done |]); (split; [done |]); by intros ? [= <-].
Qed.

(** The connection check never raises and spawns [adb devices] once.  It
    answers by the word [device] alone: its result is whether the
    stripped output contains that word, whatever the exit status, so an
    output that begins with the header of the device list gives true
    whether or not a device follows; an exception gives false. *)
Theorem check_adb_connection_by_word (self : ADBHandler) (w : world) :
  let cmd := adb_argv (device_serial self) ["devices"] in
  ∃ b w',
    check_adb_connection subprocess_run self w = (inr b, w') ∧
    spawned w' = spawned w ++ [cmd] ∧
    (∀ r, subprocess_run (length (spawned w)) cmd = Completed r →
          b = Py.contains "device" (Py.strip (stdout r))) ∧
    (∀ r rest, subprocess_run (length (spawned w)) cmd = Completed r →
               stdout r = "List of devices attached" +:+ rest → b = true) ∧
    (∀ e, subprocess_run (length (spawned w)) cmd = Raised e → b = false).
Proof. exact (check_adb_connection_outcome self w). Qed.

End ConnectionCheck.

(** ** Escaping *)

Lemma replace_app (c : ascii) (r a b : string) :
  Py.replace c r (a +:+ b) = Py.replace c r a +:+ Py.replace c r b.
Proof.
  induction a as [|d a IH]; [done |].
  cbn [String.append Py.replace]. by rewrite IH, str_app_assoc.
Qed.

(** The two replacements amount to one pass that puts a backslash before
    each quote. *)
Lemma escape_path_chars (path : string) :
  escape_path path = dq +:+ escape_chars path +:+ dq.
Proof.
  unfold escape_path. do 2 f_equal.
  induction path as [|c path IH]; [done |].
  cbn [Py.replace escape_chars]. rewrite replace_app, IH. unfold is_quote.
  destruct (Ascii.eqb_spec c "034") as [-> |]; [done |].
  cbn [orb Py.replace String.append].
  by destruct (Ascii.eqb_spec c "'") as [-> |].
Qed.

Lemma escape_chars_head (s : string) :
  head_fails is_quote (escape_chars s) = true.
Proof.
  destruct s as [|c s]; [done |]. cbn [escape_chars].
  destruct (is_quote c) eqn:E; [done |]. cbn [head_fails]. by rewrite E.
Qed.

Lemma unescape_escape_chars (s : string) : unescape (escape_chars s) = s.
Proof.
  induction s as [|c s IH]; [done |]. cbn [escape_chars].
  destruct (is_quote c) eqn:Ec.
  - cbn [unescape]. rewrite Ec. cbn [Ascii.eqb Bool.eqb andb]. by rewrite IH.
  - pose proof (escape_chars_head s) as Hh.
    cbn [unescape]. destruct (escape_chars s) as [|q t] eqn:Es.
    + destruct s; [done |]. cbn [escape_chars] in Es.
      by destruct (is_quote _).
    + cbn [head_fails] in Hh. apply negb_true_iff in Hh.
      rewrite Hh, andb_false_r. by rewrite IH.
Qed.

Lemma app_dq_inj (a b : string) : a +:+ dq = b +:+ dq → a = b.
Proof.
  revert b. induction a as [|c a IH]; intros [|d b]; cbn [String.append];
    try done.
  - intros [= <- H]. by destruct b.
  - intros [= -> H]. by destruct a.
  - intros [= -> H]. f_equal. by apply IH.
Qed.

(** Escaping loses nothing: the path can be read back from the escaped
    text, so two paths that escape to the same text are the same path. *)
Theorem escape_path_injective (p1 p2 : string) :
  escape_path p1 = escape_path p2 → p1 = p2.
Proof.
  rewrite !escape_path_chars. unfold dq at 1 3. cbn [String.append].
  intros [= H]. apply app_dq_inj in H.
  by rewrite <- (unescape_escape_chars p1), H, unescape_escape_chars.
Qed.

Lemma escape_chars_plain (s : string) :
  all_chars (λ c, negb (is_quote c)) s = true → escape_chars s = s.
Proof.
  induction s as [|c s IH]; [done |]. cbn [all_chars escape_chars].
  intros [Hc Hs]%andb_true_iff. apply negb_true_iff in Hc.
  by rewrite Hc, IH.
Qed.

Lemma escape_chars_guarded (prev : bool) (s : string) :
  quotes_guarded prev (escape_chars s) = true.
Proof.
  revert prev. induction s as [|c s IH]; intros prev; [done |].
  cbn [escape_chars]. destruct (is_quote c) eqn:Ec.
  - cbn [quotes_guarded]. rewrite Ec.
    change (is_quote "\") with false.
    cbn [negb orb andb Ascii.eqb Bool.eqb]. apply IH.
  - cbn [quotes_guarded]. rewrite Ec. cbn [negb orb andb]. apply IH.
Qed.

(** The escaped text is the path between two double quotes with a
    backslash put before each double or single quote, and nothing else:
    a path without quotes is only wrapped, and no character but a quote
    is touched (a backslash, a dollar sign or a backquote of the path
    stays as it is). *)
Theorem escape_path_guards_quotes (path : string) :
  ∃ body,
    escape_path path = dq +:+ body +:+ dq ∧
    quotes_guarded false body = true ∧
    unescape body = path ∧
    (all_chars (λ c, negb (is_quote c)) path = true → body = path).
Proof.
  exists (escape_chars path). split; [apply escape_path_chars |].
  split; [apply escape_chars_guarded |].
  split; [apply unescape_escape_chars | apply escape_chars_plain].
Qed.

(** ** The parser line by line *)

Lemma and_then_assoc (r1 r2 r3 : exn + list FileItem.t) :
  and_then r1 (and_then r2 r3) = and_then (and_then r1 r2) r3.
Proof.
  destruct r1 as [?|l1], r2 as [?|l2], r3 as [?|l3]; cbn [and_then];
    try done.
  by rewrite app_assoc.
Qed.

Lemma lines_outcome_app (path : string) (l1 l2 : list string) :
  foldr (λ line, and_then (line_entry path line)) (inr []) (l1 ++ l2) =
  and_then (foldr (λ line, and_then (line_entry path line)) (inr []) l1)
           (foldr (λ line, and_then (line_entry path line)) (inr []) l2).
Proof.
  induction l1 as [|line l1 IH]; cbn [foldr app].
  - by destruct (foldr _ _ l2).
  - by rewrite IH, and_then_assoc.
Qed.

(** One line adds at most one entry, and what it raises is the
    [ValueError] of [int]. *)
Lemma line_entry_short (path line : string) :
  match line_entry path line with
  | inr new => (length new ≤ 1)%nat
  | inl e => ∃ size, e = ValueError (Py.int_error size)
  end.
Proof.
  unfold line_entry. rewrite parse_lines_cons. cbv zeta.
  destruct (Py.is_empty _ || _); [cbn; lia |].
  destruct (Re.match_ _ _) as [m|] eqn:Em; [| cbn; lia].
  apply match_inv in Em
    as (perms & size & d & t & name & -> & _ & Hsize & _).
  unfold_monad. unfold group, int. cbn [Re.group Nat.eqb]. unfold_monad.
  destruct (_ || _); [cbn; lia |].
  destruct (Py.int size) as [n|]; cbn [parse_lines]; unfold_monad;
    cbn [fst app length]; [lia | by exists size].
Qed.

Lemma lines_outcome_length (path : string) (lines : list string)
    (items : list FileItem.t) :
  foldr (λ line, and_then (line_entry path line)) (inr []) lines = inr items →
  (length items ≤ length lines)%nat.
Proof.
  revert items. induction lines as [|line lines IH]; intros items;
    cbn [foldr].
  - by intros [= <-].
  - pose proof (line_entry_short path line) as Hone.
    destruct (line_entry path line) as [e|new]; [done |].
    destruct (foldr _ _ lines) as [e|rest]; [done |].
    cbn [and_then]. intros [= <-]. specialize (IH rest eq_refl).
    rewrite length_app. cbn [length]. lia.
Qed.

Lemma entries_lines (path text : string) :
  entries path text =
  foldr (λ line, and_then (line_entry path line)) (inr [])
    (Py.split "010" text).
Proof. unfold entries. by rewrite parse_listing_eq, parse_lines_foldr. Qed.

(** What the parser raises is the [ValueError] of [int]. *)
Lemma entries_raise (path text : string) (e : exn) :
  entries path text = inl e → ∃ size, e = ValueError (Py.int_error size).
Proof.
  rewrite entries_lines.
  induction (Py.split "010" text) as [|line lines IH]; cbn [foldr]; [done |].
  pose proof (line_entry_short path line) as Hone.
  destruct (line_entry path line) as [e'|new]; cbn [and_then].
  - by intros [= <-].
  - destruct (foldr _ _ lines) as [e'|rest]; [| done].
    intros [= <-]. by apply IH.
Qed.

(** The parser works line by line.  It leaves the world alone, and its
    outcome on a text is that of the lines one after the other: each line
    adds at most one entry to the list, in the order of the lines, or
    raises the [ValueError] of [int], which ends the loop.  So the
    listing of two texts joined by a line feed is the listing of the
    first followed by the listing of the second, unless one of them
    raises, and the empty text gives no entry. *)
Theorem listing_is_line_by_line (path a b : string) (w : world) :
  parse_listing path a w = (entries path a, w) ∧
  entries path a =
    foldr (λ line, and_then (line_entry path line)) (inr [])
      (Py.split "010" a) ∧
  (∀ line, match line_entry path line with
           | inr new => (length new ≤ 1)%nat
           | inl e => ∃ size, e = ValueError (Py.int_error size)
           end) ∧
  (∀ items, entries path a = inr items →
            (length items ≤ length (Py.split "010" a))%nat) ∧
  entries path (a +:+ String "010" b) =
    and_then (entries path a) (entries path b) ∧
  entries path "" = inr [].
Proof.
  split; [apply parse_listing_entries |].
  split; [apply entries_lines |].
  split; [apply line_entry_short |].
  split; [| split].
  - intros items. rewrite entries_lines. apply lines_outcome_length.
  - by rewrite !entries_lines, split_app_sep, lines_outcome_app.
  - unfold entries. by rewrite parse_listing_eq.
Qed.

(** ** Blanks around a line *)

Lemma rstrip_all (p : ascii → bool) (t : string) :
  all_chars p t = true → Py.rstrip_with p t = "".
Proof.
  induction t as [|c t IH]; [done |]. cbn [all_chars Py.rstrip_with].
  intros [Hc Ht]%andb_true_iff. by rewrite (IH Ht), Hc.
Qed.

Lemma rstrip_app_blank (p : ascii → bool) (s t : string) :
  all_chars p t = true → Py.rstrip_with p (s +:+ t) = Py.rstrip_with p s.
Proof.
  intros Ht. induction s as [|c s IH]; cbn [String.append Py.rstrip_with].
  - by apply rstrip_all.
  - by rewrite IH.
Qed.

Lemma lstrip_app_blank (p : ascii → bool) (t s : string) :
  all_chars p t = true → Py.lstrip_with p (t +:+ s) = Py.lstrip_with p s.
Proof.
  induction t as [|c t IH]; [done |]. cbn [all_chars String.append Py.lstrip_with].
  intros [Hc Ht]%andb_true_iff. rewrite Hc. by apply IH.
Qed.

Lemma rstrip_blank_app (p : ascii → bool) (t s : string) :
  all_chars p t = true →
  Py.rstrip_with p (t +:+ s) =
  if Py.is_empty (Py.rstrip_with p s) then "" else t +:+ Py.rstrip_with p s.
Proof.
  induction t as [|c t IH]; cbn [all_chars String.append Py.rstrip_with].
  - intros _. by destruct (Py.rstrip_with p s).
  - intros [Hc Ht]%andb_true_iff. rewrite (IH Ht).
    destruct (Py.is_empty (Py.rstrip_with p s)) eqn:E; [by rewrite Hc |].
    by rewrite is_empty_app_r.
Qed.

Lemma strip_blanks (pre s post : string) :
  all_chars Py.isspace pre = true → all_chars Py.isspace post = true →
  Py.strip (pre +:+ s +:+ post) = Py.strip s.
Proof.
  intros Hpre Hpost. unfold Py.strip.
  rewrite <- str_app_assoc, rstrip_app_blank by done.
  rewrite rstrip_blank_app by done.
  destruct (Py.rstrip_with Py.isspace s) eqn:E; [done |].
  cbn [Py.is_empty]. by apply lstrip_app_blank.
Qed.

(** Blanks before and after a line, such as the carriage return of a
    line that ends in CR LF, change nothing of what the parser reads. *)
Theorem blanks_around_line_ignored (path pre line post : string)
    (lines : list string) (items : list FileItem.t) (w : world) :
  all_chars Py.isspace pre = true → all_chars Py.isspace post = true →
  parse_lines path ((pre +:+ line +:+ post) :: lines) items w =
  parse_lines path (line :: lines) items w.
Proof.
  intros Hpre Hpost. rewrite !parse_lines_cons. cbv zeta.
  by rewrite strip_blanks.
Qed.

Lemma blanks_around_line_ignored_witness :
  parse_lines "/sdcard"
    [String "009" "" +:+ render notes_line +:+ String "013" ""] [] w0 =
  parse_lines "/sdcard" [render notes_line] [] w0.
Proof.
  apply (blanks_around_line_ignored "/sdcard" (String "009" "")
           (render notes_line) (String "013" "") [] [] w0); reflexivity.
Defined.

(** ** Exit status and the operations *)

Section ExitStatus.

Variable subprocess_run : nat → list string → outcome.

Lemma one_command_outcome (self : ADBHandler) (op : operation) (w : world) :
  device_connected self = true → one_command op = true →
  let cmd := argv_of self op in
  ∃ w',
    perform subprocess_run self op w =
      (inr (Flag (exit_ok (subprocess_run (length (spawned w)) cmd))), w') ∧
    spawned w' = spawned w ++ [cmd] ∧
    (∀ r, subprocess_run (length (spawned w)) cmd = Completed r →
          log w' = log w ∧ printed w' = printed w).
Proof.
  intros Hc Hop. cbv zeta.
  destruct op; try done; unfold perform, argv_of;
    [ unfold pull_file | unfold push_file | unfold rename_item
    | unfold delete_item | unfold create_file | unfold create_folder ];
    rewrite Hc; cbn [negb]; unfold_monad; cbv zeta;
    rewrite run_adb_command_spec; cbv zeta;
    try (destruct is_dir);
    (destruct (subprocess_run _ _) as [r|e]; [| destruct e]);
    eexists; (split; [reflexivity |]); (split; [reflexivity |]);
    by intros ? [= <-].
Qed.

(** On a connected session each of pull, push, rename, delete, create
    file and create folder spawns exactly one adb process, addressed to
    the bound device, and returns true exactly when that process
    completes with exit status 0.  A process that completes, with
    whatever status, leaves no record in the log: a failed command is
    told by the returned flag alone. *)
Theorem one_command_flag (self : ADBHandler) (op : operation) (w : world) :
  device_connected self = true → one_command op = true →
  let cmd := argv_of self op in
  ∃ w',
    perform subprocess_run self op w =
      (inr (Flag (exit_ok (subprocess_run (length (spawned w)) cmd))), w') ∧
    spawned w' = spawned w ++ [cmd] ∧
    (∀ r, subprocess_run (length (spawned w)) cmd = Completed r →
          log w' = log w ∧ printed w' = printed w).
Proof. exact (one_command_outcome self op w). Qed.

Lemma list_directory_outcome (self : ADBHandler) (path : string)
    (w : world) :
  device_connected self = true →
  let cmd := argv_of self (ListDirectory path) in
  ∃ w',
    list_directory subprocess_run self path w =
      (inr match subprocess_run (length (spawned w)) cmd with
           | Completed r =>
               if returncode r =? 0 then
                 match entries path (stdout r) with
                 | inr items => items
                 | inl _ => []
                 end
               else []
           | Raised _ => []
           end, w') ∧
    spawned w' = spawned w ++ [cmd] ∧
    (∀ r, subprocess_run (length (spawned w)) cmd = Completed r →
          log w' =
          if returncode r =? 0 then
            match entries path (stdout r) with
            | inr _ => log w
            | inl e =>
                log w ++ [(ERROR, "Error listing directory: " +:+ str_exn e)]
            end
          else log w ++ [(ERROR, "ADB Error: " +:+ stderr r)]).
Proof.
  intros Hc. cbv zeta. unfold list_directory, argv_of. rewrite Hc. cbn [negb].
  unfold_monad. rewrite run_adb_command_spec. cbv zeta.
  destruct (subprocess_run _ _) as [r|e].
  - destruct (returncode r =? 0) eqn:E0; cbn [negb].
    + rewrite parse_listing_entries.
      pose proof (entries_raise path (stdout r)) as Hraise.
      destruct (entries path (stdout r)) as [e|items] eqn:Ee.
      * destruct (Hraise e eq_refl) as [size ->].
        eexists. split; [reflexivity |]. split; [reflexivity |].
        intros ? [= <-]. by rewrite E0, Ee.
      * eexists. split; [reflexivity |]. split; [reflexivity |].
        intros ? [= <-]. by rewrite E0, Ee.
    + eexists. split; [reflexivity |]. split; [reflexivity |].
      intros ? [= <-]. by rewrite E0.
  - destruct e; eexists; (split; [reflexivity |]); (split; [reflexivity |]);
      done.
Qed.

(** On a connected session [list_directory] spawns exactly one process,
    the listing command.  If that process completes with exit status 0
    the result is the parser's reading of its standard output, and if the
    parser raises, the result is empty and the exception is logged as an
    error; with any other status the result is empty and the standard
    error is logged as an error; if the call raises, the result is
    empty. *)
Theorem list_directory_by_exit_status (self : ADBHandler) (path : string)
    (w : world) :
  device_connected self = true →
  let cmd := argv_of self (ListDirectory path) in
  ∃ w',
    list_directory subprocess_run self path w =
      (inr match subprocess_run (length (spawned w)) cmd with
           | Completed r =>
               if returncode r =? 0 then
                 match entries path (stdout r) with
                 | inr items => items
                 | inl _ => []
                 end
               else []
           | Raised _ => []
           end, w') ∧
    spawned w' = spawned w ++ [cmd] ∧
    (∀ r, subprocess_run (length (spawned w)) cmd = Completed r →
          log w' =
          if returncode r =? 0 then
            match entries path (stdout r) with
            | inr _ => log w
            | inl e =>
                log w ++ [(ERROR, "Error listing directory: " +:+ str_exn e)]
            end
          else log w ++ [(ERROR, "ADB Error: " +:+ stderr r)]).
Proof. exact (list_directory_outcome self path w). Qed.

End ExitStatus.

Lemma one_command_flag_witness :
  ∃ w', perform first_fails a_handler (DeleteItem "/sdcard/a.txt" false) w0
        = (inr (Flag false), w') ∧
        spawned w' = [["adb"; "-s"; "ABC123"; "shell";
                       "rm " +:+ escape_path "/sdcard/a.txt"]] ∧
        log w' = [].
Proof.
  destruct (one_command_flag first_fails a_handler
              (DeleteItem "/sdcard/a.txt" false) w0)
    as (w' & E & Hs & Hl); [reflexivity | reflexivity |].
  destruct (Hl _ eq_refl) as [Hlog _].
  exists w'. split; [exact E | split; [exact Hs | exact Hlog]].
Defined.

Lemma list_directory_by_exit_status_witness :
  (∃ w', list_directory first_fails a_handler "/sdcard" w0 = (inr [], w') ∧
         log w' = [(ERROR, "ADB Error: mkdir: denied")]) ∧
  (∃ w', list_directory (always (mkCompleted 0 overlong_text ""))
           a_handler "/sdcard" w0 = (inr [], w') ∧
         log w' =
         [(ERROR,
           "Error listing directory: Exceeds the limit (4300 digits) for integer string conversion: value has 4301 digits; use sys.set_int_max_str_digits() to increase the limit")]).
Proof.
  split.
  - destruct (list_directory_by_exit_status first_fails a_handler "/sdcard" w0)
      as (w' & E & _ & Hl); [reflexivity |].
    exists w'. split; [exact E |]. exact (Hl _ eq_refl).
  - destruct (list_directory_by_exit_status
                (always (mkCompleted 0 overlong_text "")) a_handler
                "/sdcard" w0)
      as (w' & E & _ & Hl); [reflexivity |].
    specialize (Hl _ eq_refl). cbv zeta in E. unfold always in E, Hl.
    cbn [returncode stdout Z.eqb] in E, Hl.
    rewrite overlong_text_raises in E, Hl.
    exists w'. split; [exact E | exact Hl].
Defined.

(** ** The entries and the lines of the text *)

(** The pattern matches exactly the well-formed lines: for a line without
    line feed that [strip] leaves alone, the pattern matches if and only
    if the line is a permissions run, a link count, two owner/group
    tokens, a size, a date, a time and a name, separated by blanks, the
    name neither beginning nor ending with a blank; the five groups are
    then the permissions, size, date, time and name columns. *)
Theorem pattern_matches_well_formed_lines (line : string) (m : Re.captures) :
  all_chars dot line = true → Py.strip line = line →
  (Re.match_ pattern line = Some m ↔
   ∃ f, line = render f ∧ well_formed f = true ∧ m = groups_of f).
Proof.
  intros Hdot Hstrip. split.
  - apply match_columns_inv; [done |]. by apply strip_fixed in Hstrip as [? _].
  - intros (f & -> & Hwf & ->). by apply match_columns.
Qed.

Lemma pattern_matches_well_formed_lines_witness :
  Re.match_ pattern (render notes_line) = Some (groups_of notes_line) ↔
  ∃ f, render notes_line = render f ∧ well_formed f = true ∧
       groups_of notes_line = groups_of f.
Proof.
  apply (pattern_matches_well_formed_lines (render notes_line)
           (groups_of notes_line)); reflexivity.
Defined.

Lemma elem_of_entries (path text : string) (items : list FileItem.t)
    (e : FileItem.t) :
  entries path text = inr items →
  (e ∈ items ↔
   ∃ line f n,
     line ∈ Py.split "010" text ∧ Py.strip line = render f ∧
     well_formed f = true ∧ l_name f ≠ "." ∧ l_name f ≠ ".." ∧
     Py.int (l_size f) = Some n ∧ e = entry_of path f n).
Proof.
  intros E. destruct (parse_listing_outcome path text w0) as [_ Hout].
  rewrite E in Hout. by destruct Hout as [Hin _].
Qed.

(** The list that the parser returns holds exactly the entries of the
    well-formed lines of the text other than the dot entries: nothing
    else is returned, and none of them is dropped.  The parser raises
    instead of returning exactly when the size column of one of these
    lines has more digits than [int] converts. *)
Theorem entries_are_the_well_formed_lines (path text : string) (w : world) :
  parse_listing path text w = (entries path text, w) ∧
  (∀ items e,
     entries path text = inr items →
     (e ∈ items ↔
      ∃ line f n,
        line ∈ Py.split "010" text ∧ Py.strip line = render f ∧
        well_formed f = true ∧ l_name f ≠ "." ∧ l_name f ≠ ".." ∧
        Py.int (l_size f) = Some n ∧ e = entry_of path f n)) ∧
  ((∃ e, entries path text = inl e) ↔
   ∃ line e, line ∈ Py.split "010" text ∧ refused line e).
Proof.
  destruct (parse_listing_outcome path text w) as [E Hout].
  split; [done |]. split.
  - intros items e Hitems. rewrite Hitems in Hout. by destruct Hout as [Hin _].
  - destruct (entries path text) as [e|items].
    + split; [| by exists e]. intros _.
      destruct Hout as (line & Hin & Hline). by exists line, e.
    + destruct Hout as [_ Hnot]. split; [by intros [e [=]] |].
      intros (line & e & Hin & Hline). by destruct (Hnot line e Hin).
Qed.

Lemma int_from_all_digits (s : string) (acc n : Z) :
  Py.int_from acc s = Some n → all_chars Py.isdigit s = true.
Proof.
  revert acc. induction s as [|c s IH]; intros acc; [done |].
  cbn [Py.int_from all_chars].
  destruct (Py.isdigit c); [| done]. apply IH.
Qed.

Lemma int_from_bound (s : string) (acc n : Z) :
  Py.int_from acc s = Some n → 0 ≤ acc →
  n < (acc + 1) * 10 ^ Z.of_nat (String.length s).
Proof.
  revert acc. induction s as [|c s IH]; intros acc;
    cbn [Py.int_from String.length].
  - intros [= ->] _. rewrite Z.pow_0_r. lia.
  - destruct (Py.isdigit c) eqn:Hc; [| done]. intros H Hacc.
    assert (0 ≤ Py.digit_value c ≤ 9) as Hd.
    { revert Hc. unfold Py.digit_value. by_cases_on c. }
    apply IH in H; [| lia].
    rewrite Nat2Z.inj_succ, Z.pow_succ_r by lia.
    assert (0 < 10 ^ Z.of_nat (String.length s)) by (apply Z.pow_pos_nonneg; lia).
    nia.
Qed.

(** A number that [int] returns has no more digits than it converts. *)
Lemma int_bound (s : string) (n : Z) :
  Py.int s = Some n → n < 10 ^ Z.of_nat Py.int_max_str_digits.
Proof.
  unfold Py.int. destruct s as [|c s]; [done |].
  destruct (Nat.ltb_spec Py.int_max_str_digits
              (Py.leading_digits (String c s))) as [|Hle]; [done |].
  intros H. pose proof (int_from_all_digits _ _ _ H) as Hall.
  rewrite (leading_digits_all _ Hall) in Hle.
  apply int_from_bound in H; [| lia].
  eapply Z.lt_le_trans; [exact H |]. rewrite Z.mul_1_l.
  apply Z.pow_le_mono_r; lia.
Qed.

Lemma parse_listing_fields (path text : string) (w : world)
    (items : list FileItem.t) w' :
  parse_listing path text w = (inr items, w') →
  Forall fields_well_formed items.
Proof.
  rewrite parse_listing_entries. intros [= E _].
  apply Forall_forall. intros e He.
  apply (elem_of_entries _ _ _ _ E) in He
    as (line & f & n & _ & _ & Hwf & _ & _ & Hn & ->).
  unpack_well_formed Hwf. unfold fields_well_formed.
  cbn [entry_of FileItem.name FileItem.permissions FileItem.date_modified
       FileItem.size].
  split; [done |]. split; [by apply String.eqb_eq |]. split; [done |].
  split; [by exists (l_date f), (l_time f) |].
  split; [by eapply int_nonneg | by eapply int_bound].
Qed.

Section Fields.

Variable subprocess_run : nat → list string → outcome.

(** The fields of every entry that the parser, and so [list_directory],
    returns are well formed: the name is not empty, holds no line feed
    and has no blank at either end; the permissions are a non-empty run
    of permission characters; date_modified is a date YYYY-MM-DD, one
    space and a time HH:MM; the size is not negative and has no more
    digits than [int] converts. *)
Theorem entry_fields_well_formed (self : ADBHandler) (path text : string)
    (items : list FileItem.t) (w w' : world) :
  parse_listing path text w = (inr items, w') →
  Forall fields_well_formed items ∧
  ∃ items' w'',
    list_directory subprocess_run self path w = (inr items', w'') ∧
    Forall fields_well_formed items'.
Proof.
  intros E. split; [by eapply parse_listing_fields |].
  destruct (list_directory_entries subprocess_run self path w)
    as (items' & w'' & E' & [-> | (r & _ & _ & Hp)]).
  - by exists [], w''.
  - exists items', w''. split; [done |]. by eapply parse_listing_fields.
Qed.

End Fields.

Lemma entry_fields_well_formed_witness :
  parse_listing "/sdcard" docs_text w0 =
    (inr [FileItem.make "docs" "/sdcard/docs" true 4096 "drwxr-xr-x"
            "2024-01-15 10:30"], w0) ∧
  Forall fields_well_formed
    [FileItem.make "docs" "/sdcard/docs" true 4096 "drwxr-xr-x"
       "2024-01-15 10:30"].
Proof.
  assert (parse_listing "/sdcard" docs_text w0 =
          (inr [FileItem.make "docs" "/sdcard/docs" true 4096 "drwxr-xr-x"
                  "2024-01-15 10:30"], w0)) as E.
  { rewrite parse_listing_eq. by vm_compute. }
  split; [exact E |].
  exact (proj1 (entry_fields_well_formed adb_missing a_handler "/sdcard"
                  docs_text _ w0 w0 E)).
Defined.

(** ** Discovery and the construction of a session *)

Lemma split_ws_tokens (s : string) :
  Forall (λ t, run_of nonspace t = true) (Py.split_ws s).
Proof.
  induction s as [|c s IH]; cbn [Py.split_ws]; [done |].
  destruct (Py.isspace c) eqn:Hc; [done |].
  assert (nonspace c = true) as Hn by (unfold nonspace; by rewrite Hc).
  destruct (Py.starts_word s).
  - destruct (Py.split_ws s) as [|h t].
    + constructor; [| done]. unfold run_of. cbn [Py.is_empty all_chars negb].
      by rewrite Hn.
    + apply Forall_cons in IH as [Hh Ht]. constructor; [| done].
      apply run_of_all in Hh. unfold run_of. cbn [Py.is_empty all_chars negb].
      by rewrite Hn, Hh.
  - constructor; [| done]. unfold run_of. cbn [Py.is_empty all_chars negb].
    by rewrite Hn.
Qed.

Lemma records_keys_are_tokens (out k : string) :
  k ∈ (records_of out).*1 → run_of nonspace k = true.
Proof.
  unfold records_of. rewrite <- list_fmap_compose, list_elem_of_fmap.
  intros (line & -> & [Hq _]%list_elem_of_filter).
  destruct (qualifies_has_serial line Hq) as (serial & rest & E).
  unfold record_of. cbn [compose fst]. rewrite E. cbn [head default].
  pose proof (split_ws_tokens line) as Ht. rewrite E in Ht.
  by apply Forall_cons in Ht as [? _].
Qed.

Section Session.

Variable subprocess_run : nat → list string → outcome.

Lemma get_connected_devices_outcome (serial : option string) (w : world) :
  let cmd := adb_argv serial ["devices"; "-l"] in
  ∃ d w',
    get_connected_devices subprocess_run serial w = (inr d, w') ∧
    spawned w' = spawned w ++ [cmd] ∧
    (∀ k v, d !! k = Some v → run_of nonspace k = true) ∧
    (∀ r, subprocess_run (length (spawned w)) cmd = Completed r →
          returncode r ≠ 0 →
          d = ∅ ∧
          last (log w') = Some (ERROR, "Error getting devices: " +:+ stderr r)) ∧
    (∀ e, subprocess_run (length (spawned w)) cmd = Raised e → d = ∅).
Proof.
  cbv zeta. unfold get_connected_devices. unfold_monad.
  rewrite run_adb_command_spec. cbv zeta.
  destruct (subprocess_run _ _) as [r|e].
  - destruct (Z.eqb_spec (returncode r) 0) as [H0|H0]; cbn [negb].
    + rewrite devices_loop_spec, foldl_insert_records.
      eexists _, _. split; [reflexivity |]. split; [reflexivity |].
      split; [| split; [| done]].
      * intros k v Hk%elem_of_list_to_map_2.
        apply (records_keys_are_tokens (stdout r)).
        rewrite elem_of_reverse in Hk. apply list_elem_of_fmap.
        by exists (k, v).
      * by intros ? [= <-] ?.
    + eexists _, _. split; [reflexivity |]. split; [reflexivity |].
      split; [done |]. split; [| done].
      intros ? [= <-] _. split; [done |].
      unfold after_spawn. cbn [log]. apply last_snoc.
  - destruct e; eexists _, _; (split; [reflexivity |]);
      (split; [reflexivity |]); (split; [done |]); by split.
Qed.

(** Discovery spawns [adb devices -l] once and never raises.  The keys of
    the mapping it returns are tokens of the output: none is empty and
    none holds a blank.  A completed process with a non-zero exit status
    gives the empty mapping and logs the standard error; a call that
    raises gives the empty mapping. *)
Theorem discovery_contract (serial : option string) (w : world) :
  let cmd := adb_argv serial ["devices"; "-l"] in
  ∃ d w',
    get_connected_devices subprocess_run serial w = (inr d, w') ∧
    spawned w' = spawned w ++ [cmd] ∧
    (∀ k v, d !! k = Some v → run_of nonspace k = true) ∧
    (∀ r, subprocess_run (length (spawned w)) cmd = Completed r →
          returncode r ≠ 0 →
          d = ∅ ∧
          last (log w') = Some (ERROR, "Error getting devices: " +:+ stderr r)) ∧
    (∀ e, subprocess_run (length (spawned w)) cmd = Raised e → d = ∅).
Proof. exact (get_connected_devices_outcome serial w). Qed.

Lemma init_outcome (serial : option string) (w : world) :
  ∃ h w' d w1,
    init subprocess_run serial w = (inr h, w') ∧
    get_connected_devices subprocess_run serial w = (inr d, w1) ∧
    devices h = d ∧
    device_connected h = negb (Nat.eqb (size d) 0) ∧
    (truthy serial = true → device_serial h = serial) ∧
    (truthy serial = false → size d = 1%nat →
     ∃ k v, d = {[ k := v ]} ∧ device_serial h = Some k ∧
            ∀ command, adb_argv (device_serial h) command
                       = "adb" :: "-s" :: k :: command) ∧
    (size d ≠ 1%nat → device_serial h = serial) ∧
    w' = (if Nat.eqb (size d) 0
          then logged WARNING "No ADB device connected" w1 else w1).
Proof.
  destruct (get_connected_devices_outcome serial w)
    as (d & w1 & E & _ & Hkeys & _).
  unfold init. unfold_monad. rewrite E.
  destruct (size d) as [|[|n]] eqn:Hsize.
  - cbn [Nat.eqb negb]. eexists _, _, d, w1.
    repeat split; rewrite ?Hsize; done.
  - cbn [Nat.eqb negb andb]. destruct (truthy serial) eqn:Ht; cbn [negb].
    + eexists _, _, d, w1. repeat split; rewrite ?Hsize; done.
    + destruct (map_size_one d Hsize) as (k & v & Hd & Hl).
      unfold first_key. rewrite Hl.
      eexists _, _, d, w1. repeat split; rewrite ?Hsize; try done.
      intros _ _. exists k, v. repeat split; [done |].
      intros command. cbn [device_serial].
      assert (run_of nonspace k = true) as Hk.
      { apply (Hkeys k v). rewrite Hd. apply lookup_singleton_eq. }
      apply run_of_inv in Hk as (c & k' & -> & _). done.
  - cbn [Nat.eqb negb andb]. rewrite andb_false_r.
    eexists _, _, d, w1. repeat split; rewrite ?Hsize; done.
Qed.

(** Constructing a session never raises.  The session is connected
    exactly when discovery found a device.  A serial given by the caller
    is kept whatever discovery returns.  Without one (or with the empty
    string), the serial of the only device found is bound, and it is then
    passed to every command as [-s <serial>]; with no device, or with
    several, the serial stays as given, and with no device a warning is
    logged. *)
Theorem init_session (serial : option string) (w : world) :
  ∃ h w' d w1,
    init subprocess_run serial w = (inr h, w') ∧
    get_connected_devices subprocess_run serial w = (inr d, w1) ∧
    devices h = d ∧
    device_connected h = negb (Nat.eqb (size d) 0) ∧
    (truthy serial = true → device_serial h = serial) ∧
    (truthy serial = false → size d = 1%nat →
     ∃ k v, d = {[ k := v ]} ∧ device_serial h = Some k ∧
            ∀ command, adb_argv (device_serial h) command
                       = "adb" :: "-s" :: k :: command) ∧
    (size d ≠ 1%nat → device_serial h = serial) ∧
    w' = (if Nat.eqb (size d) 0
          then logged WARNING "No ADB device connected" w1 else w1).
Proof. exact (init_outcome serial w). Qed.

(** When discovery finds no device, because adb is missing, fails, or
    lists none, the session is not connected and every later operation
    on it returns its failure value without spawning a process. *)
Theorem no_device_no_spawn (serial : option string) (w w1 : world) :
  get_connected_devices subprocess_run serial w = (inr ∅, w1) →
  ∃ h w',
    init subprocess_run serial w = (inr h, w') ∧
    device_connected h = false ∧ device_serial h = serial ∧
    spawned w' = spawned w1 ∧
    ∀ (op : operation) (w2 : world),
      ∃ w3, perform subprocess_run h op w2 = (inr (failure op), w3) ∧
            spawned w3 = spawned w2.
Proof.
  intros E. unfold init. unfold_monad. rewrite E.
  rewrite map_size_empty. cbn [Nat.eqb negb].
  eexists _, _. split; [reflexivity |]. repeat split.
  intros op w2.
  destruct (disconnected_fails_without_spawn_aux subprocess_run
              (mkHandler serial ∅ false) w2 eq_refl op) as (w3 & H1 & H2).
  by exists w3.
Qed.

End Session.

Lemma no_device_no_spawn_witness :
  ∃ h w',
    init adb_missing None w0 = (inr h, w') ∧ device_connected h = false ∧
    ∃ w3, perform adb_missing h (DeleteItem "/sdcard/docs" true) w'
          = (inr (Flag false), w3) ∧ spawned w3 = spawned w'.
Proof.
  destruct (no_device_no_spawn adb_missing None w0
              (logged ERROR "Error listing devices: adb"
                 (after_spawn ["adb"; "devices"; "-l"] w0)))
    as (h & w' & E & Hc & _ & _ & Hop); [by vm_compute |].
  exists h, w'. split; [exact E |]. split; [exact Hc |].
  exact (Hop (DeleteItem "/sdcard/docs" true) w').
Defined.

Lemma prefix_self_app (a b : string) : String.prefix a (a +:+ b) = true.
Proof.
  induction a as [|c a IH]; cbn [String.append]; [by destruct b |].
  rewrite prefix_cons. by destruct (ascii_dec c c).
Qed.

(** The model of a device is read off the first token that starts with
    [model:]: it is the text after that prefix up to the next colon, if
    there is one.  Without such a token the model is [Unknown]. *)
Theorem first_model_reads_model_token (pre post : list string)
    (v rest : string) (w : world) :
  Forall (λ t, Py.startswith "model:" t = false) pre →
  all_chars (λ c, negb (Ascii.eqb c ":")) v = true →
  first_model (pre ++ ("model:" +:+ v) :: post) w = (inr v, w) ∧
  first_model (pre ++ ("model:" +:+ v +:+ ":" +:+ rest) :: post) w = (inr v, w) ∧
  first_model pre w = (inr "Unknown", w).
Proof.
  intros Hpre Hv. rewrite !first_model_spec.
  induction Hpre as [|t pre Ht Hpre IH]; cbn [app model_of].
  - unfold Py.startswith. rewrite !prefix_self_app.
    change ("model:" +:+ v) with ("model" +:+ String ":" v).
    change ("model:" +:+ v +:+ ":" +:+ rest)
      with ("model" +:+ String ":" (v +:+ String ":" rest)).
    rewrite !split_app_sep, (split_no_sep _ _ Hv).
    destruct (split_nonempty ":" rest) as (h & tl & ->). done.
  - rewrite Ht. exact IH.
Qed.

Lemma first_model_reads_model_token_witness :
  first_model ["product:x"; "model:Pixel_5"; "device:x"] w0
  = (inr "Pixel_5", w0).
Proof.
  apply (first_model_reads_model_token ["product:x"] ["device:x"]
           "Pixel_5" "" w0); [by repeat constructor | reflexivity].
Defined.

Lemma escape_path_injective_witness :
  escape_path "a'b" = escape_path "a'b" ∧ "a'b" = "a'b".
Proof.
  split; [reflexivity |].
  apply (escape_path_injective "a'b" "a'b"). reflexivity.
Defined.


(* ================================================================== *)
(** * The explorer window (main.py) *)
(* ================================================================== *)

(** ** Order of strings and [sorted] *)

Lemma ascii_compare_refl (a : ascii) : Ascii.compare a a = Eq.
Proof. unfold Ascii.compare. apply N.compare_refl. Qed.

Lemma string_leb_refl (a : string) : String.leb a a = true.
Proof.
  unfold String.leb. induction a as [|x a IH]; [done |].
  cbn [String.compare]. by rewrite ascii_compare_refl.
Qed.

Lemma string_compare_trans (a b c : string) :
  String.compare a b ≠ Gt → String.compare b c ≠ Gt →
  String.compare a c ≠ Gt.
Proof.
  revert b c. induction a as [|x a IH]; intros [|y b] [|z c];
    cbn [String.compare]; try done.
  unfold Ascii.compare.
  destruct (N.compare_spec (N_of_ascii x) (N_of_ascii y)) as [Exy|Exy|Exy];
    destruct (N.compare_spec (N_of_ascii y) (N_of_ascii z)) as [Eyz|Eyz|Eyz];
    try done.
  - rewrite Exy, Eyz, N.compare_refl. apply IH.
  - intros _ _. rewrite Exy. by apply N.compare_lt_iff in Eyz as ->.
  - intros _ _. rewrite <- Eyz. by apply N.compare_lt_iff in Exy as ->.
  - intros _ _.
    assert (N_of_ascii x < N_of_ascii z)%N as H by lia.
    by apply N.compare_lt_iff in H as ->.
Qed.

Lemma string_leb_trans (a b c : string) :
  String.leb a b = true → String.leb b c = true → String.leb a c = true.
Proof.
  unfold String.leb. intros Hab Hbc.
  pose proof (string_compare_trans a b c) as H.
  destruct (String.compare a b), (String.compare b c),
    (String.compare a c); try done; by exfalso; apply H.
Qed.

Lemma string_ltb_leb (a b : string) :
  String.ltb a b = negb (String.leb b a).
Proof.
  unfold String.ltb, String.leb. rewrite (String.compare_antisym b a).
  by destruct (String.compare a b).
Qed.

Lemma string_leb_eq (a b : string) :
  String.leb a b = true → String.leb b a = true → a = b.
Proof. apply String.leb_antisym. Qed.

Section Sorted.

Context {A : Type} (key : A → string).

Lemma insert_sorted_perm (x : A) (l : list A) :
  insert_sorted key x l ≡ₚ x :: l.
Proof.
  induction l as [|y l IH]; [done |]. cbn [insert_sorted].
  destruct (String.ltb _ _); [| done].
  rewrite IH. apply Permutation_swap.
Qed.

Lemma sorted_perm (l : list A) : sorted key l ≡ₚ l.
Proof.
  induction l as [|x l IH]; [done |]. cbn [sorted].
  by rewrite insert_sorted_perm, IH.
Qed.

Lemma insert_sorted_ordered (x : A) (l : list A) :
  StronglySorted (by_key key) l →
  StronglySorted (by_key key) (insert_sorted key x l).
Proof.
  induction 1 as [|y l Hl IH Hy]; cbn [insert_sorted].
  - by repeat constructor.
  - destruct (String.ltb (key y) (key x)) eqn:E.
    + constructor; [exact IH |].
      rewrite insert_sorted_perm. constructor; [| exact Hy].
      unfold by_key. rewrite string_ltb_leb in E.
      destruct (String.leb_total (key x) (key y)) as [H|H]; [| done].
      by rewrite H in E.
    + rewrite string_ltb_leb in E. apply negb_false_iff in E.
      constructor; [by constructor |]. constructor; [exact E |].
      eapply Forall_impl; [exact Hy |]. intros z Hz.
      unfold by_key in *. by eapply string_leb_trans.
Qed.

Lemma sorted_ordered (l : list A) : StronglySorted (by_key key) (sorted key l).
Proof.
  induction l as [|x l IH]; [constructor |]. cbn [sorted].
  by apply insert_sorted_ordered.
Qed.

(** [sorted] is stable: the elements of one key keep their order. *)
Lemma insert_sorted_stable (k : string) (x : A) (l : list A) :
  List.filter (λ y, String.eqb (key y) k) (insert_sorted key x l) =
  List.filter (λ y, String.eqb (key y) k) (x :: l).
Proof.
  induction l as [|y l IH]; [done |]. cbn [insert_sorted].
  destruct (String.ltb (key y) (key x)) eqn:E; [| done].
  cbn [List.filter] in *. rewrite IH.
  destruct (String.eqb_spec (key x) k) as [Hx|Hx]; [| done].
  destruct (String.eqb_spec (key y) k) as [Hy|Hy]; [| done].
  rewrite Hx, Hy, string_ltb_leb, string_leb_refl in E. done.
Qed.

Lemma sorted_stable (k : string) (l : list A) :
  List.filter (λ y, String.eqb (key y) k) (sorted key l) =
  List.filter (λ y, String.eqb (key y) k) l.
Proof.
  induction l as [|x l IH]; [done |]. cbn [sorted].
  rewrite insert_sorted_stable. cbn [List.filter]. by rewrite IH.
Qed.

End Sorted.

Lemma filter_split {A} (p : A → bool) (l : list A) :
  List.filter p l ++ List.filter (λ x, negb (p x)) l ≡ₚ l.
Proof.
  induction l as [|x l IH]; [done |]. cbn [List.filter].
  destruct (p x); cbn [negb app].
  - by rewrite IH.
  - rewrite <- Permutation_middle. by rewrite IH.
Qed.

Lemma filter_Forall {A} (p : A → bool) (l : list A) :
  Forall (λ x, p x = true) (List.filter p l).
Proof.
  apply Forall_forall. intros x Hx.
  apply list_elem_of_In, filter_In in Hx. tauto.
Qed.

Lemma contains_empty (s : string) : Py.contains "" s = true.
Proof. by destruct s. Qed.

Lemma filter_all {A} (p : A → bool) (l : list A) :
  (∀ x, p x = true) → List.filter p l = l.
Proof.
  intros H. induction l as [|x l IH]; [done |].
  cbn [List.filter]. by rewrite H, IH.
Qed.

(** What the view shows.  After [apply_search_filter] the rows are the
    parent row, unless the current path is the default root, followed by
    one row for each entry whose lower-cased name contains the lower-cased
    search text: first the directories, then the files, each group in the
    order of the lower-cased names, entries of equal key in the order of
    the listing.  With an empty search text every entry has its row.
    Nothing but the rows changes. *)
Theorem view_rows (self : Main.ADBFileExplorer) :
  let shown f :=
    Py.contains (lower (Main.search_bar self)) (lower (FileItem.name f)) in
  ∃ dirs files,
    Main.apply_search_filter self =
      Main.mkExplorer (Main.adb_handler self) (Main.current_path self)
        (Main.path_history self) (Main.all_files self) (Main.search_bar self)
        ((if String.eqb (Py.rstrip_char "/" (Main.current_path self))
               "/storage/emulated/0"
          then [] else [[".."; "Directory"; ""; ""; ""]])
         ++ map Main.row_of (dirs ++ files)) ∧
    dirs ++ files ≡ₚ List.filter shown (Main.all_files self) ∧
    Forall (λ f, FileItem.is_dir f = true) dirs ∧
    Forall (λ f, FileItem.is_dir f = false) files ∧
    StronglySorted (by_key Main.name_key) dirs ∧
    StronglySorted (by_key Main.name_key) files ∧
    (∀ k, List.filter (λ f, String.eqb (Main.name_key f) k) (dirs ++ files) =
          List.filter (λ f, String.eqb (Main.name_key f) k)
            (List.filter FileItem.is_dir (List.filter shown (Main.all_files self))
             ++ List.filter (λ f, negb (FileItem.is_dir f))
                  (List.filter shown (Main.all_files self)))) ∧
    (Main.search_bar self = "" → dirs ++ files ≡ₚ Main.all_files self).
Proof.
  intros shown.
  set (filtered := List.filter shown (Main.all_files self)).
  exists (sorted Main.name_key (List.filter FileItem.is_dir filtered)),
    (sorted Main.name_key
       (List.filter (λ f, negb (FileItem.is_dir f)) filtered)).
  assert (sorted Main.name_key (List.filter FileItem.is_dir filtered) ++
          sorted Main.name_key
            (List.filter (λ f, negb (FileItem.is_dir f)) filtered)
          ≡ₚ filtered) as Hperm.
  { rewrite !sorted_perm. apply filter_split. }
  split; [| split; [exact Hperm | split; [| split; [| split; [| split; [| split]]]]]].
  - unfold Main.apply_search_filter. cbv zeta. f_equal.
    by destruct (String.eqb _ _).
  - eapply Forall_impl; [| intros f Hf; exact Hf].
    rewrite sorted_perm. apply filter_Forall.
  - rewrite sorted_perm.
    eapply Forall_impl; [apply filter_Forall |].
    intros f Hf. by apply negb_true_iff.
  - apply sorted_ordered.
  - apply sorted_ordered.
  - intros k. by rewrite !List.filter_app, !sorted_stable.
  - intros Hs. rewrite Hperm. unfold filtered, shown. rewrite Hs.
    rewrite filter_all; [done |]. intros f. apply contains_empty.
Qed.

(** ** Navigation *)

Section Navigation.

Variable subprocess_run : nat → list string → outcome.
Variable os : host.

Lemma refresh_files_disconnected (self : Main.ADBFileExplorer) (w : world) :
  device_connected (Main.adb_handler self) = false →
  Main.refresh_files subprocess_run self w = (inr self, w).
Proof. intros H. unfold Main.refresh_files. by rewrite H. Qed.

Lemma refresh_files_connected (self : Main.ADBFileExplorer) (w : world) :
  device_connected (Main.adb_handler self) = true →
  ∃ files w',
    list_directory subprocess_run (Main.adb_handler self)
      (Main.current_path self) w = (inr files, w') ∧
    Main.refresh_files subprocess_run self w =
      (inr (Main.apply_search_filter
              (Main.mkExplorer (Main.adb_handler self) (Main.current_path self)
                 (Main.path_history self) files (Main.search_bar self)
                 (Main.tree_model self))), w').
Proof.
  intros H. unfold Main.refresh_files. rewrite H. cbn [negb].
  destruct (list_directory_entries subprocess_run (Main.adb_handler self)
              (Main.current_path self) w) as (files & w' & E & _).
  exists files, w'. split; [exact E |]. unfold_monad. by rewrite E.
Qed.

Lemma refresh_files_frame (self : Main.ADBFileExplorer) (w : world) :
  ∃ self' w',
    Main.refresh_files subprocess_run self w = (inr self', w') ∧
    Main.same_place self self'.
Proof.
  destruct (device_connected (Main.adb_handler self)) eqn:Hc.
  - destruct (refresh_files_connected self w Hc) as (files & w' & _ & E).
    eexists _, _. split; [exact E |]. by repeat split.
  - exists self, w. split; [by apply refresh_files_disconnected |].
    by repeat split.
Qed.

Lemma open_file_on_host_returns (self : Main.ADBFileExplorer)
    (filename : string) (w : world) :
  ∃ w', Main.open_file_on_host subprocess_run os self filename w = (inr tt, w').
Proof.
  unfold Main.open_file_on_host.
  destruct (device_connected _); cbn [negb]; [| by eexists].
  unfold_monad.
  match goal with
  | |- context [pull_file ?sr ?h ?r ?l ?w] =>
      destruct (facade_returns sr h (PullFile r l) w) as (v & w1 & E)
  end.
  cbn [perform] in E. revert E. unfold_monad.
  destruct (pull_file _ _ _ _ _) as [[e|b] w2]; [done |]. intros _.
  destruct b; cbn [negb]; [| by eexists].
  destruct (Py.startswith "win" _).
  { destruct (startfile os _ w2) as [[e|[]] w3]; by eexists. }
  unfold spawn.
  destruct (Py.startswith "darwin" _);
    destruct (subprocess_run _ _); by eexists.
Qed.

Lemma go_back_outcome (self : Main.ADBFileExplorer) (w : world) :
  match Main.path_history self with
  | [] | [_] => Main.go_back subprocess_run self w = (inr self, w)
  | _ =>
      ∃ previous,
        last (Py.init (Main.path_history self)) = Some previous ∧
        Main.go_back subprocess_run self w =
        Main.refresh_files subprocess_run
          (Main.mkExplorer (Main.adb_handler self) previous
             (Py.init (Main.path_history self)) (Main.all_files self)
             (Main.search_bar self) (Main.tree_model self)) w
  end.
Proof.
  unfold Main.go_back.
  destruct (Main.path_history self) as [|p [|q h]] eqn:E; [done | done |].
  cbn [length Nat.ltb Nat.leb].
  destruct (last (Py.init (p :: q :: h))) as [previous|] eqn:El.
  - by exists previous.
  - exfalso. apply last_None in El. unfold Py.init in El.
    cbn [removelast] in El. by destruct h.
Qed.

(** The outcome of a double click: the window stays where it is, or it
    moves to [new_path] of a directory row, which is added to the
    history. *)
Lemma handle_double_click_outcome (self : Main.ADBFileExplorer) (row : nat)
    (w : world) :
  ∃ self' w',
    Main.handle_double_click subprocess_run os self row w = (inr self', w') ∧
    Main.adb_handler self' = Main.adb_handler self ∧
    Main.search_bar self' = Main.search_bar self ∧
    ((Main.current_path self' = Main.current_path self ∧
      Main.path_history self' = Main.path_history self) ∨
     (truthy (Main.data self row 0) = true ∧
      Main.data self row 1 = Some "Directory" ∧
      Main.current_path self' = Main.new_path self (Main.data self row 0) ∧
      Main.current_path self' ≠ Main.current_path self ∧
      Main.path_history self' =
        Main.path_history self ++ [Main.current_path self'])).
Proof.
  unfold Main.handle_double_click. unfold_monad.
  destruct (truthy (Main.data self row 0)) eqn:Ht; cbn [negb];
    [| eexists _, _; split; [reflexivity |]; by auto].
  case_bool_decide as Hd.
  - destruct (String.eqb_spec (Main.new_path self (Main.data self row 0))
                (Main.current_path self)) as [Heq|Hne]; cbn [negb];
      [eexists _, _; split; [reflexivity |]; by auto |].
    match goal with
    | |- context [Main.refresh_files _ ?s ?w1] =>
        destruct (refresh_files_frame s w1) as (s' & w' & E & H1 & H2 & H3 & H4)
    end.
    rewrite E. exists s', w'. split; [done |].
    cbn [Main.adb_handler Main.current_path Main.path_history Main.search_bar]
      in H1, H2, H3, H4.
    split; [done |]. split; [done |]. right.
    rewrite H2, H3. by repeat split.
  - case_bool_decide as Hf; [| eexists _, _; split; [reflexivity |]; by auto].
    match goal with
    | |- context [Main.open_file_on_host _ _ ?s ?f ?w1] =>
        destruct (open_file_on_host_returns s f w1) as (w' & ->)
    end.
    eexists _, _; split; [reflexivity |]; by auto.
Qed.

Lemma delete_loop_returns (self : Main.ADBFileExplorer)
    (items : list (string * bool)) (n : nat) (w : world) :
  ∃ n' w', Main.delete_loop subprocess_run self items n w = (inr n', w').
Proof.
  revert n w. induction items as [|[name is_dir] items IH]; intros n w;
    [by eexists _, _ |].
  cbn [Main.delete_loop]. unfold_monad.
  match goal with
  | |- context [delete_item ?sr ?h ?p ?d ?w] =>
      destruct (facade_returns sr h (DeleteItem p d) w) as (v & w1 & E)
  end.
  cbn [perform] in E. revert E. unfold_monad.
  destruct (delete_item _ _ _ _ _) as [[e|b] w2]; [done |]. intros _.
  apply IH.
Qed.

Lemma rename_loop_returns (self : Main.ADBFileExplorer) (base_name : string)
    (padding : nat) (wasCanceled : nat → bool) (i : nat) (indexes : list nat)
    (n : nat) (w : world) :
  ∃ n' w', Main.rename_loop subprocess_run self base_name padding wasCanceled
             i indexes n w = (inr n', w').
Proof.
  revert i n w. induction indexes as [|row indexes IH]; intros i n w;
    [by eexists _, _ |].
  cbn [Main.rename_loop]. destruct (wasCanceled i); [by eexists _, _ |].
  unfold_monad.
  match goal with
  | |- context [rename_item ?sr ?h ?o ?d ?w] =>
      destruct (facade_returns sr h (RenameItem o d) w) as (v & w1 & E)
  end.
  cbn [perform] in E. revert E. unfold_monad.
  destruct (rename_item _ _ _ _ _) as [[e|b] w2]; [done |]. intros _.
  apply IH.
Qed.

Lemma delete_selected_items_frame (self : Main.ADBFileExplorer)
    (indexes : list nat) (yes : bool) (w : world) :
  ∃ self' w',
    Main.delete_selected_items subprocess_run self indexes yes w
    = (inr self', w') ∧ Main.same_place self self'.
Proof.
  unfold Main.delete_selected_items.
  destruct (device_connected _); cbn [negb];
    [| by exists self, w].
  destruct indexes as [|row indexes]; [by exists self, w |].
  destruct (Main.names_types self (row :: indexes)) as [|item items];
    [by exists self, w |].
  destruct yes; [| by exists self, w].
  unfold_monad.
  destruct (delete_loop_returns self (item :: items) 0%nat w) as (n & w1 & ->).
  apply refresh_files_frame.
Qed.

Lemma batch_rename_selected_frame (self : Main.ADBFileExplorer)
    (indexes : list nat) (base_name : string) (ok : bool)
    (wasCanceled : nat → bool) (w : world) :
  ∃ self' w',
    Main.batch_rename_selected subprocess_run self indexes base_name ok
      wasCanceled w = (inr self', w') ∧ Main.same_place self self'.
Proof.
  unfold Main.batch_rename_selected.
  destruct (device_connected _); cbn [negb]; [| by exists self, w].
  destruct (length indexes <? 2)%nat; [by exists self, w |].
  destruct (negb ok || Py.is_empty base_name); [by exists self, w |].
  unfold_monad.
  match goal with
  | |- context [Main.rename_loop _ ?s ?b ?p ?c ?i ?l ?n ?w] =>
      destruct (rename_loop_returns s b p c i l n w) as (n' & w1 & ->)
  end.
  apply refresh_files_frame.
Qed.

(** The timer slot: the flag becomes the answer of the connection check;
    the directory is listed again when the flag turns true. *)
Lemma check_connection_periodically_outcome (self : Main.ADBFileExplorer)
    (w : world) :
  ∃ connected w1 self' w',
    check_adb_connection subprocess_run (Main.adb_handler self) w
    = (inr connected, w1) ∧
    Main.check_connection_periodically subprocess_run self w = (inr self', w') ∧
    let flagged :=
      Main.mkExplorer
        (mkHandler (device_serial (Main.adb_handler self))
           (devices (Main.adb_handler self)) connected)
        (Main.current_path self) (Main.path_history self)
        (Main.all_files self) (Main.search_bar self) (Main.tree_model self) in
    if negb (device_connected (Main.adb_handler self)) && connected
    then Main.refresh_files subprocess_run flagged w1 = (inr self', w')
    else self' = flagged ∧ w' = w1.
Proof.
  destruct (check_adb_connection_outcome subprocess_run
              (Main.adb_handler self) w) as (b & w1 & E & _).
  unfold Main.check_connection_periodically. unfold_monad. rewrite E.
  destruct (device_connected (Main.adb_handler self)), b;
    cbn [Bool.eqb negb andb].
  - by eexists _, _, _, _.
  - by eexists _, _, _, _.
  - match goal with
    | |- context [Main.refresh_files _ ?s ?w1] =>
        destruct (refresh_files_frame s w1) as (s' & w' & E' & _)
    end.
    rewrite E'. by eexists _, _, _, _.
  - by eexists _, _, _, _.
Qed.

(** The slots as a whole: each of them returns, whatever the
    processes do; none changes the serial or the device table of the
    handler, and none but the timer its connection flag; the search text
    changes by editing only; and the history keeps ending with the
    current path. *)
Theorem slots_return_and_keep_history (self : Main.ADBFileExplorer)
    (ev : Main.event) (w : world) :
  ∃ self' w',
    Main.handle subprocess_run os self ev w = (inr self', w') ∧
    (Main.history_ok self → Main.history_ok self') ∧
    device_serial (Main.adb_handler self')
      = device_serial (Main.adb_handler self) ∧
    devices (Main.adb_handler self') = devices (Main.adb_handler self) ∧
    match ev with
    | Main.TimerFired => True
    | _ => device_connected (Main.adb_handler self')
           = device_connected (Main.adb_handler self)
    end ∧
    Main.search_bar self' =
      match ev with
      | Main.SearchEdited text => text
      | _ => Main.search_bar self
      end.
Proof.
  destruct ev as [row| | |text| |indexes yes|indexes base_name ok wasCanceled];
    cbn [Main.handle].
  - destruct (handle_double_click_outcome self row w)
      as (s' & w' & E & Hh & Hs & [[Hc Hp] | (_ & _ & _ & _ & Hp)]);
      exists s', w'; rewrite Hh; (split; [exact E |]); repeat split; try done.
    + unfold Main.history_ok. by rewrite Hc, Hp.
    + intros _. unfold Main.history_ok. rewrite Hp. apply last_snoc.
  - pose proof (go_back_outcome self w) as H. unfold Main.history_ok.
    destruct (Main.path_history self) as [|p [|q h]] eqn:Eh;
      [exists self, w; split; [exact H |]; by rewrite Eh
      |exists self, w; split; [exact H |]; by rewrite Eh |].
    destruct H as (previous & Hl & ->).
    match goal with
    | |- context [Main.refresh_files _ ?s ?w1] =>
        destruct (refresh_files_frame s w1)
          as (s' & w' & E & H1 & H2 & H3 & H4)
    end.
    exists s', w'. rewrite H1, H2, H3, H4. by repeat split.
  - destruct (refresh_files_frame self w)
      as (s' & w' & E & H1 & H2 & H3 & H4).
    exists s', w'. unfold Main.history_ok. rewrite H1, H2, H3, H4.
    by repeat split.
  - eexists _, _. split; [reflexivity |]. by repeat split.
  - destruct (check_connection_periodically_outcome self w)
      as (b & w1 & s' & w' & _ & E & H).
    exists s', w'. split; [exact E |]. cbv zeta in H.
    destruct (negb _ && b).
    + match type of H with
      | Main.refresh_files _ ?s ?w1 = _ =>
          destruct (refresh_files_frame s w1)
            as (s2 & w2 & E2 & H1 & H2 & H3 & H4)
      end.
      rewrite H in E2. injection E2 as <- <-.
      unfold Main.history_ok. rewrite H1, H2, H3, H4. by repeat split.
    + destruct H as [-> ->]. by repeat split.
  - destruct (delete_selected_items_frame self indexes yes w)
      as (s' & w' & E & H1 & H2 & H3 & H4).
    exists s', w'. unfold Main.history_ok. rewrite H1, H2, H3, H4.
    by repeat split.
  - destruct (batch_rename_selected_frame self indexes base_name ok
                wasCanceled w) as (s' & w' & E & H1 & H2 & H3 & H4).
    exists s', w'. unfold Main.history_ok. rewrite H1, H2, H3, H4.
    by repeat split.
Qed.

Lemma handle_double_click_directory (self : Main.ADBFileExplorer)
    (row : nat) (w : world) :
  truthy (Main.data self row 0) = true →
  Main.data self row 1 = Some "Directory" →
  ∃ self' w',
    Main.handle_double_click subprocess_run os self row w = (inr self', w') ∧
    Main.current_path self' = Main.new_path self (Main.data self row 0).
Proof.
  intros Ht Hd. unfold Main.handle_double_click. unfold_monad.
  rewrite Ht, Hd. cbn [negb]. rewrite bool_decide_eq_true_2 by done.
  destruct (String.eqb_spec (Main.new_path self (Main.data self row 0))
              (Main.current_path self)) as [Heq|Hne]; cbn [negb];
    [by eexists _, _ |].
  match goal with
  | |- context [Main.refresh_files _ ?s ?w1] =>
      destruct (refresh_files_frame s w1) as (s' & w' & E & _ & H2 & _)
  end.
  rewrite E. by exists s', w'.
Qed.

(** Back undoes a double click that moved the window: the current path
    and the history are again what they were. *)
Theorem back_undoes_double_click (self s1 : Main.ADBFileExplorer)
    (row : nat) (w w1 w2 : world) :
  Main.history_ok self →
  Main.handle_double_click subprocess_run os self row w = (inr s1, w1) →
  Main.current_path s1 ≠ Main.current_path self →
  ∃ s2 w3,
    Main.go_back subprocess_run s1 w2 = (inr s2, w3) ∧
    Main.current_path s2 = Main.current_path self ∧
    Main.path_history s2 = Main.path_history self.
Proof.
  intros Hok E Hmoved.
  destruct (handle_double_click_outcome self row w)
    as (s' & w' & E' & _ & _ & [[Hc _] | (_ & _ & _ & _ & Hp)]);
    rewrite E in E'; injection E' as <- <-; [done |].
  pose proof (go_back_outcome s1 w2) as H. rewrite Hp in H.
  unfold Main.history_ok in Hok.
  destruct (Main.path_history self) as [|p h] eqn:Eh; [done |].
  assert (Py.init ((p :: h) ++ [Main.current_path s1]) = p :: h) as Hi
    by apply removelast_last.
  destruct h as [|q h]; cbn [app] in H, Hi;
    destruct H as (previous & Hl & ->); rewrite Hi in Hl |- *;
    rewrite Hok in Hl; injection Hl as <-;
    match goal with
    | |- context [Main.refresh_files _ ?s ?w1] =>
        destruct (refresh_files_frame s w1) as (s2 & w3 & E2 & _ & H2 & H3 & _)
    end;
    exists s2, w3; by rewrite E2, H2, H3.
Qed.

Lemma rstrip_none (p : ascii → bool) (s : string) :
  all_chars (λ c, negb (p c)) s = true → Py.rstrip_with p s = s.
Proof.
  induction s as [|c s IH]; [done |]. cbn [all_chars Py.rstrip_with].
  intros [Hc Hs]%andb_true_iff. apply negb_true_iff in Hc.
  by rewrite (IH Hs), Hc, andb_false_r.
Qed.

(** The parent row undoes the entering of a directory: after a double
    click on a directory row whose name holds no slash, the window is in
    that directory of the current one, and a double click on the parent
    row there leads back to the current path without its trailing
    slashes. *)
Theorem parent_row_undoes_enter (self s1 : Main.ADBFileExplorer)
    (row : nat) (name : string) (w w1 : world) :
  Main.data self row 0 = Some name →
  Main.data self row 1 = Some "Directory" →
  name ≠ "" → name ≠ ".." →
  all_chars (λ c, negb (Ascii.eqb c "/")) name = true →
  Py.rstrip_char "/" (Main.current_path self) ≠ "" →
  Main.handle_double_click subprocess_run os self row w = (inr s1, w1) →
  Main.current_path s1 =
    Py.rstrip_char "/" (Main.current_path self) +:+ "/" +:+ name ∧
  ∀ row' w2,
    Main.data s1 row' 0 = Some ".." →
    Main.data s1 row' 1 = Some "Directory" →
    ∃ s2 w3,
      Main.handle_double_click subprocess_run os s1 row' w2 = (inr s2, w3) ∧
      Main.current_path s2 = Py.rstrip_char "/" (Main.current_path self).
Proof.
  intros Hn Hd Hne Hdots Hslash Hbase E.
  destruct (handle_double_click_directory self row w) as (s' & w' & E' & Hc);
    [rewrite Hn; by destruct name | done |].
  rewrite E in E'. injection E' as <- <-.
  assert (Main.current_path s1 =
          Py.rstrip_char "/" (Main.current_path self) +:+ "/" +:+ name) as Hs1.
  { rewrite Hc, Hn. unfold Main.new_path.
    rewrite bool_decide_eq_false_2; [done |]. by intros [= ->]. }
  split; [exact Hs1 |]. intros row' w2 Hn' Hd'.
  destruct (handle_double_click_directory s1 row' w2) as (s2 & w3 & E2 & Hc2);
    [by rewrite Hn' | done |].
  exists s2, w3. split; [exact E2 |].
  rewrite Hc2, Hn'. unfold Main.new_path.
  rewrite bool_decide_eq_true_2 by done. cbv zeta. rewrite Hs1.
  assert (Py.rstrip_char "/"
            (Py.rstrip_char "/" (Main.current_path self) +:+ "/" +:+ name)
          = Py.rstrip_char "/" (Main.current_path self) +:+ "/" +:+ name) as ->.
  { unfold Py.rstrip_char at 1. rewrite <- str_app_assoc.
    apply rstrip_app_keep; [by apply rstrip_none | by destruct name]. }
  rewrite parent_dir_of_child by done.
  by destruct (Py.rstrip_char "/" (Main.current_path self)).
Qed.

(** Every entry that [list_directory] returns has a name, and its path is
    the listed path, without trailing slashes, a slash and the name. *)
Lemma list_directory_items (self : ADBHandler) (path : string) (w w' : world)
    (items : list FileItem.t) :
  list_directory subprocess_run self path w = (inr items, w') →
  Forall (λ e, FileItem.path e
               = Py.rstrip_char "/" path +:+ "/" +:+ FileItem.name e ∧
               FileItem.name e ≠ "" ∧ FileItem.name e ≠ "..") items.
Proof.
  intros E. destruct (device_connected self) eqn:Hc.
  - destruct (list_directory_outcome subprocess_run self path w Hc)
      as (w1 & E1 & _).
    rewrite E in E1. injection E1 as -> _.
    destruct (subprocess_run _ _) as [r|e]; [| constructor].
    destruct (returncode r =? 0); [| constructor].
    destruct (entries path (stdout r)) as [x|items'] eqn:Ee; [constructor |].
    apply Forall_forall. intros e He.
    apply (elem_of_entries _ _ _ _ Ee) in He
      as (line & f & n & _ & _ & Hwf & _ & Hdots & _ & ->).
    unpack_well_formed Hwf. cbn [entry_of FileItem.path FileItem.name].
    split; [done |]. split; [| done]. intros Hempty.
    match goal with
    | H : run_of dot (l_name f) = true |- _ => by rewrite Hempty in H
    end.
  - revert E. unfold list_directory. rewrite Hc. cbn [negb]. unfold_monad.
    intros [= <- _]. constructor.
Qed.

(** A directory row of a fresh listing opens the entry it shows: after
    [refresh_files] on a connected window, a row of kind Directory other
    than the parent row shows an entry of the listing that is a
    directory, and a double click on it makes the path of that entry the
    current path. *)
Theorem directory_row_opens_entry (self s1 : Main.ADBFileExplorer)
    (row : nat) (name : string) (w w1 : world) :
  device_connected (Main.adb_handler self) = true →
  Main.refresh_files subprocess_run self w = (inr s1, w1) →
  Main.data s1 row 0 = Some name → name ≠ ".." →
  Main.data s1 row 1 = Some "Directory" →
  ∃ e,
    e ∈ Main.all_files s1 ∧ FileItem.name e = name ∧
    FileItem.is_dir e = true ∧
    ∀ w2, ∃ s2 w3,
      Main.handle_double_click subprocess_run os s1 row w2 = (inr s2, w3) ∧
      Main.current_path s2 = FileItem.path e.
Proof.
  intros Hc E Hn Hdots Hd.
  destruct (refresh_files_connected self w Hc) as (files & w' & El & E').
  rewrite E in E'. injection E' as E' ->.
  apply list_directory_items in El.
  pose proof Hn as Hn0. pose proof Hd as Hd0.
  unfold Main.data in Hn, Hd.
  destruct (Main.tree_model s1 !! row) as [cells|] eqn:Hrow; [| done].
  cbn [mbind option_bind] in Hn, Hd.
  apply list_elem_of_lookup_2 in Hrow.
  assert (Main.current_path s1 = Main.current_path self) as Hcur1
    by by rewrite E'.
  assert (Main.all_files s1 = files) as Hfiles by by rewrite E'.
  rewrite E' in Hrow.
  unfold Main.apply_search_filter in Hrow. cbv zeta in Hrow.
  cbn [Main.tree_model Main.all_files Main.current_path Main.search_bar]
    in Hrow.
  apply elem_of_app in Hrow as [Hrow|Hrow].
  { destruct (negb _); [| by apply elem_of_nil in Hrow].
    apply list_elem_of_singleton in Hrow. subst cells.
    cbn in Hn. by injection Hn as <-. }
  apply list_elem_of_fmap in Hrow as (e & -> & He).
  assert (e ∈ files) as Hin.
  { apply elem_of_app in He as [He|He];
      rewrite sorted_perm in He;
      apply list_elem_of_In, filter_In in He as [He _];
      apply filter_In in He as [He _]; by apply list_elem_of_In. }
  cbn in Hn, Hd. injection Hn as Hn.
  exists e. split; [by rewrite Hfiles |]. split; [exact Hn |].
  split; [by destruct (FileItem.is_dir e) |].
  intros w2.
  rewrite Forall_forall in El. destruct (El e Hin) as (Hpath & Hne & _).
  destruct (handle_double_click_directory s1 row w2)
    as (s2 & w3 & E2 & Hcur); [| done |].
  - rewrite Hn0, <- Hn. by destruct (FileItem.name e).
  - exists s2, w3. split; [exact E2 |]. rewrite Hcur, Hn0.
    unfold Main.new_path. rewrite bool_decide_eq_false_2 by by intros [= ->].
    by rewrite Hcur1, Hpath, Hn.
Qed.

(** ** Deleting and renaming the selection *)

Lemma delete_item_outcome (self : ADBHandler) (path : string) (is_dir : bool)
    (w : world) :
  device_connected self = true →
  ∃ b w', delete_item subprocess_run self path is_dir w = (inr b, w') ∧
          spawned w' = spawned w ++ [argv_of self (DeleteItem path is_dir)].
Proof.
  intros Hc.
  destruct (one_command_outcome subprocess_run self (DeleteItem path is_dir)
              w Hc eq_refl) as (w' & E & Hs & _).
  cbn [perform] in E. revert E. unfold_monad.
  destruct (delete_item _ _ _ _ _) as [[e|b] w1]; [done |].
  intros [= _ <-]. by exists b, w1.
Qed.

Lemma rename_item_outcome (self : ADBHandler) (old_path new_path : string)
    (w : world) :
  device_connected self = true →
  ∃ b w', rename_item subprocess_run self old_path new_path w = (inr b, w') ∧
          spawned w' = spawned w ++ [argv_of self (RenameItem old_path new_path)].
Proof.
  intros Hc.
  destruct (one_command_outcome subprocess_run self
              (RenameItem old_path new_path) w Hc eq_refl) as (w' & E & Hs & _).
  cbn [perform] in E. revert E. unfold_monad.
  destruct (rename_item _ _ _ _ _) as [[e|b] w1]; [done |].
  intros [= _ <-]. by exists b, w1.
Qed.

Lemma refresh_files_spawned (self : Main.ADBFileExplorer) (w : world) :
  device_connected (Main.adb_handler self) = true →
  ∃ self' w',
    Main.refresh_files subprocess_run self w = (inr self', w') ∧
    Main.same_place self self' ∧
    spawned w' = spawned w ++
      [argv_of (Main.adb_handler self) (ListDirectory (Main.current_path self))].
Proof.
  intros Hc.
  destruct (refresh_files_connected self w Hc) as (files & w' & El & E).
  destruct (list_directory_outcome subprocess_run (Main.adb_handler self)
              (Main.current_path self) w Hc) as (w1 & E1 & Hs & _).
  rewrite El in E1. injection E1 as _ <-.
  eexists _, _. split; [exact E |]. split; [by repeat split | exact Hs].
Qed.

Lemma delete_loop_spawned (self : Main.ADBFileExplorer)
    (items : list (string * bool)) (n : nat) (w : world) :
  device_connected (Main.adb_handler self) = true →
  ∃ n' w',
    Main.delete_loop subprocess_run self items n w = (inr n', w') ∧
    spawned w' = spawned w ++
      map (λ item, argv_of (Main.adb_handler self)
                     (DeleteItem (Py.rstrip_char "/" (Main.current_path self)
                                  +:+ "/" +:+ item.1) item.2)) items.
Proof.
  intros Hc. revert n w.
  induction items as [|[name is_dir] items IH]; intros n w.
  - eexists _, _. split; [reflexivity |]. by rewrite app_nil_r.
  - cbn [Main.delete_loop]. unfold_monad.
    match goal with
    | |- context [delete_item ?sr ?h ?p ?d ?w] =>
        destruct (delete_item_outcome h p d w Hc) as (b & w1 & -> & Hs)
    end.
    match goal with
    | |- context [Main.delete_loop _ _ _ ?m w1] =>
        destruct (IH m w1) as (n' & w' & E & Hs')
    end.
    exists n', w'. split; [exact E |].
    rewrite Hs', Hs, <- app_assoc. done.
Qed.

Lemma elem_of_names_types (self : Main.ADBFileExplorer) (indexes : list nat)
    (name : string) (is_dir : bool) :
  (name, is_dir) ∈ Main.names_types self indexes ↔
  ∃ row, row ∈ indexes ∧ Main.data self row 0 = Some name ∧
         name ≠ "" ∧ name ≠ ".." ∧
         is_dir = bool_decide (Main.data self row 1 = Some "Directory").
Proof.
  induction indexes as [|row indexes IH]; cbn [Main.names_types].
  - split; [by intros ?%elem_of_nil | by intros (? & ?%elem_of_nil & _)].
  - destruct (Main.data self row 0) as [item_name|] eqn:En; cbn [truthy andb].
    + destruct (Py.is_empty item_name) eqn:Ee; cbn [negb andb].
      { rewrite IH. split.
        - intros (r & Hr & H). exists r. split; [by right | done].
        - intros (r & [->|Hr]%elem_of_cons & H); [| by exists r].
          destruct H as (H1 & H2 & _). rewrite En in H1.
          injection H1 as ->. by destruct name. }
      case_bool_decide as Hd; cbn [negb].
      { rewrite IH. split.
        - intros (r & Hr & H). exists r. split; [by right | done].
        - intros (r & [->|Hr]%elem_of_cons & H); [| by exists r].
          destruct H as (H1 & _ & H3 & _). rewrite En in H1. congruence. }
      rewrite elem_of_cons, IH. cbn [fmt default]. split.
      * intros [[= -> ->] | (r & Hr & H)].
        -- exists row. split; [by left |]. rewrite En.
           repeat split; [by destruct item_name | congruence].
        -- exists r. split; [by right | done].
      * intros (r & [->|Hr]%elem_of_cons & H1 & H2 & H3 & H4).
        -- left. rewrite En in H1. injection H1 as ->. by rewrite H4.
        -- right. by exists r.
    + rewrite IH. split.
      * intros (r & Hr & H). exists r. split; [by right | done].
      * intros (r & [->|Hr]%elem_of_cons & H); [| by exists r].
        destruct H as (H1 & _). by rewrite En in H1.
Qed.

(** Deleting the selection spares the parent row.  On a connected window
    the items deleted are those of the selected rows whose name is
    neither empty nor [..]; if there is one and the question is answered
    with Yes, one [rm] (with [-r] for a directory) is spawned for each of
    them, in the order of the selection, and the directory is then listed
    once; otherwise nothing is spawned.  The place of the window does not
    change. *)
Theorem delete_selection_spares_parent_row (self : Main.ADBFileExplorer)
    (indexes : list nat) (yes : bool) (w : world) :
  device_connected (Main.adb_handler self) = true →
  let items := Main.names_types self indexes in
  ∃ self' w',
    Main.delete_selected_items subprocess_run self indexes yes w
    = (inr self', w') ∧
    Main.same_place self self' ∧
    spawned w' = spawned w ++
      (if yes && negb (bool_decide (items = [])) then
         map (λ item, argv_of (Main.adb_handler self)
                        (DeleteItem
                           (Py.rstrip_char "/" (Main.current_path self)
                            +:+ "/" +:+ item.1) item.2)) items
         ++ [argv_of (Main.adb_handler self)
               (ListDirectory (Main.current_path self))]
       else []) ∧
    ∀ name is_dir,
      (name, is_dir) ∈ items ↔
      ∃ row, row ∈ indexes ∧ Main.data self row 0 = Some name ∧
             name ≠ "" ∧ name ≠ ".." ∧
             is_dir = bool_decide (Main.data self row 1 = Some "Directory").
Proof.
  intros Hc items.
  unfold Main.delete_selected_items. rewrite Hc. cbn [negb].
  destruct indexes as [|row indexes].
  { exists self, w. split; [done |]. split; [by repeat split |].
    split; [| apply elem_of_names_types].
    subst items. cbn [Main.names_types].
    rewrite bool_decide_eq_true_2 by done.
    by rewrite andb_false_r, app_nil_r. }
  fold items. destruct items as [|item items'] eqn:Ei.
  { exists self, w. split; [done |]. split; [by repeat split |].
    split; [| rewrite <- Ei; apply elem_of_names_types].
    rewrite bool_decide_eq_true_2 by done.
    by rewrite andb_false_r, app_nil_r. }
  rewrite bool_decide_eq_false_2 by done. rewrite andb_true_r.
  destruct yes.
  - unfold_monad.
    destruct (delete_loop_spawned self (item :: items') 0%nat w Hc)
      as (n & w1 & -> & Hs1).
    destruct (refresh_files_spawned self w1 Hc) as (s' & w' & E & Hp & Hs).
    exists s', w'. split; [exact E |]. split; [exact Hp |].
    split; [| rewrite <- Ei; apply elem_of_names_types].
    rewrite Hs, Hs1, <- app_assoc. done.
  - exists self, w. split; [done |]. split; [by repeat split |].
    split; [by rewrite app_nil_r |].
    rewrite <- Ei. apply elem_of_names_types.
Qed.

Lemma pretty_N_go_head (x : N) (s : string) :
  (0 < x)%N →
  ∃ c rest, pretty_N_go x s = String c rest ∧ leading_digit c = true.
Proof.
  revert s. induction (N.lt_wf_0 x) as [x _ IH]. intros s Hx.
  rewrite pretty_N_go_step by done.
  destruct (decide (x `div` 10 = 0)%N) as [Hd|Hd].
  - rewrite Hd, pretty_N_go_0. eexists _, _. split; [reflexivity |].
    apply N.div_small_iff in Hd; [| done].
    rewrite N.mod_small by done.
    destruct x as [|p]; [done |].
    repeat (destruct p as [p|p|]; try (exfalso; lia)); done.
  - apply IH; [apply N.div_lt; lia | by apply N.neq_0_lt_0].
Qed.

Lemma pretty_succ_head (i : nat) :
  ∃ c rest, pretty (i + 1)%nat = String c rest ∧ leading_digit c = true.
Proof.
  unfold pretty, pretty_nat, pretty, pretty_N.
  rewrite decide_False by lia. apply pretty_N_go_head. lia.
Qed.

Lemma zfill_numeral (width : nat) (c : ascii) (rest : string) :
  leading_digit c = true →
  zfill width (String c rest) =
  zeros (width - String.length (String c rest)) +:+ String c rest.
Proof.
  unfold zfill. intros Hc.
  assert (Ascii.eqb c "+" || Ascii.eqb c "-" = false) as ->; [| done].
  revert Hc. by_cases_on c.
Qed.

Lemma zeros_app_inj (a b : nat) (c d : ascii) (p q : string) :
  leading_digit c = true → leading_digit d = true →
  zeros a +:+ String c p = zeros b +:+ String d q →
  String c p = String d q.
Proof.
  intros Hc Hd. revert b.
  induction a as [|a IH]; intros [|b]; cbn [zeros String.append]; try done.
  - intros [= -> _]. done.
  - intros [= <- _]. done.
  - intros [= H]. by apply (IH b).
Qed.

Lemma str_app_inv_head (a x y : string) : a +:+ x = a +:+ y → x = y.
Proof.
  induction a as [|c a IH]; [done |]. cbn [String.append].
  intros [= H]. by apply IH.
Qed.

Lemma new_name_inj (base_name : string) (padding i j : nat) :
  Main.new_name base_name padding i = Main.new_name base_name padding j →
  i = j.
Proof.
  unfold Main.new_name. intros H%str_app_inv_head.
  destruct (pretty_succ_head i) as (c & p & Ei & Hc).
  destruct (pretty_succ_head j) as (d & q & Ej & Hd).
  rewrite Ei, Ej, !zfill_numeral in H by done.
  apply zeros_app_inj in H; [| done | done].
  rewrite <- Ei, <- Ej in H. apply (inj pretty) in H. lia.
Qed.

Lemma rename_loop_spawned (self : Main.ADBFileExplorer) (base_name : string)
    (padding : nat) (wasCanceled : nat → bool) (i : nat) (indexes : list nat)
    (n : nat) (w : world) :
  device_connected (Main.adb_handler self) = true →
  ∃ n' w',
    Main.rename_loop subprocess_run self base_name padding wasCanceled i
      indexes n w = (inr n', w') ∧
    spawned w' = spawned w ++
      imap (λ j row,
              argv_of (Main.adb_handler self)
                (RenameItem
                   (Py.rstrip_char "/" (Main.current_path self) +:+ "/" +:+
                    fmt (Main.data self row 0))
                   (Main.new_name base_name padding (i + j))))
        (take (Main.rounds wasCanceled i (length indexes)) indexes).
Proof.
  intros Hc. revert i n w.
  induction indexes as [|row indexes IH]; intros i n w.
  - eexists _, _. split; [reflexivity |]. by rewrite app_nil_r.
  - cbn [Main.rename_loop length Main.rounds].
    destruct (wasCanceled i).
    { eexists _, _. split; [reflexivity |]. by rewrite app_nil_r. }
    unfold_monad.
    match goal with
    | |- context [rename_item ?sr ?h ?o ?d ?w] =>
        destruct (rename_item_outcome h o d w Hc) as (b & w1 & -> & Hs)
    end.
    match goal with
    | |- context [Main.rename_loop _ _ _ _ _ _ _ ?m w1] =>
        destruct (IH (S i) m w1) as (n' & w' & E & Hs')
    end.
    exists n', w'. split; [exact E |].
    rewrite Hs', Hs, <- app_assoc. cbn [take imap app].
    rewrite Nat.add_0_r. f_equal. f_equal.
    apply imap_ext. intros j row' _. cbn. by rewrite Nat.add_succ_r.
Qed.

(** Renaming the selection in a batch.  On a connected window, with two
    or more rows selected and a base name given, one [mv] is spawned for
    each selected row up to the first position at which the progress
    dialog was cancelled, and the directory is then listed once.  The
    source of each [mv] is the item of the row in the current directory;
    the destination is the new name alone, the base name followed by the
    position counted from one, padded with zeros: it does not carry the
    current directory.  The new names of different positions differ. *)
Theorem batch_rename_commands (self : Main.ADBFileExplorer)
    (indexes : list nat) (base_name : string) (wasCanceled : nat → bool)
    (w : world) :
  device_connected (Main.adb_handler self) = true →
  (2 ≤ length indexes)%nat → base_name ≠ "" →
  let padding := String.length (pretty (length indexes)) in
  ∃ self' w',
    Main.batch_rename_selected subprocess_run self indexes base_name true
      wasCanceled w = (inr self', w') ∧
    Main.same_place self self' ∧
    spawned w' = spawned w ++
      imap (λ i row,
              argv_of (Main.adb_handler self)
                (RenameItem
                   (Py.rstrip_char "/" (Main.current_path self) +:+ "/" +:+
                    fmt (Main.data self row 0))
                   (base_name +:+ zfill padding (pretty (i + 1)%nat))))
        (take (Main.rounds wasCanceled 0 (length indexes)) indexes)
      ++ [argv_of (Main.adb_handler self)
            (ListDirectory (Main.current_path self))] ∧
    ∀ i j, base_name +:+ zfill padding (pretty (i + 1)%nat)
           = base_name +:+ zfill padding (pretty (j + 1)%nat) → i = j.
Proof.
  intros Hc Hlen Hbase padding.
  unfold Main.batch_rename_selected. rewrite Hc. cbn [negb orb].
  destruct (Nat.ltb_spec (length indexes) 2) as [|_]; [lia |].
  assert (Py.is_empty base_name = false) as -> by by destruct base_name.
  unfold_monad.
  destruct (rename_loop_spawned self base_name padding wasCanceled 0 indexes
              0%nat w Hc) as (n & w1 & E1 & Hs1).
  fold padding. rewrite E1.
  destruct (refresh_files_spawned self w1 Hc) as (s' & w' & E & Hp & Hs).
  exists s', w'. split; [exact E |]. split; [exact Hp |].
  split; [| intros i j; apply new_name_inj].
  rewrite Hs, Hs1, <- app_assoc. done.
Qed.

(** ** The connection flag *)

(** The timer slot sets the connection flag of the handler to the answer
    of the connection check and to nothing else: the flag is true exactly
    when the stripped output of [adb devices] contains the word
    [device], so it is true whenever the output begins with the header of
    the device list, with or without a device under it, and false when
    the call raises.  The slot spawns that one command, and lists the
    current directory after it when the flag turns from false to true;
    otherwise the listing and the rows stay as they are.  The place of
    the window, the serial and the device table do not change. *)
Theorem timer_sets_flag_by_word (self : Main.ADBFileExplorer) (w : world) :
  let h := Main.adb_handler self in
  let cmd := adb_argv (device_serial h) ["devices"] in
  ∃ self' w',
    Main.check_connection_periodically subprocess_run self w = (inr self', w') ∧
    Main.current_path self' = Main.current_path self ∧
    Main.path_history self' = Main.path_history self ∧
    Main.search_bar self' = Main.search_bar self ∧
    device_serial (Main.adb_handler self') = device_serial h ∧
    devices (Main.adb_handler self') = devices h ∧
    (∀ r, subprocess_run (length (spawned w)) cmd = Completed r →
          device_connected (Main.adb_handler self')
          = Py.contains "device" (Py.strip (stdout r))) ∧
    (∀ r rest, subprocess_run (length (spawned w)) cmd = Completed r →
               stdout r = "List of devices attached" +:+ rest →
               device_connected (Main.adb_handler self') = true) ∧
    (∀ e, subprocess_run (length (spawned w)) cmd = Raised e →
          device_connected (Main.adb_handler self') = false) ∧
    spawned w' = spawned w ++ cmd ::
      (if negb (device_connected h) &&
          device_connected (Main.adb_handler self')
       then [argv_of h (ListDirectory (Main.current_path self))] else []) ∧
    (negb (device_connected h) && device_connected (Main.adb_handler self')
     = false →
     Main.all_files self' = Main.all_files self ∧
     Main.tree_model self' = Main.tree_model self).
Proof.
  intros h cmd.
  destruct (check_adb_connection_outcome subprocess_run h w)
    as (b & w1 & E & Hs & Hword & Hheader & Hraise).
  destruct (check_connection_periodically_outcome self w)
    as (b' & w1' & s' & w' & E' & Es & H).
  fold h in E'. rewrite E in E'. injection E' as <- <-.
  exists s', w'. split; [exact Es |]. cbv zeta in H. fold h in H.
  destruct (negb (device_connected h) && b) eqn:Hturn.
  - apply andb_true_iff in Hturn as [Hwas ->].
    match type of H with
    | Main.refresh_files _ ?s _ = _ =>
        destruct (refresh_files_spawned s w1 eq_refl)
          as (s2 & w2 & E2 & (H1 & H2 & H3 & H4) & Hs2)
    end.
    rewrite H in E2. injection E2 as <- <-.
    cbn [Main.adb_handler Main.current_path Main.path_history
         Main.search_bar] in H1, H2, H3, H4, Hs2.
    rewrite H1, H2, H3, H4, Hwas. cbn [device_connected device_serial devices andb].
    repeat split; try done.
    rewrite Hs2, Hs, <- app_assoc. done.
  - destruct H as [-> ->].
    cbn [Main.adb_handler Main.current_path Main.path_history
         Main.search_bar Main.all_files Main.tree_model device_connected
         device_serial devices].
    rewrite Hturn. by repeat split.
Qed.


(** ** The construction of the window *)



End Navigation.

(** ** Runs of the window *)

Lemma back_undoes_double_click_witness :
  ∃ s1 w1 s2 w3,
    Main.handle_double_click (always (mkCompleted 0 docs_text "")) a_host
      a_window 1 w0 = (inr s1, w1) ∧
    Main.current_path s1 = "/sdcard/docs" ∧
    Main.go_back (always (mkCompleted 0 docs_text "")) s1 w1 = (inr s2, w3) ∧
    Main.current_path s2 = "/sdcard" ∧
    Main.path_history s2 = ["/storage/emulated/0"; "/sdcard"].
Proof.
  destruct (Main.handle_double_click (always (mkCompleted 0 docs_text ""))
              a_host a_window 1 w0) as [[e|s1] w1] eqn:E;
    [by vm_compute in E |].
  assert (Main.current_path s1 = "/sdcard/docs") as Hs1
    by (vm_compute in E; by injection E as <- <-).
  destruct (back_undoes_double_click (always (mkCompleted 0 docs_text ""))
              a_host a_window s1 1 w0 w1 w1) as (s2 & w3 & H);
    [reflexivity | exact E | by rewrite Hs1 |].
  by exists s1, w1, s2, w3.
Defined.

Lemma parent_row_undoes_enter_witness :
  ∃ s1 w1 s2 w3,
    Main.handle_double_click (always (mkCompleted 0 docs_text "")) a_host
      a_window 1 w0 = (inr s1, w1) ∧
    Main.current_path s1 = "/sdcard/docs" ∧
    Main.handle_double_click (always (mkCompleted 0 docs_text "")) a_host
      s1 0 w1 = (inr s2, w3) ∧
    Main.current_path s2 = "/sdcard".
Proof.
  destruct (Main.handle_double_click (always (mkCompleted 0 docs_text ""))
              a_host a_window 1 w0) as [[e|s1] w1] eqn:E;
    [by vm_compute in E |].
  destruct (parent_row_undoes_enter (always (mkCompleted 0 docs_text ""))
              a_host a_window s1 1 "docs" w0 w1) as [Hs1 Hup];
    [reflexivity | reflexivity | done | done | reflexivity | done | exact E |].
  destruct (Hup 0%nat w1) as (s2 & w3 & E2 & Hs2);
    [vm_compute in E; by injection E as <- <-
    |vm_compute in E; by injection E as <- <- |].
  by exists s1, w1, s2, w3.
Defined.

Lemma directory_row_opens_entry_witness :
  ∃ s1 w1 e,
    Main.refresh_files (always (mkCompleted 0 docs_text "")) a_window w0
    = (inr s1, w1) ∧
    e ∈ Main.all_files s1 ∧ FileItem.name e = "docs" ∧
    FileItem.path e = "/sdcard/docs" ∧
    ∃ s2 w3,
      Main.handle_double_click (always (mkCompleted 0 docs_text "")) a_host
        s1 1 w1 = (inr s2, w3) ∧
      Main.current_path s2 = "/sdcard/docs".
Proof.
  destruct (Main.refresh_files (always (mkCompleted 0 docs_text "")) a_window
              w0) as [[x|s1] w1] eqn:E; [by vm_compute in E |].
  destruct (directory_row_opens_entry (always (mkCompleted 0 docs_text ""))
              a_host a_window s1 1 "docs" w0 w1)
    as (e & Hin & Hname & Hdir & Hopen);
    [reflexivity | exact E
    |vm_compute in E; by injection E as <- <- | done
    |vm_compute in E; by injection E as <- <- |].
  destruct (Hopen w1) as (s2 & w3 & E2 & Hcur).
  assert (FileItem.path e = "/sdcard/docs") as Hpath.
  { vm_compute in E. injection E as <- <-.
    cbn [Main.all_files] in Hin.
    apply list_elem_of_singleton in Hin. by subst e. }
  exists s1, w1, e. repeat split; try done.
  exists s2, w3. by rewrite Hcur.
Defined.

Lemma delete_selection_spares_parent_row_witness :
  ∃ self' w',
    Main.delete_selected_items (always (mkCompleted 0 "" "")) a_window
      [0; 1; 2]%nat true w0 = (inr self', w') ∧
    spawned w' =
      [["adb"; "-s"; "ABC123"; "shell"; "rm -r " +:+ escape_path "/sdcard/docs"];
       ["adb"; "-s"; "ABC123"; "shell"; "rm " +:+ escape_path "/sdcard/notes.txt"];
       ["adb"; "-s"; "ABC123"; "shell"; ls_command "/sdcard"]].
Proof.
  destruct (delete_selection_spares_parent_row (always (mkCompleted 0 "" ""))
              a_window [0; 1; 2]%nat true w0)
    as (self' & w' & E & _ & Hs & _); [reflexivity |].
  exists self', w'. split; [exact E |]. rewrite Hs. reflexivity.
Defined.

Lemma batch_rename_commands_witness :
  ∃ self' w',
    Main.batch_rename_selected (always (mkCompleted 0 "" "")) a_window
      [1; 2]%nat "img" true (λ _, false) w0 = (inr self', w') ∧
    spawned w' =
      [["adb"; "-s"; "ABC123"; "shell";
        "mv " +:+ escape_path "/sdcard/docs" +:+ " " +:+ escape_path "img1"];
       ["adb"; "-s"; "ABC123"; "shell";
        "mv " +:+ escape_path "/sdcard/notes.txt" +:+ " " +:+ escape_path "img2"];
       ["adb"; "-s"; "ABC123"; "shell"; ls_command "/sdcard"]].
Proof.
  destruct (batch_rename_commands (always (mkCompleted 0 "" "")) a_window
              [1; 2]%nat "img" (λ _, false) w0)
    as (self' & w' & E & _ & Hs & _); [reflexivity | simpl; lia | done |].
  exists self', w'. split; [exact E |]. rewrite Hs. reflexivity.
Defined.



(* ================================================================== *)
(** * The directory picker (select_directory_dialog.py) *)
(* ================================================================== *)

(** A refresh never reaches the handler: the rows are the parent row, if
    the current path is not the root, and nothing else. *)
Lemma picker_refresh_outcome (self : Picker.SelectDirectoryDialog) (w : world) :
  Picker.refresh self w =
  (inr (if device_connected (Picker.adb_handler self) then
          Picker.mkDialog (Picker.adb_handler self) (Picker.selected_path self)
            (Picker.root_path self) (Picker.current_path self)
            (Picker.use_root self)
            (if String.eqb (Picker.current_path self) (Picker.root_path self)
             then [] else [[".."; Picker.parent_of self]])
        else self), w).
Proof.
  unfold Picker.refresh, Picker.list_directory_use_root.
  destruct (device_connected _); cbn [negb]; [| done].
  unfold_monad. by destruct (String.eqb _ _).
Qed.

Lemma ancestor_add (root_path : string) (a b : nat) (path : string) :
  Picker.ancestor root_path (a + b) path =
  Picker.ancestor root_path b (Picker.ancestor root_path a path).
Proof.
  revert path. induction a as [|a IH]; intros path; [done |].
  cbn [Nat.add Picker.ancestor]. cbv zeta. apply IH.
Qed.

Lemma picker_refresh_inv (h : ADBHandler) (r c : string)
    (self : Picker.SelectDirectoryDialog) (w : world) :
  Picker.adb_handler self = h → Picker.root_path self = r →
  Picker.selected_path self = None →
  (∃ j, Picker.current_path self = Picker.ancestor r j c) →
  (device_connected h = false → Picker.tree_model self = []) →
  ∃ self', Picker.refresh self w = (inr self', w) ∧ picker_inv h r c self'.
Proof.
  intros Hh Hr Hs Hc Hrows. rewrite picker_refresh_outcome.
  eexists. split; [reflexivity |]. rewrite Hh.
  destruct (device_connected h) eqn:Hconn.
  - unfold picker_inv. cbn [Picker.adb_handler Picker.root_path
      Picker.selected_path Picker.current_path Picker.tree_model].
    split; [done |]. split; [done |]. split; [done |]. split; [done |].
    destruct (String.eqb _ _); [by left | right]. split; [done |].
    unfold Picker.parent_of. by rewrite Hr.
  - split; [done |]. split; [done |]. split; [done |]. split; [done |].
    left. by apply Hrows.
Qed.

Lemma picker_exec_inv (h : ADBHandler) (r c : string)
    (actions : list Picker.action) (self : Picker.SelectDirectoryDialog)
    (w : world) :
  picker_inv h r c self →
  ∃ accepted self',
    Picker.exec self actions w = (inr (accepted, self'), w) ∧
    (Picker.tree_model self' = [] ∨
     Picker.tree_model self' =
       [[".."; Picker.ancestor r 1 (Picker.current_path self')]]) ∧
    (∃ j, Picker.current_path self' = Picker.ancestor r j c) ∧
    ∀ p, Picker.selected_path self' = Some p →
         accepted = true ∧ device_connected h = true ∧
         ∃ k, p = Picker.ancestor r (S k) c.
Proof.
  assert (∀ self : Picker.SelectDirectoryDialog, picker_inv h r c self →
            ∃ accepted self',
              (@inr exn _ (false, self), w) = (inr (accepted, self'), w) ∧
              (Picker.tree_model self' = [] ∨
               Picker.tree_model self' =
                 [[".."; Picker.ancestor r 1 (Picker.current_path self')]]) ∧
              (∃ j, Picker.current_path self' = Picker.ancestor r j c) ∧
              ∀ p, Picker.selected_path self' = Some p →
                   accepted = true ∧ device_connected h = true ∧
                   ∃ k, p = Picker.ancestor r (S k) c) as Hstop.
  { intros s (Hh & Hr & Hs & Hc & Hrows). exists false, s.
    split; [done |]. split; [by destruct Hrows as [? | [_ ?]]; auto |].
    split; [done |]. intros p Hp. congruence. }
  intros Hinv. revert self Hinv. induction actions as [|a actions IH]; intros self Hinv;
    [by apply Hstop |].
  destruct a as [|row|selection|]; cbn [Picker.exec]; unfold_monad;
    [| | | by apply Hstop].
  - (* Up *)
    unfold Picker.go_up. unfold_monad.
    destruct (String.eqb _ _); [by apply IH |].
    destruct Hinv as (Hh & Hr & Hs & [j Hc] & Hrows).
    match goal with
    | |- context [Picker.refresh ?s w] =>
        destruct (picker_refresh_inv h r c s w) as (s' & -> & Hinv');
          cbn [Picker.adb_handler Picker.root_path Picker.selected_path
               Picker.current_path Picker.tree_model]; try done
    end.
    + exists (S j). unfold Picker.parent_of. rewrite Hr, Hc.
      by rewrite <- Nat.add_1_r, ancestor_add.
    + intros Hconn. destruct Hrows as [H | [H _]]; [done | congruence].
    + by apply IH.
  - (* DoubleClick *)
    unfold Picker.on_double_click. unfold_monad.
    destruct (device_connected (Picker.adb_handler self)); cbn [negb];
      [| by apply IH].
    pose proof Hinv as (Hh & Hr & Hs & Hc & Hrows).
    destruct Hrows as [Hrows | [_ Hrows]]; rewrite Hrows.
    + rewrite lookup_nil. by apply IH.
    + destruct row as [|row]; cbn [lookup list_lookup];
        [cbn [String.eqb Ascii.eqb Bool.eqb negb] |]; by apply IH.
  - (* Select *)
    unfold Picker.accept.
    destruct (device_connected (Picker.adb_handler self)) eqn:Hconn;
      cbn [negb]; [| by apply IH].
    destruct selection as [|row selection]; [by apply IH |].
    destruct Hinv as (Hh & Hr & Hs & [j Hc] & Hrows).
    eexists true, _. split; [reflexivity |].
    cbn [Picker.tree_model Picker.current_path Picker.selected_path].
    split; [by destruct Hrows as [? | [_ ?]]; auto |].
    split; [by exists j |].
    intros p Hp. split; [done |]. split; [by rewrite <- Hh |].
    destruct Hrows as [Hrows | [_ Hrows]]; rewrite Hrows in Hp.
    + by rewrite lookup_nil in Hp.
    + destruct row as [|row]; [| done]. cbn in Hp. injection Hp as <-.
      exists j. rewrite Hc. by rewrite <- Nat.add_1_r, ancestor_add.
Qed.

(** The directory picker never lists a directory.  Its call of
    [list_directory] passes a keyword that the method does not take, so
    every refresh ends in the exception handler: no process is spawned,
    nothing is logged, and the rows are the parent row at most.  The
    path it hands back, if any, is therefore one or more levels above
    its start path, and it hands one back only when it was accepted on a
    connected handler. *)
Theorem picker_returns_an_ancestor (handler : ADBHandler)
    (start_path root_path : string) (use_root : bool)
    (actions : list Picker.action) (w : world) :
  ∃ self0 accepted self',
    Picker.init handler start_path root_path use_root w = (inr self0, w) ∧
    Picker.exec self0 actions w = (inr (accepted, self'), w) ∧
    (Picker.tree_model self' = [] ∨
     Picker.tree_model self' =
       [[".."; Picker.ancestor (Picker.root_path self0) 1
                 (Picker.current_path self')]]) ∧
    ∀ p, Picker.selected_path self' = Some p →
         accepted = true ∧ device_connected handler = true ∧
         ∃ k, p = Picker.ancestor (Picker.root_path self0) (S k)
                    (Picker.current_path self0).
Proof.
  set (r := if String.eqb root_path "/" then "/"
            else Py.rstrip_char "/" root_path).
  set (c := if String.eqb start_path "/" then "/"
            else Py.rstrip_char "/" start_path).
  assert (∃ self0, Picker.init handler start_path root_path use_root w
                   = (inr self0, w) ∧
                   Picker.root_path self0 = r ∧ Picker.current_path self0 = c ∧
                   picker_inv handler r c self0) as (self0 & E & Hr & Hc & Hinv).
  { unfold Picker.init. cbv zeta. fold r c.
    destruct (device_connected handler) eqn:Hconn.
    - rewrite picker_refresh_outcome.
      cbn [Picker.adb_handler Picker.root_path Picker.selected_path
           Picker.current_path Picker.use_root]. rewrite Hconn.
      eexists. split; [reflexivity |]. split; [done |]. split; [done |].
      split; [done |]. split; [done |]. split; [done |].
      split; [by exists 0%nat |].
      cbn [Picker.tree_model Picker.current_path].
      destruct (String.eqb c r); [by left | right]. split; [done |].
      reflexivity.
    - eexists. split; [reflexivity |]. split; [done |]. split; [done |].
      split; [done |]. split; [done |]. split; [done |].
      split; [by exists 0%nat | by left]. }
  destruct (picker_exec_inv handler r c actions self0 w Hinv)
    as (accepted & self' & Ex & Hrows & _ & Hsel).
  exists self0, accepted, self'. rewrite Hr, Hc.
  split; [exact E |]. split; [exact Ex |]. split; [exact Hrows |]. exact Hsel.
Qed.

(* ================================================================== *)
(** * Sizes read back from the rows (main.py) *)
(* ================================================================== *)

Lemma pretty_N_char_digit (m : N) :
  (m < 10)%N →
  Py.isdigit (pretty_N_char m) = true ∧
  Py.digit_value (pretty_N_char m) = Z.of_N m.
Proof.
  intros Hm. destruct m as [|p]; [done |].
  repeat (destruct p as [p|p|]; try (exfalso; lia)); done.
Qed.

(** Reading a numeral: the digits of [x] put before [s] add [x] to the
    number read so far, shifted by their count. *)
Lemma int_from_pretty_N_go (x : N) (s : string) :
  ∃ k : Z, 0 ≤ k ∧ ∀ acc,
    Py.int_from acc (pretty_N_go x s) = Py.int_from (acc * 10 ^ k + Z.of_N x) s.
Proof.
  revert s. induction (N.lt_wf_0 x) as [x _ IH]. intros s.
  destruct (decide (x = 0)%N) as [->|Hx].
  - exists 0. split; [done |]. intros acc. rewrite pretty_N_go_0. f_equal. lia.
  - rewrite pretty_N_go_step by lia.
    destruct (IH (x `div` 10)%N (N.div_lt x 10 ltac:(lia) ltac:(lia))
                (String (pretty_N_char (x `mod` 10)) s)) as (k & Hk & H).
    exists (k + 1). split; [lia |]. intros acc. rewrite H.
    destruct (pretty_N_char_digit (x `mod` 10)%N) as [Hd Hv];
      [by apply N.mod_lt |].
    cbn [Py.int_from]. rewrite Hd, Hv. f_equal.
    rewrite Z.pow_add_r by lia. rewrite N2Z.inj_mod, N2Z.inj_div.
    pose proof (Z.div_mod (Z.of_N x) 10 ltac:(lia)). change (Z.of_N 10) with 10.
    lia.
Qed.

Lemma all_chars_pretty_N_go (x : N) (s : string) :
  all_chars Py.isdigit s = true →
  all_chars Py.isdigit (pretty_N_go x s) = true.
Proof.
  revert s. induction (N.lt_wf_0 x) as [x _ IH]. intros s Hs.
  destruct (decide (x = 0)%N) as [->|Hx]; [by rewrite pretty_N_go_0 |].
  rewrite pretty_N_go_step by lia.
  apply IH; [apply N.div_lt; lia |]. cbn [all_chars]. rewrite Hs.
  by destruct (pretty_N_char_digit (x `mod` 10)%N) as [-> _];
    [apply N.mod_lt |].
Qed.

Lemma length_pretty_N_go (x : N) (s : string) (k : nat) :
  Z.of_N x < 10 ^ Z.of_nat k →
  (String.length (pretty_N_go x s) ≤ k + String.length s)%nat.
Proof.
  revert s k. induction (N.lt_wf_0 x) as [x _ IH]. intros s k Hk.
  destruct (decide (x = 0)%N) as [->|Hx]; [rewrite pretty_N_go_0; lia |].
  rewrite pretty_N_go_step by lia.
  destruct k as [|k]; [rewrite Z.pow_0_r in Hk; lia |].
  rewrite Nat2Z.inj_succ, Z.pow_succ_r in Hk by lia.
  etrans.
  - apply (IH (x `div` 10)%N (N.div_lt x 10 ltac:(lia) ltac:(lia)) _ k).
    rewrite N2Z.inj_div. change (Z.of_N 10) with 10.
    apply Z.div_lt_upper_bound; lia.
  - cbn [String.length]. lia.
Qed.

(** [int(str(n)) = n] and [str(n).isdigit()] for a number that is not
    negative and has no more digits than [int] converts. *)
Lemma int_pretty (n : Z) :
  0 ≤ n → n < 10 ^ Z.of_nat Py.int_max_str_digits →
  Py.int (pretty n) = Some n ∧ str_isdigit (pretty n) = true.
Proof.
  intros Hn Hmax. destruct n as [|p|p]; [done | | lia].
  unfold pretty, pretty_Z, pretty, pretty_positive, pretty, pretty_N.
  rewrite decide_False by done.
  destruct (pretty_N_go_head (N.pos p) "") as (c & rest & E & Hc); [lia |].
  destruct (int_from_pretty_N_go (N.pos p) "") as (k & _ & H).
  pose proof (all_chars_pretty_N_go (N.pos p) "" eq_refl) as Hall.
  pose proof (length_pretty_N_go (N.pos p) "" _ Hmax) as Hlen.
  split.
  - unfold Py.int. rewrite E, <- E, (leading_digits_all _ Hall).
    destruct (Nat.ltb_spec Py.int_max_str_digits
                (String.length (pretty_N_go (N.pos p) "")));
      [cbn [String.length] in Hlen; lia |].
    rewrite (H 0). cbn [Py.int_from]. f_equal.
  - unfold str_isdigit. rewrite E at 1. cbn [Py.is_empty negb andb].
    eapply all_chars_impl; [| exact Hall].
    intros d Hd. unfold isdigit_char. by rewrite Hd.
Qed.

Lemma size_of_row (self : Main.ADBFileExplorer) (row : nat)
    (e : FileItem.t) (w : world) :
  Main.tree_model self !! row = Some (Main.row_of e) →
  0 ≤ FileItem.size e < 10 ^ Z.of_nat Py.int_max_str_digits →
  Sizes.is_dir_from_row self row = FileItem.is_dir e ∧
  Sizes.get_file_size_from_row self row w =
    (inr (if FileItem.is_dir e then 0 else FileItem.size e), w).
Proof.
  intros Hrow [Hsize Hmax].
  unfold Sizes.is_dir_from_row, Sizes.get_file_size_from_row, Main.data.
  rewrite Hrow. cbn [mbind option_bind Main.row_of lookup list_lookup].
  destruct (FileItem.is_dir e); cbn [negb].
  - by rewrite bool_decide_eq_true_2.
  - rewrite bool_decide_eq_false_2 by done. split; [done |].
    destruct (int_pretty (FileItem.size e) Hsize Hmax) as [Hint ->].
    unfold int. by rewrite Hint.
Qed.

(** The size column reads back.  For rows made from entries whose sizes
    are not negative and have no more digits than [int] converts, as
    every size that [list_directory] returns is and has,
    [is_dir_from_row] is the kind of the entry, [get_file_size_from_row]
    is its size if it is a file and 0 if it is a directory, and the total
    computed for a selection is the sum of the sizes of the selected
    files. *)
Theorem size_column_reads_back (self : Main.ADBFileExplorer)
    (indexes : list nat) (selected : list FileItem.t) (w : world) :
  Forall2 (λ row e, Main.tree_model self !! row = Some (Main.row_of e) ∧
                    0 ≤ FileItem.size e < 10 ^ Z.of_nat Py.int_max_str_digits)
    indexes selected →
  Forall2 (λ row e,
             Sizes.is_dir_from_row self row = FileItem.is_dir e ∧
             Sizes.get_file_size_from_row self row w =
               (inr (if FileItem.is_dir e then 0 else FileItem.size e), w))
    indexes selected ∧
  Sizes.total_size self indexes w =
    (inr (foldr (λ e total,
                   (if FileItem.is_dir e then 0 else FileItem.size e) + total)
            0 selected), w).
Proof.
  induction 1 as [|row e indexes selected [Hrow Hsize] _ [IH1 IH2]];
    [by split |].
  destruct (size_of_row self row e w Hrow Hsize) as [Hd Hs].
  split; [by constructor |].
  cbn [Sizes.total_size foldr]. rewrite Hd. unfold_monad.
  destruct (FileItem.is_dir e); cbn [negb]; [by rewrite IH2 |].
  by rewrite Hs, IH2.
Qed.

Lemma size_column_reads_back_witness :
  Sizes.total_size a_window [1; 2]%nat w0 = (inr 1024, w0).
Proof.
  apply (size_column_reads_back a_window [1; 2]%nat
           [FileItem.make "docs" "/sdcard/docs" true 4096 "drwxr-xr-x"
              "2024-01-15 10:30";
            FileItem.make "notes.txt" "/sdcard/notes.txt" false 1024
              "-rw-r--r--" "2024-01-15 10:30"] w0).
  assert (∀ n, 0 ≤ n < 10 ^ 4 →
               0 ≤ n < 10 ^ Z.of_nat Py.int_max_str_digits) as Hsmall.
  { intros n [? ?]. split; [done |]. eapply Z.lt_le_trans; [done |].
    apply Z.pow_le_mono_r; [lia |].
    apply (Nat2Z.inj_le 4), Nat.leb_le. reflexivity. }
  repeat constructor; try done; apply Hsmall; cbn [FileItem.size]; lia.
Defined.

(* ================================================================== *)
(** * The actions on one item (main.py) *)
(* ================================================================== *)

Section ItemActions.

Variable subprocess_run : nat → list string → outcome.

Lemma act_performs (self : Main.ADBFileExplorer) (req : Item.request)
    (w : world) :
  device_connected (Main.adb_handler self) = true →
  Item.act subprocess_run self req w =
  match Item.command self req with
  | None => (inr self, w)
  | Some op =>
      match perform subprocess_run (Main.adb_handler self) op w with
      | (inr (Flag true), w1) => Main.refresh_files subprocess_run self w1
      | (inr _, w1) => (inr self, w1)
      | (inl e, w1) => (inl e, w1)
      end
  end.
Proof.
  intros Hc.
  destruct req as [old_name new_name ok|name is_dir yes|name ok|name ok];
    cbn [Item.act Item.command];
    [unfold Item.rename_item | unfold Item.delete_item
    |unfold Item.create_new_file | unfold Item.create_new_folder];
    rewrite Hc; cbn [negb];
    match goal with
    | |- context [if ?c then _ else _] => destruct c; [| done]
    end;
    cbn [perform]; unfold_monad;
    match goal with
    | |- context [match ?f w with _ => _ end] =>
        destruct (f w) as [[e|[]] w1]; done
    end.
Qed.

(** Renaming, deleting or creating one item.  On a connected window each
    of these actions spawns nothing if its dialog is declined or gives no
    usable name; otherwise it spawns exactly one command, on the item of
    that name in the current directory, and lists the directory again
    after it exactly when the command completed with exit status 0.  The
    name is taken as it is: deleting the parent row removes [..] of the
    current directory.  The place of the window does not change. *)
Theorem item_action_one_command (self : Main.ADBFileExplorer)
    (req : Item.request) (w : world) :
  device_connected (Main.adb_handler self) = true →
  ∃ self' w',
    Item.act subprocess_run self req w = (inr self', w') ∧
    Main.same_place self self' ∧
    spawned w' = spawned w ++
      match Item.command self req with
      | None => []
      | Some op =>
          let cmd := argv_of (Main.adb_handler self) op in
          cmd :: (if exit_ok (subprocess_run (length (spawned w)) cmd)
                  then [argv_of (Main.adb_handler self)
                          (ListDirectory (Main.current_path self))]
                  else [])
      end.
Proof.
  intros Hc. rewrite (act_performs self req w Hc).
  destruct (Item.command self req) as [op|] eqn:Eop.
  - assert (one_command op = true) as Hone.
    { destruct req; cbn [Item.command] in Eop;
        repeat match type of Eop with
               | (if ?c then _ else _) = _ => destruct c
               end; by inversion Eop. }
    destruct (one_command_outcome subprocess_run (Main.adb_handler self) op w
                Hc Hone) as (w1 & -> & Hs & _).
    cbv zeta. destruct (exit_ok _).
    + destruct (refresh_files_spawned subprocess_run self w1 Hc)
        as (s' & w' & E & Hp & Hs').
      exists s', w'. split; [exact E |]. split; [exact Hp |].
      rewrite Hs', Hs, <- app_assoc. done.
    + exists self, w1. split; [done |]. split; [by repeat split |].
      exact Hs.
  - exists self, w. split; [done |]. split; [by repeat split |].
    by rewrite app_nil_r.
Qed.

End ItemActions.

Lemma item_action_one_command_witness :
  ∃ self' w',
    Item.act (always (mkCompleted 0 "" "")) a_window
      (Item.Delete ".." true true) w0 = (inr self', w') ∧
    spawned w' =
      [["adb"; "-s"; "ABC123"; "shell"; "rm -r " +:+ escape_path "/sdcard/.."];
       ["adb"; "-s"; "ABC123"; "shell"; ls_command "/sdcard"]].
Proof.
  destruct (item_action_one_command (always (mkCompleted 0 "" "")) a_window
              (Item.Delete ".." true true) w0)
    as (self' & w' & E & _ & Hs); [reflexivity |].
  exists self', w'. split; [exact E |]. rewrite Hs. reflexivity.
Defined.

(* ================================================================== *)
(** * The clipboard (main.py) *)
(* ================================================================== *)

Section Pasting.

Variable subprocess_run : nat → list string → outcome.
Variable basename : string → string.

(** Copying or moving to a destination in a directory: the directory is
    created, then the item is copied or moved, and the flag is the exit
    status of this second command. *)
Lemma transfer_outcome (h : ADBHandler) (op : option Clip.mode)
    (dest_dir : string) (it : Clip.item) (w : world) :
  device_connected h = true → dest_dir ≠ "" →
  all_chars (λ c, negb (Ascii.eqb c "/")) (basename (Clip.path it)) = true →
  ∃ w',
    match op with
    | Some Clip.copy =>
        copy_on_device subprocess_run h (Clip.path it)
          (Clip.dest_path basename dest_dir it)
    | _ =>
        move_on_device subprocess_run h (Clip.path it)
          (Clip.dest_path basename dest_dir it)
    end w =
    (inr (Clip.succeeded subprocess_run basename h op dest_dir
            (length (spawned w)) 0 it), w') ∧
    spawned w' = spawned w ++ Clip.commands basename h op dest_dir it.
Proof.
  intros Hc Hdir Hbase.
  assert (parent_dir (Clip.dest_path basename dest_dir it) = dest_dir) as Hp
    by by apply parent_dir_of_child.
  assert (Py.is_empty dest_dir = false) as He by by destruct dest_dir.
  unfold Clip.succeeded, Clip.commands.
  rewrite Nat.mul_0_r, Nat.add_0_r.
  destruct op as [[|]|];
    [unfold copy_on_device | unfold move_on_device | unfold move_on_device];
    rewrite Hc; cbn [negb]; unfold_monad; cbv zeta; rewrite Hp, He;
    cbn [negb];
    destruct (create_folder_spec subprocess_run h dest_dir w Hc)
      as (w1 & -> & Hs);
    rewrite run_adb_command_spec; cbv zeta; rewrite Hs, length_app;
    cbn [length argv_of];
    (destruct (subprocess_run _ _) as [r|e]; [| destruct e]);
    (eexists; split; [reflexivity |]);
    unfold logged, after_spawn; cbn [spawned];
    by rewrite Hs, <- app_assoc.
Qed.

Lemma paste_loop_outcome (self : Main.ADBFileExplorer)
    (op : option Clip.mode) (dest_dir : string) (wasCanceled : nat → bool)
    (n : nat) (items : list Clip.item) (i count : nat) (w : world) :
  device_connected (Main.adb_handler self) = true → dest_dir ≠ "" →
  Forall (λ it, all_chars (λ c, negb (Ascii.eqb c "/"))
                  (basename (Clip.path it)) = true) items →
  length (spawned w) = (n + 2 * i)%nat →
  let pasted := take (Main.rounds wasCanceled i (length items)) items in
  ∃ w',
    Clip.paste_loop subprocess_run basename self op dest_dir wasCanceled i
      items count w =
    (inr (count + length (List.filter id
            (imap (λ j, Clip.succeeded subprocess_run basename
                          (Main.adb_handler self) op dest_dir n (i + j))
               pasted)))%nat, w') ∧
    spawned w' = spawned w ++
      concat (map (Clip.commands basename (Main.adb_handler self) op dest_dir)
                pasted).
Proof.
  intros Hc Hdir Hbase. revert i count w.
  induction Hbase as [|it items Hit Hbase IH]; intros i count w Hlen;
    cbv zeta.
  - eexists. split; [cbn; by rewrite Nat.add_0_r |]. by rewrite app_nil_r.
  - cbn [Clip.paste_loop length Main.rounds].
    destruct (wasCanceled i).
    { eexists. split; [cbn; by rewrite Nat.add_0_r |]. by rewrite app_nil_r. }
    unfold_monad. cbv zeta.
    destruct (transfer_outcome (Main.adb_handler self) op dest_dir it w
                Hc Hdir Hit) as (w1 & E & Hs).
    assert (Clip.succeeded subprocess_run basename (Main.adb_handler self) op
              dest_dir (length (spawned w)) 0 it
            = Clip.succeeded subprocess_run basename (Main.adb_handler self) op
                dest_dir n i it) as Hsame.
    { unfold Clip.succeeded. rewrite Hlen. do 2 f_equal. lia. }
    rewrite Hsame in E.
    rewrite E.
    destruct (IH (S i)
                (if Clip.succeeded subprocess_run basename
                      (Main.adb_handler self) op dest_dir n i it
                 then S count else count) w1) as (w' & E' & Hs');
      [rewrite Hs, length_app, Hlen; cbn [Clip.commands length]; lia |].
    cbv zeta in E'. rewrite E'.
    eexists. split;
      [| rewrite Hs', Hs, <- app_assoc; cbn [take map concat]; done].
    cbn [take imap List.filter]. rewrite Nat.add_0_r.
    f_equal. f_equal.
    match goal with
    | |- context [imap (?f ∘ S) ?l] =>
        rewrite (imap_ext (f ∘ S)
                   (λ j, Clip.succeeded subprocess_run basename
                           (Main.adb_handler self) op dest_dir n (S i + j)) l)
          by (intros j x _; cbn; by rewrite Nat.add_succ_r)
    end.
    destruct (Clip.succeeded _ _ _ _ _ _ i it); cbn [id length]; lia.
Qed.

Lemma count_true_exists (l : list bool) :
  (0 <? length (List.filter id l))%nat = existsb id l.
Proof. induction l as [|[|] l IH]; cbn; done. Qed.

(** Pasting.  On a connected window each item of the clipboard, up to the
    first position at which the progress dialog was cancelled, costs two
    commands: the current directory is created ([mkdir -p]) and the item
    is copied ([cp -r]) or moved ([mv]) into it under its base name.  An
    item counts as pasted exactly when the second of its commands
    completed with exit status 0.  If at least one item was pasted the
    directory is listed again, and a clipboard that was filled by cutting
    is emptied then, whether or not the other items were moved; otherwise
    nothing is listed and the clipboard stays as it is.  An empty
    clipboard spawns nothing. *)
Theorem paste_commands (self : Main.ADBFileExplorer) (clip : Clip.clipboard)
    (wasCanceled : nat → bool) (w : world) :
  device_connected (Main.adb_handler self) = true →
  Main.current_path self ≠ "" →
  Forall (λ it, all_chars (λ c, negb (Ascii.eqb c "/"))
                  (basename (Clip.path it)) = true) (Clip.items clip) →
  let h := Main.adb_handler self in
  let dest_dir := Main.current_path self in
  let op := Clip.operation clip in
  let pasted :=
    take (Main.rounds wasCanceled 0 (length (Clip.items clip)))
      (Clip.items clip) in
  let some_pasted :=
    existsb id
      (imap (Clip.succeeded subprocess_run basename h op dest_dir
               (length (spawned w))) pasted) in
  ∃ self' w',
    Clip.paste_items subprocess_run basename self clip wasCanceled w =
    (inr (self',
          match op with
          | Some Clip.cut => if some_pasted then Clip.empty else clip
          | _ => clip
          end), w') ∧
    Main.same_place self self' ∧
    spawned w' = spawned w ++
      concat (map (Clip.commands basename h op dest_dir) pasted) ++
      (if some_pasted then [argv_of h (ListDirectory dest_dir)] else []).
Proof.
  intros Hc Hdir Hbase h dest_dir op pasted some_pasted.
  unfold Clip.paste_items.
  destruct (Clip.items clip) as [|it items] eqn:Ei.
  { exists self, w. subst pasted some_pasted. cbn.
    split; [by destruct op as [[|]|] |]. split; [by repeat split |].
    by rewrite app_nil_r. }
  unfold_monad. cbv zeta.
  destruct (paste_loop_outcome self op dest_dir wasCanceled
              (length (spawned w)) (it :: items) 0 0 w Hc Hdir Hbase)
    as (w1 & E & Hs); [lia |].
  cbv zeta in E. fold op dest_dir. rewrite E. cbn [Nat.add].
  fold pasted in E, Hs |- *. fold h in Hs |- *.
  match goal with
  | |- context [(0 <? ?n)%nat] =>
      assert ((0 <? n)%nat = some_pasted) as ->
  end.
  { exact (count_true_exists _). }
  destruct some_pasted.
  - destruct (refresh_files_spawned subprocess_run self w1 Hc)
      as (s' & w' & E' & Hp & Hs').
    rewrite E'. exists s', w'.
    split; [by destruct op as [[|]|] |]. split; [exact Hp |].
    rewrite Hs', Hs, <- app_assoc. done.
  - exists self, w1. split; [by destruct op as [[|]|] |].
    split; [by repeat split |]. by rewrite Hs, app_nil_r.
Qed.

End Pasting.

Lemma paste_commands_witness :
  ∃ self' w',
    Clip.paste_items (always (mkCompleted 0 "" "")) posix_basename a_window
      (Clip.mkClipboard
         [Clip.mkItem "notes.txt" "/data/notes.txt" false] (Some Clip.cut))
      (λ _, false) w0 = (inr (self', Clip.empty), w') ∧
    spawned w' =
      [["adb"; "-s"; "ABC123"; "shell"; "mkdir -p " +:+ escape_path "/sdcard"];
       ["adb"; "-s"; "ABC123"; "shell";
        "mv " +:+ escape_path "/data/notes.txt" +:+ " " +:+
        escape_path "/sdcard/notes.txt"];
       ["adb"; "-s"; "ABC123"; "shell"; ls_command "/sdcard"]].
Proof.
  destruct (paste_commands (always (mkCompleted 0 "" "")) posix_basename
              a_window
              (Clip.mkClipboard
                 [Clip.mkItem "notes.txt" "/data/notes.txt" false]
                 (Some Clip.cut))
              (λ _, false) w0) as (self' & w' & E & _ & Hs);
    [reflexivity | done | by repeat constructor |].
  exists self', w'. split; [exact E |]. rewrite Hs. reflexivity.
Defined.
